(** * INDEC consumer price index: the link resolver and the table extractor

    A shallow embedding of [src/INDEC_consumer_price_index.py].

    The three libraries the script calls (requests, BeautifulSoup, pandas/xlrd)
    are black boxes: the model starts from what they hand back, that is the
    list of anchors of the fetched page, the list of sheets of the workbook
    and the grid of Python objects of a sheet.  Python objects are modelled
    by the type [value]; a [str] is the list of its Unicode code points; the
    three facts that come from Python's runtime tables (the Unicode decimal
    digits behind [\d], [str.lower] and [round] on a float) are parameters of
    the sections that use them. *)

From Stdlib Require Import String Ascii ZArith NArith List Bool Lia PrimFloat.
Import ListNotations.

Local Open Scope bool_scope.
Local Open Scope list_scope.

(** ** Python strings *)

Definition codepoint := N.
Definition str := list codepoint.

(** A literal whose characters all lie below U+0100, one code point each. *)
Definition u (s : string) : str := map N_of_ascii (list_ascii_of_string s).

(** [a == b] on two [str]. *)
Fixpoint str_eqb (a b : str) : bool :=
  match a, b with
  | [], [] => true
  | x :: a', y :: b' => N.eqb x y && str_eqb a' b'
  | _, _ => false
  end.

(** [x in xs] for a list of [str]. *)
Definition str_in (x : str) (xs : list str) : bool := existsb (str_eqb x) xs.

(** [d[k]] for a dict with [str] keys, [None] when [k not in d]. *)
Fixpoint dict_get (d : list (str * str)) (k : str) : option str :=
  match d with
  | [] => None
  | (k', v) :: d' => if str_eqb k k' then Some v else dict_get d' k
  end.

(** [s.startswith(p)]. *)
Fixpoint startswith (s p : str) : bool :=
  match p, s with
  | [], _ => true
  | y :: p', x :: s' => N.eqb x y && startswith s' p'
  | _ :: _, [] => false
  end.

(** [s.endswith(p)]. *)
Definition endswith (s p : str) : bool := startswith (rev s) (rev p).

(** [p in s] for two [str]: [p] occurs in [s] as a substring. *)
Fixpoint contains (s p : str) : bool :=
  startswith s p ||
  match s with
  | [] => false
  | _ :: s' => contains s' p
  end.

(** [s.split(sep)] for a one-character separator. *)
Fixpoint split_on (sep : codepoint) (s : str) : list str :=
  match s with
  | [] => [[]]
  | c :: s' =>
      if N.eqb c sep then [] :: split_on sep s'
      else match split_on sep s' with
           | [] => [[c]]
           | w :: ws => (c :: w) :: ws
           end
  end.

(** [sep.join(parts)]. *)
Fixpoint join (sep : str) (parts : list str) : str :=
  match parts with
  | [] => []
  | [p] => p
  | p :: ps => p ++ sep ++ join sep ps
  end.

(** ** Python objects found in a cell *)

Inductive value : Type :=
| PyInt (n : Z)          (* int *)
| PyFloat (x : float)    (* float; an empty cell is the float NaN *)
| PyBool (b : bool)      (* bool, a subclass of int *)
| PyStr (s : str)        (* str *)
| PyNone                 (* None *)
| PyOther.               (* any other object: datetime, time, ... *)

(** Truth value of a variable that holds [None] or a [str]. *)
Definition truthy (o : option str) : bool :=
  match o with
  | Some (_ :: _) => true
  | _ => false
  end.

(** [isinstance(value, (int, float)) and value > 0], line 159. *)
Definition is_price (v : value) : bool :=
  match v with
  | PyInt n => (0 <? n)%Z
  | PyFloat x => PrimFloat.ltb 0%float x
  | PyBool b => b
  | _ => false
  end.

(** [isinstance(value, str)]. *)
Definition isinstance_str (v : value) : bool :=
  match v with
  | PyStr _ => true
  | _ => false
  end.

(** ** The sheet read by pandas *)

(** [sheet_data]: the columns of the frame in order, each the list of its
    cells from the first row down; pandas keeps all columns the same height. *)
Definition Sheet := list (list value).

Definition nan_cell : value := PyFloat nan.

(** [sheet_data.iloc[row_idx]]: the cells of one row, one per column. *)
Definition iloc (sheet_data : Sheet) (row_idx : nat) : list value :=
  map (fun column_data => nth row_idx column_data nan_cell) sheet_data.

(** [enumerate(xs)]. *)
Definition enumerate {A : Type} (xs : list A) : list (nat * A) :=
  combine (seq 0 (length xs)) xs.

(** ** Constants of the extractor, lines 144-151 *)

Definition valid_regions : list str :=
  [u "GBA"; u "Pampeana"; u "Noreste"; u "Noroeste"; u "Cuyo"; u "Patagonia"].

Definition month_mapping : list (str * str) :=
  [(u "Enero", u "01"); (u "Febrero", u "02"); (u "Marzo", u "03");
   (u "Abril", u "04"); (u "Mayo", u "05"); (u "Junio", u "06");
   (u "Julio", u "07"); (u "Agosto", u "08"); (u "Septiembre", u "09");
   (u "Octubre", u "10"); (u "Noviembre", u "11"); (u "Diciembre", u "12")].

(** ** The variables of one call, lines 137-154 *)

Record locals : Type := mkLocals {
  price_data : list value;
  region_data : list (option str);
  product_data : list (option str);
  unit_data : list (option str);
  date_data : list (option str);
  last_year_found : option str
}.

(** ** The output frame *)

Record Observation : Type := mkObservation {
  Date : value;
  Region : value;
  Product : value;
  Unit : value;
  Price : value
}.

(** A frame with the five columns of [create_empty_dataframe] and the default
    index 0, 1, ...: the list of its rows.  A cell holds the object that was
    assigned to it (pandas then stores a column of ints and floats as
    floats, which changes no value compared here). *)
Definition DataFrame := list Observation.

Definition create_empty_dataframe : DataFrame := [].

Definition nan_row : Observation :=
  mkObservation nan_cell nan_cell nan_cell nan_cell nan_cell.

(** [df.reindex(range(n))]: the rows labelled 0 .. n-1, missing ones filled
    with NaN.  pandas raises [ValueError] when the index of [df] repeats a
    label; the default index of a [DataFrame] here never does, so on these
    frames the call cannot fail. *)
Definition reindex (df : DataFrame) (n : nat) : DataFrame :=
  firstn n df ++ repeat nan_row (n - length df).

(** [df[column] = values]: [ValueError] ([None]) unless there is one value
    per row. *)
Fixpoint set_column (set : Observation -> value -> Observation)
    (df : DataFrame) (values : list value) : option DataFrame :=
  match df, values with
  | [], [] => Some []
  | o :: df', v :: values' =>
      match set_column set df' values' with
      | Some df'' => Some (set o v :: df'')
      | None => None
      end
  | _, _ => None
  end.

Definition set_Price (o : Observation) (v : value) : Observation :=
  mkObservation (Date o) (Region o) (Product o) (Unit o) v.
Definition set_Region (o : Observation) (v : value) : Observation :=
  mkObservation (Date o) v (Product o) (Unit o) (Price o).
Definition set_Product (o : Observation) (v : value) : Observation :=
  mkObservation (Date o) (Region o) v (Unit o) (Price o).
Definition set_Unit (o : Observation) (v : value) : Observation :=
  mkObservation (Date o) (Region o) (Product o) v (Price o).
Definition set_Date (o : Observation) (v : value) : Observation :=
  mkObservation v (Region o) (Product o) (Unit o) (Price o).

(** A variable that holds [None] or a [str], as the object stored in a cell. *)
Definition to_value (o : option str) : value :=
  match o with
  | Some s => PyStr s
  | None => PyNone
  end.

(** ** The table extractor, [populate_price_column_with_numbers] *)

Section TableExtractor.

(** [\d] of Python's [re] on a [str]: the Unicode decimal digits (category
    Nd of the interpreter's Unicode database). *)
Variable isdecimal : codepoint -> bool.

(** [round(x, 2)] on a float. *)
Variable round2_float : float -> float.

(** [str.lower]. *)
Variable lower : str -> str.

(** [re.match(r"(?i)año \d{4}", s)] succeeds.  Under [(?i)] the literals
    a, ñ (U+00F1) and o also match A, Ñ (U+00D1) and O, and nothing else;
    the match is anchored at the start of [s] only. *)
Definition re_match_year (s : str) : bool :=
  match s with
  | c0 :: c1 :: c2 :: c3 :: d0 :: d1 :: d2 :: d3 :: _ =>
      (N.eqb c0 97 || N.eqb c0 65) && (N.eqb c1 241 || N.eqb c1 209) &&
      (N.eqb c2 111 || N.eqb c2 79) && N.eqb c3 32 &&
      isdecimal d0 && isdecimal d1 && isdecimal d2 && isdecimal d3
  | _ => false
  end.

(** [re.search(r"\d{4}", s)]: the leftmost four consecutive decimal digits,
    [None] when there are none. *)
Fixpoint re_search_4digits (s : str) : option str :=
  match s with
  | [] => None
  | _ :: rest =>
      match s with
      | d0 :: d1 :: d2 :: d3 :: _ =>
          if isdecimal d0 && isdecimal d1 && isdecimal d2 && isdecimal d3
          then Some [d0; d1; d2; d3]
          else re_search_4digits rest
      | _ => None
      end
  end.

(** The loop of lines 164-173 over the cells of the candidate's column,
    from the values of [date_found], [year_found] and [last_year_found]
    reached so far; it returns the three variables when the loop ends or
    breaks.  Line 169 calls [.group()] on the search result, which exists
    whenever line 168 matched (lemma [re_match_year_search]). *)
Fixpoint date_loop (column_data : list value)
    (date_found year_found last_year : option str)
    : option str * option str * option str :=
  match column_data with
  | [] => (date_found, year_found, last_year)
  | PyStr cell_value :: rest =>
      let '(date_found, year_found, last_year) :=
        match dict_get month_mapping cell_value with
        | Some month => (Some month, year_found, last_year)
        | None =>
            if re_match_year cell_value
            then (date_found, re_search_4digits cell_value,
                  re_search_4digits cell_value)
            else (date_found, year_found, last_year)
        end in
      if truthy date_found && truthy year_found
      then (date_found, year_found, last_year)
      else date_loop rest date_found year_found last_year
  | _ :: rest => date_loop rest date_found year_found last_year
  end.

(** Lines 175-182: the date of the candidate from what the loop found. *)
Definition full_date_of (date_found year_found last_year : option str)
    : option str :=
  let year_found :=
    if truthy date_found && negb (truthy year_found)
    then last_year else year_found in
  if truthy date_found && truthy year_found
  then match year_found, date_found with
       | Some y, Some m => Some (y ++ u "-" ++ m ++ u "-01")
       | _, _ => None
       end
  else None.

(** The loops of lines 193-196 and 199-202: the first [str] among [cells]
    replaces [product_found]; without one the variable keeps its value. *)
Fixpoint next_str (cells : list value) (product_found : option str)
    : option str :=
  match cells with
  | [] => product_found
  | PyStr next_value :: _ => Some next_value
  | _ :: rest => next_str rest product_found
  end.

(** The loop of lines 188-204 over [enumerate(row)].  It returns
    [region_found], [product_found] and the two lists it appends to. *)
Fixpoint region_loop (row : list value) (items : list (nat * value))
    (product_data unit_data : list (option str))
    : option str * option str * list (option str) * list (option str) :=
  match items with
  | [] => (None, None, product_data, unit_data)
  | (idx, check_value) :: rest =>
      match check_value with
      | PyStr s =>
          if str_in s valid_regions then
            let region_found := Some s in
            let product_found := next_str (skipn (idx + 1) row) None in
            let product_data := product_data ++ [product_found] in
            let product_found := next_str (skipn (idx + 2) row) product_found in
            let unit_data := unit_data ++ [product_found] in
            (region_found, product_found, product_data, unit_data)
          else region_loop row rest product_data unit_data
      | _ => region_loop row rest product_data unit_data
      end
  end.

(** [row.iloc[k] if len(row) > k and isinstance(row.iloc[k], str) else None],
    lines 208-213.  Line 208 has no length test; the row has one cell per
    column and the candidate sits in one of them, so cell 0 exists. *)
Definition str_cell (row : list value) (k : nat) : option str :=
  match nth_error row k with
  | Some (PyStr s) => Some s
  | _ => None
  end.

(** Lines 185-214: the region, product and unit of a candidate's row. *)
Definition row_fields (row : list value)
    (product_data unit_data : list (option str))
    : option str * list (option str) * list (option str) :=
  let '(region_found, product_found, product_data, unit_data) :=
    region_loop row (enumerate row) product_data unit_data in
  if negb (truthy region_found) then
    let region_found := str_cell row 0 in
    let product_found := str_cell row 1 in
    let product_data := product_data ++ [product_found] in
    let unit_found := str_cell row 2 in
    let unit_data := unit_data ++ [product_found] in
    (region_found, product_data, unit_data)
  else (region_found, product_data, unit_data).

(** Lines 160-217: the body of the [if] for one price candidate. *)
Definition candidate (sheet_data : Sheet) (column_data : list value)
    (row_idx : nat) (v : value) (st : locals) : locals :=
  let price_data := price_data st ++ [v] in
  let '(date_found, year_found, last_year) :=
    date_loop column_data None None (last_year_found st) in
  let full_date := full_date_of date_found year_found last_year in
  let row := iloc sheet_data row_idx in
  let '(region_found, product_data, unit_data) :=
    row_fields row (product_data st) (unit_data st) in
  mkLocals price_data
           (region_data st ++ [region_found])
           product_data
           unit_data
           (date_data st ++ [full_date])
           last_year.

(** The inner loop, line 157, over [enumerate(column_data)]. *)
Fixpoint column_loop (sheet_data : Sheet) (column_data : list value)
    (items : list (nat * value)) (st : locals) : locals :=
  match items with
  | [] => st
  | (row_idx, v) :: rest =>
      let st := if is_price v
                then candidate sheet_data column_data row_idx v st
                else st in
      column_loop sheet_data column_data rest st
  end.

(** The outer loop, line 156, over the columns of the sheet. *)
Fixpoint sheet_loop (sheet_data : Sheet) (columns : list (list value))
    (st : locals) : locals :=
  match columns with
  | [] => st
  | column_data :: rest =>
      sheet_loop sheet_data rest
        (column_loop sheet_data column_data (enumerate column_data) st)
  end.

(** Lines 137-154: the call binds its variables anew, whatever they held. *)
Definition bind_locals (before : locals) : locals :=
  mkLocals [] [] [] [] [] None.

Definition fresh_locals : locals := mkLocals [] [] [] [] [] None.

(** [round(price, 2)], line 222: an int is returned as it is, a bool as
    the int it stands for, a float rounded; [TypeError] ([None]) on
    anything else. *)
Definition round2 (price : value) : option value :=
  match price with
  | PyInt n => Some (PyInt n)
  | PyBool b => Some (PyInt (if b then 1 else 0))
  | PyFloat x => Some (PyFloat (round2_float x))
  | _ => None
  end.

(** [[round(price, 2) for price in price_data]]. *)
Fixpoint round_all (prices : list value) : option (list value) :=
  match prices with
  | [] => Some []
  | price :: rest =>
      match round2 price, round_all rest with
      | Some r, Some rs => Some (r :: rs)
      | _, _ => None
      end
  end.

Definition bind {A B : Type} (m : option A) (f : A -> option B) : option B :=
  match m with
  | Some a => f a
  | None => None
  end.

(** Lines 219-228: the five columns are written into a reindexed copy of
    [df] when there is at least one price; otherwise [df] is returned. *)
Definition fill_frame (df : DataFrame) (st : locals) : option DataFrame :=
  match price_data st with
  | [] => Some df
  | _ :: _ =>
      let df := reindex df (length (price_data st)) in
      bind (round_all (price_data st)) (fun prices =>
      bind (set_column set_Price df prices) (fun df =>
      bind (set_column set_Region df (map to_value (region_data st))) (fun df =>
      bind (set_column set_Product df (map to_value (product_data st))) (fun df =>
      bind (set_column set_Unit df (map to_value (unit_data st))) (fun df =>
      set_column set_Date df (map to_value (date_data st)))))))
  end.

(** [find_sheet_case_insensitive], lines 120-126, on the sheet names of
    the workbook: [remaining] are the names the loop has yet to visit;
    [IndexError] ([None]) when the workbook has no sheet. *)
Fixpoint find_sheet_loop (sheets remaining : list str) (sheet_name : str)
    : option str :=
  match remaining with
  | [] => nth_error sheets 0
  | sheet :: rest =>
      if str_eqb (lower sheet) (lower sheet_name) then Some sheet
      else find_sheet_loop sheets rest sheet_name
  end.

(** The workbook as the spreadsheet reader presents it: its sheets in file
    order, each with its name and its grid. *)
Definition Workbook := list (str * Sheet).

Definition sheet_names (file_content : Workbook) : list str :=
  map fst file_content.

Definition find_sheet_case_insensitive (file_content : Workbook)
    (sheet_name : str) : option str :=
  find_sheet_loop (sheet_names file_content) (sheet_names file_content)
    sheet_name.

(** [pd.read_excel(excel_data, sheet_name=name, header=None)]: the grid of
    the first sheet called [name]; an exception ([None]) without one. *)
Fixpoint read_excel (file_content : Workbook) (name : str) : option Sheet :=
  match file_content with
  | [] => None
  | (n, sheet) :: rest =>
      if str_eqb n name then Some sheet else read_excel rest name
  end.

(** Lines 131-134: the grid of the sheet the call works on. *)
Definition read_sheet (file_content : Workbook) (sheet_name : str)
    : option Sheet :=
  bind (find_sheet_case_insensitive file_content sheet_name)
       (read_excel file_content).

(** Lines 137-217: the variables are bound, then the two loops run. *)
Definition scan (sheet_data : Sheet) (before : locals) : locals :=
  sheet_loop sheet_data sheet_data (bind_locals before).

(** One call of [populate_price_column_with_numbers] that starts with its
    variables holding [before]; it returns the frame and the variables as
    the call leaves them.  An exception while the sheet is read leaves the
    variables as they were. *)
Definition populate_from (before : locals) (file_content : Workbook)
    (sheet_name : str) (df : DataFrame) : option DataFrame * locals :=
  match read_sheet file_content sheet_name with
  | None => (None, before)
  | Some sheet_data =>
      let st := scan sheet_data before in
      (fill_frame df st, st)
  end.

Definition populate_price_column_with_numbers (file_content : Workbook)
    (sheet_name : str) (df : DataFrame) : option DataFrame :=
  fst (populate_from fresh_locals file_content sheet_name df).

(** *** What one candidate appends, read off the code above *)

(** The region, product and unit appended for a candidate of [row]. *)
Definition region_of (row : list value) : option str :=
  fst (fst (row_fields row [] [])).
Definition product_of (row : list value) : option str :=
  hd None (snd (fst (row_fields row [] []))).
Definition unit_of (row : list value) : option str :=
  hd None (snd (row_fields row [] [])).

(** The date appended for a candidate of [column_data] when the last year
    seen so far is [last_year], and the last year seen afterwards. *)
Definition date_of (column_data : list value) (last_year : option str)
    : option str :=
  let '(date_found, year_found, last_year) :=
    date_loop column_data None None last_year in
  full_date_of date_found year_found last_year.

Definition year_after (column_data : list value) (last_year : option str)
    : option str :=
  snd (date_loop column_data None None last_year).

(** *** Vocabulary of the properties *)

(** The price candidates among [cells], in order. *)
Definition price_cells (cells : list value) : list value :=
  filter is_price cells.

(** The cells of the sheet in the order of the scan: column after column,
    each from its first row down. *)
Definition scan_order (sheet_data : Sheet) : list value := concat sheet_data.

(** The number of candidates the scan meets before it reaches row
    [row_idx] of [column_data], the column that follows [columns_before]:
    the position of that cell's entry in the output. *)
Definition position (columns_before : list (list value))
    (column_data : list value) (row_idx : nat) : nat :=
  length (price_cells (concat columns_before)) +
  length (price_cells (firstn row_idx column_data)).

(** The first [str] among [cells]. *)
Fixpoint first_str (cells : list value) : option str :=
  match cells with
  | [] => None
  | PyStr s :: _ => Some s
  | _ :: rest => first_str rest
  end.

(** [cell] is a [str] equal to one of the six region names. *)
Definition is_region (cell : value) : bool :=
  match cell with
  | PyStr s => str_in s valid_regions
  | _ => false
  end.

(** The code of the month [cell] names, if it names one. *)
Definition month_token (cell : value) : option str :=
  match cell with
  | PyStr s => dict_get month_mapping s
  | _ => None
  end.

(** [cell] is a [str] that matches the year pattern. *)
Definition year_token (cell : value) : bool :=
  match cell with
  | PyStr s => re_match_year s
  | _ => false
  end.

(** The code of the last month named in the column. *)
Definition last_month (column_data : list value) : option str :=
  fold_left (fun acc cell =>
               match month_token cell with
               | Some m => Some m
               | None => acc
               end) column_data None.

(** The year the date inference of a candidate of [column_data] reads in
    that column: the last year token met before the loop of lines 164-173
    ends or breaks. *)
Definition observed_year (column_data : list value) : option str :=
  snd (fst (date_loop column_data None None None)).

(** The cells the loop of lines 164-173 reads in a column: every cell up to
    and including the text cell at which both a month and a year have been
    met, all of them when that never happens. *)
Fixpoint cells_read (column_data : list value) (month_met year_met : bool)
    : list value :=
  match column_data with
  | [] => []
  | cell :: rest =>
      let is_month := match month_token cell with
                      | Some _ => true
                      | None => false
                      end in
      let month_met := month_met || is_month in
      let year_met := year_met || (negb is_month && year_token cell) in
      if isinstance_str cell && (month_met && year_met) then [cell]
      else cell :: cells_read rest month_met year_met
  end.

(** The four digits of the last year token among [cells], from [known]. *)
Definition last_year_among (cells : list value) (known : option str)
    : option str :=
  fold_left (fun acc cell =>
               match month_token cell with
               | Some _ => acc
               | None =>
                   if year_token cell
                   then match cell with
                        | PyStr s => re_search_4digits s
                        | _ => acc
                        end
                   else acc
               end) cells known.

(** [y] when a year was observed, the year known before otherwise. *)
Definition carry (observed known : option str) : option str :=
  match observed with
  | Some _ => observed
  | None => known
  end.

(** A cell whose value is numeric and strictly greater than zero. *)
Inductive numeric_positive : value -> Prop :=
| positive_int (n : Z) : (0 < n)%Z -> numeric_positive (PyInt n)
| positive_float (x : float) :
    PrimFloat.ltb 0%float x = true -> numeric_positive (PyFloat x)
| positive_bool : numeric_positive (PyBool true).

(** [cell] if it is text, absent otherwise or when there is no such cell. *)
Definition text_or_absent (cell : option value) : value :=
  match cell with
  | Some (PyStr s) => PyStr s
  | _ => PyNone
  end.

(** *** The scan as a list of entries *)

(** What one candidate appends to the five lists. *)
Record pending : Type := mkPending {
  p_price : value;
  p_region : option str;
  p_product : option str;
  p_unit : option str;
  p_date : option str
}.

(** The variables after the entry [e] is appended and the last year seen
    becomes [last_year]. *)
Definition push (st : locals) (e : pending) (last_year : option str)
    : locals :=
  mkLocals (price_data st ++ [p_price e])
           (region_data st ++ [p_region e])
           (product_data st ++ [p_product e])
           (unit_data st ++ [p_unit e])
           (date_data st ++ [p_date e])
           last_year.

(** The variables after the entries [es] are appended. *)
Definition push_all (st : locals) (es : list pending)
    (last_year : option str) : locals :=
  mkLocals (price_data st ++ map p_price es)
           (region_data st ++ map p_region es)
           (product_data st ++ map p_product es)
           (unit_data st ++ map p_unit es)
           (date_data st ++ map p_date es)
           last_year.

(** The entry of the candidate [v] at row [row_idx] of [column_data]. *)
Definition pending_of (sheet_data : Sheet) (column_data : list value)
    (known : option str) (row_idx : nat) (v : value) : pending :=
  let row := iloc sheet_data row_idx in
  mkPending v (region_of row) (product_of row) (unit_of row)
            (date_of column_data known).

(** The entries of the candidates among [items], cells of [column_data]
    paired with their row numbers. *)
Definition items_entries (sheet_data : Sheet) (column_data : list value)
    (known : option str) (items : list (nat * value)) : list pending :=
  map (fun item => pending_of sheet_data column_data known (fst item) (snd item))
      (filter (fun item => is_price (snd item)) items).

(** The last year seen once the scan has gone through [column_data]. *)
Definition year_step (known : option str) (column_data : list value)
    : option str :=
  if existsb is_price column_data
  then carry (observed_year column_data) known
  else known.

(** The most recent year observed by the date inferences run in the columns
    [columns]: only a column that holds a candidate has its cells read. *)
Definition last_seen_year (columns : list (list value)) : option str :=
  fold_left year_step columns None.

(** The entries of the candidates of [columns], in the order of the scan. *)
Fixpoint columns_entries (sheet_data : Sheet) (columns : list (list value))
    (known : option str) : list pending :=
  match columns with
  | [] => []
  | column_data :: rest =>
      items_entries sheet_data column_data known (enumerate column_data) ++
      columns_entries sheet_data rest (year_step known column_data)
  end.

(** [round(price, 2)] where it raises nothing. *)
Definition rounded (price : value) : value :=
  match round2 price with
  | Some r => r
  | None => price
  end.

(** The row of the output frame an entry becomes. *)
Definition observation_of (e : pending) : Observation :=
  mkObservation (to_value (p_date e)) (to_value (p_region e))
                (to_value (p_product e)) (to_value (p_unit e))
                (rounded (p_price e)).

(** Row [k] of the frame that lines 222-226 write from the five lists:
    the rounded price and the four labels at position [k] of each, every
    label a [str] or [None]; no row where one of the lists is shorter. *)
Definition row_at (st : locals) (k : nat) : option Observation :=
  match nth_error (price_data st) k, nth_error (region_data st) k,
        nth_error (product_data st) k, nth_error (unit_data st) k,
        nth_error (date_data st) k with
  | Some price, Some region, Some product, Some unit, Some date =>
      Some (mkObservation (to_value date) (to_value region)
                          (to_value product) (to_value unit)
                          (rounded price))
  | _, _, _, _, _ => None
  end.

(** The first region name among [items] with the product and the unit the
    loop of lines 188-204 appends for it. *)
Fixpoint region_hit (row : list value) (items : list (nat * value))
    : option (str * option str * option str) :=
  match items with
  | [] => None
  | (idx, PyStr s) :: rest =>
      if str_in s valid_regions
      then Some (s, next_str (skipn (idx + 1) row) None,
                 next_str (skipn (idx + 2) row)
                          (next_str (skipn (idx + 1) row) None))
      else region_hit row rest
  | _ :: rest => region_hit row rest
  end.

(** *** The call on the objects of the interpreter *)

(** The mutable objects a call is handed or creates, as the interpreter
    holds them: a list is extended in place by [append] and a frame is
    written in place by a column assignment, so the change is seen through
    every reference to the object.  A [str], a number and [None] are
    values.  The sheet that was read is only ever read. *)
Inductive object : Type :=
| PyList (items : list value)
| PyFrame (rows : DataFrame).

(** A reference is the position of its object in the heap.  A new object is
    put at the end: the references handed out before keep their objects. *)
Definition reference := nat.
Definition heap := list object.

Definition alloc (h : heap) (o : object) : reference * heap :=
  (length h, h ++ [o]).

(** The object behind [r] replaced by [o]. *)
Fixpoint store (h : heap) (r : reference) (o : object) : heap :=
  match h, r with
  | [], _ => []
  | _ :: rest, 0 => o :: rest
  | x :: rest, S r' => x :: store rest r' o
  end.

(** [xs.append(x)] on the list behind [r].  The five variables it is called
    on are bound to lists by lines 137-141 and never rebound. *)
Definition append (h : heap) (r : reference) (x : value) : heap :=
  match nth_error h r with
  | Some (PyList items) => store h r (PyList (items ++ [x]))
  | _ => h
  end.

(** The elements of the list behind [r]. *)
Definition items_at (h : heap) (r : reference) : list value :=
  match nth_error h r with
  | Some (PyList items) => items
  | _ => []
  end.

(** The references the five list variables hold, lines 137-141. *)
Record bindings : Type := mkBindings {
  price_var : reference;
  region_var : reference;
  product_var : reference;
  unit_var : reference;
  date_var : reference
}.

(** The loop of lines 188-204 with its two [append]s. *)
Fixpoint region_loop_heap (row : list value) (items : list (nat * value))
    (b : bindings) (h : heap) : option str * option str * heap :=
  match items with
  | [] => (None, None, h)
  | (idx, check_value) :: rest =>
      match check_value with
      | PyStr s =>
          if str_in s valid_regions then
            let region_found := Some s in
            let product_found := next_str (skipn (idx + 1) row) None in
            let h := append h (product_var b) (to_value product_found) in
            let product_found := next_str (skipn (idx + 2) row) product_found in
            let h := append h (unit_var b) (to_value product_found) in
            (region_found, product_found, h)
          else region_loop_heap row rest b h
      | _ => region_loop_heap row rest b h
      end
  end.

(** Lines 185-214. *)
Definition row_fields_heap (row : list value) (b : bindings) (h : heap)
    : option str * heap :=
  let '(region_found, product_found, h) :=
    region_loop_heap row (enumerate row) b h in
  if negb (truthy region_found) then
    let region_found := str_cell row 0 in
    let product_found := str_cell row 1 in
    let h := append h (product_var b) (to_value product_found) in
    let unit_found := str_cell row 2 in
    let h := append h (unit_var b) (to_value product_found) in
    (region_found, h)
  else (region_found, h).

(** Lines 160-217: the five [append]s of one candidate; [last_year] is the
    value of the variable [last_year_found]. *)
Definition candidate_heap (sheet_data : Sheet) (column_data : list value)
    (row_idx : nat) (v : value) (b : bindings) (last_year : option str)
    (h : heap) : option str * heap :=
  let h := append h (price_var b) v in
  let '(date_found, year_found, last_year) :=
    date_loop column_data None None last_year in
  let full_date := full_date_of date_found year_found last_year in
  let row := iloc sheet_data row_idx in
  let '(region_found, h) := row_fields_heap row b h in
  let h := append h (date_var b) (to_value full_date) in
  let h := append h (region_var b) (to_value region_found) in
  (last_year, h).

(** The inner loop, line 157. *)
Fixpoint column_loop_heap (sheet_data : Sheet) (column_data : list value)
    (items : list (nat * value)) (b : bindings) (last_year : option str)
    (h : heap) : option str * heap :=
  match items with
  | [] => (last_year, h)
  | (row_idx, v) :: rest =>
      let '(last_year, h) :=
        if is_price v
        then candidate_heap sheet_data column_data row_idx v b last_year h
        else (last_year, h) in
      column_loop_heap sheet_data column_data rest b last_year h
  end.

(** The outer loop, line 156. *)
Fixpoint sheet_loop_heap (sheet_data : Sheet) (columns : list (list value))
    (b : bindings) (last_year : option str) (h : heap)
    : option str * heap :=
  match columns with
  | [] => (last_year, h)
  | column_data :: rest =>
      let '(last_year, h) :=
        column_loop_heap sheet_data column_data (enumerate column_data) b
          last_year h in
      sheet_loop_heap sheet_data rest b last_year h
  end.

(** [df[column] = values] on the frame behind [df]: the frame is written
    in place; [ValueError] ([None]) leaves it as it was. *)
Definition assign (set : Observation -> value -> Observation)
    (df : reference) (values : list value) (h : heap) : option heap :=
  match nth_error h df with
  | Some (PyFrame rows) =>
      bind (set_column set rows values)
           (fun rows => Some (store h df (PyFrame rows)))
  | _ => None
  end.

(** Statements in sequence: the first exception ends the run. *)
Fixpoint run (statements : list (heap -> option heap)) (h : heap)
    : bool * heap :=
  match statements with
  | [] => (true, h)
  | statement :: rest =>
      match statement h with
      | Some h => run rest h
      | None => (false, h)
      end
  end.

(** Lines 219-228.  With at least one price, line 221 binds [df] to the
    new frame [reindex] returns, and lines 222-226 write into that one; the
    frame the caller passed is not written.  The result is the reference
    returned, [None] after an exception, and the heap. *)
Definition fill_frame_heap (df : reference) (b : bindings) (h : heap)
    : option reference * heap :=
  match items_at h (price_var b) with
  | [] => (Some df, h)
  | _ :: _ =>
      match nth_error h df with
      | Some (PyFrame rows) =>
          let '(df, h) :=
            alloc h (PyFrame (reindex rows
                                (length (items_at h (price_var b))))) in
          let '(done, h) :=
            run [ (fun h => bind (round_all (items_at h (price_var b)))
                                 (fun prices => assign set_Price df prices h));
                  (fun h => assign set_Region df (items_at h (region_var b)) h);
                  (fun h => assign set_Product df
                                   (items_at h (product_var b)) h);
                  (fun h => assign set_Unit df (items_at h (unit_var b)) h);
                  (fun h => assign set_Date df (items_at h (date_var b)) h) ]
                h in
          (if done then Some df else None, h)
      | _ => (None, h)
      end
  end.

(** One call on the heap [h], with the reference [df] as its third
    argument: the sheet is read, lines 137-141 create the five lists, the
    two loops run from [last_year_found = None], and the frame is filled.
    An exception while the sheet is read leaves the heap as it was. *)
Definition populate_on_heap (file_content : Workbook) (sheet_name : str)
    (df : reference) (h : heap) : option reference * heap :=
  match read_sheet file_content sheet_name with
  | None => (None, h)
  | Some sheet_data =>
      let '(price_data, h) := alloc h (PyList []) in
      let '(region_data, h) := alloc h (PyList []) in
      let '(product_data, h) := alloc h (PyList []) in
      let '(unit_data, h) := alloc h (PyList []) in
      let '(date_data, h) := alloc h (PyList []) in
      let b := mkBindings price_data region_data product_data unit_data
                          date_data in
      let '(_, h) := sheet_loop_heap sheet_data sheet_data b None h in
      fill_frame_heap df b h
  end.

(** The frame a call returns, read through the reference it returns. *)
Definition returned_frame (result : option reference * heap)
    : option DataFrame :=
  match fst result with
  | Some r =>
      match nth_error (snd result) r with
      | Some (PyFrame rows) => Some rows
      | _ => None
      end
  | None => None
  end.

(** The five lists of a call as objects, in the order of their creation,
    and the references they get when the heap held [n] objects before. *)
Definition lists_of (st : locals) : list object :=
  [ PyList (price_data st); PyList (map to_value (region_data st));
    PyList (map to_value (product_data st));
    PyList (map to_value (unit_data st));
    PyList (map to_value (date_data st)) ].

Definition bindings_at (n : nat) : bindings :=
  mkBindings (n + 0) (n + 1) (n + 2) (n + 3) (n + 4).

End TableExtractor.

(** ** The link resolver, [find_and_return_xls_link] *)

(** An [<a href=...>] element of the parsed page: its [href] attribute and
    its visible text. *)
Record anchor : Type := mkAnchor {
  href : str;
  text : str
}.

Section LinkResolver.

(** [str.lower]. *)
Variable lower : str -> str.

(** The [for ... else] of lines 38-43: [links] are the candidates the loop
    has yet to visit, [default] the value of the [else] branch. *)
Fixpoint prioritize (reference_text : str) (links : list anchor)
    (default : str) : str :=
  match links with
  | [] => default
  | link :: rest =>
      if contains (lower (text link)) (lower reference_text)
      then href link
      else prioritize reference_text rest default
  end.

(** Lines 48-50: a result that does not start with "http" is appended to
    the first three "/"-separated parts of the page's URL. *)
Definition absolute_url (page_url result : str) : str :=
  if negb (startswith result (u "http"))
  then join (u "/") (firstn 3 (split_on 47%N page_url)) ++ result
  else result.

(** Lines 29-55.  [response] is the list of the page's anchors that carry
    an [href], in document order, or [None] when the request raised. *)
Definition find_and_return_xls_link (response : option (list anchor))
    (page_url : str) (reference_text : option str) : option str :=
  match response with
  | None => None
  | Some links =>
      let xls_links :=
        filter (fun link => endswith (href link) (u ".xls")) links in
      match xls_links with
      | [] => None
      | first :: _ =>
          let result :=
            match reference_text with
            | Some (c :: t) =>
                prioritize (c :: t) xls_links (href (last xls_links first))
            | _ => href (last xls_links first)
            end in
          Some (absolute_url page_url result)
      end
  end.

(** The link the selection policy names when it is applied to every given
    [reference_text] and the chosen [href] is returned as it stands. *)
Definition selected_href (links : list anchor) (reference_text : option str)
    : option str :=
  let candidates :=
    filter (fun link => endswith (href link) (u ".xls")) links in
  match candidates with
  | [] => None
  | first :: _ =>
      match reference_text with
      | Some r =>
          match find (fun link => contains (lower (text link)) (lower r))
                     candidates with
          | Some link => Some (href link)
          | None => Some (href (last candidates first))
          end
      | None => Some (href (last candidates first))
      end
  end.

End LinkResolver.

(** ** Instances used to run the model on examples *)

(** The ASCII digits: what [\d] accepts among the code points below U+0080. *)
Definition ascii_isdecimal (c : codepoint) : bool :=
  (N.leb 48 c && N.leb c 57)%N.

(** [str.lower] on the code points below U+0080, others left alone. *)
Definition ascii_lower (s : str) : str :=
  map (fun c => if (N.leb 65 c && N.leb c 90)%N then (c + 32)%N else c) s.

(** Two strings of code points below U+0080 that differ at most in case. *)
Definition same_ignoring_case (a b : str) : Prop :=
  ascii_lower a = ascii_lower b.

(** [round(x, 2)] on a float that already has at most two exact decimals. *)
Definition round2_exact (x : float) : float := x.

(** ** Example inputs *)

(** "Año 2020". *)
Definition year_2020 : str := [65; 241; 111; 32; 50; 48; 50; 48]%N.

(** A sheet laid out as the published one: two header rows (year, months),
    then one row per product with its region, name, unit and prices.
<<
      .      .        .        "Año 2020"  .
      .      .        .        "Enero"     "Febrero"
      "GBA"  "Leche"  "Litro"  150.5       160.25
      "gba"  "Pan"    "Kg"     80          True
>> *)
Definition example_labels : list (list value) :=
  [ [nan_cell; nan_cell; PyStr (u "GBA"); PyStr (u "gba")];
    [nan_cell; nan_cell; PyStr (u "Leche"); PyStr (u "Pan")];
    [nan_cell; nan_cell; PyStr (u "Litro"); PyStr (u "Kg")] ].

Definition example_january : list value :=
  [PyStr year_2020; PyStr (u "Enero"); PyFloat 150.5%float; PyInt 80].

Definition example_february : list value :=
  [nan_cell; PyStr (u "Febrero"); PyFloat 160.25%float; PyBool true].

Definition example_sheet : Sheet :=
  example_labels ++ [example_january; example_february].

Definition example_workbook : Workbook :=
  [(u "Hoja1", []); (u "Nacional", example_sheet)].

(** A sheet with the single row  "GBA"  "Leche"  5.0 . *)
Definition region_product_price_workbook : Workbook :=
  [(u "Nacional", [[PyStr (u "GBA")]; [PyStr (u "Leche")]; [PyFloat 5%float]])].

Definition indec_page_url : str :=
  u "https://www.indec.gob.ar/Nivel4/Tema/3/5/31".

(** A page whose only spreadsheet link is relative to the site. *)
Definition page_with_relative_link : list anchor :=
  [ mkAnchor (u "/informes/ipc.pdf") (u "Informe");
    mkAnchor (u "/ftp/cuadros/economia/sh_ipc_precios_promedio.xls")
             (u "Precios promedio") ].

(** A page with two absolute spreadsheet links. *)
Definition page_with_two_links : list anchor :=
  [ mkAnchor (u "https://www.indec.gob.ar/ftp/ipc.xls")
             (u "Indice de precios al consumidor");
    mkAnchor (u "https://www.indec.gob.ar/ftp/otros.xls") (u "Otros cuadros") ].


(** * Properties *)

(** ** Strings *)

Lemma str_eqb_eq (a b : str) : str_eqb a b = true <-> a = b.
Proof.
  revert b; induction a as [|x a IH]; intros [|y b]; simpl;
    try (split; [discriminate | discriminate]); try tauto.
  rewrite andb_true_iff, N.eqb_eq, IH.
  split; [intros [-> ->]; reflexivity | intros [= -> ->]; auto].
Qed.

Lemma str_eqb_refl (a : str) : str_eqb a a = true.
Proof. apply str_eqb_eq; reflexivity. Qed.

Lemma str_eqb_neq (a b : str) : str_eqb a b = false <-> a <> b.
Proof.
  rewrite <- str_eqb_eq. destruct (str_eqb a b); split; congruence.
Qed.

Lemma str_in_In (x : str) (xs : list str) : str_in x xs = true <-> In x xs.
Proof.
  unfold str_in. rewrite existsb_exists. split.
  - intros [y [Hy E]]. apply str_eqb_eq in E. subst; assumption.
  - intros H. exists x. split; [assumption | apply str_eqb_refl].
Qed.

Lemma str_in_not_In (x : str) (xs : list str) :
  str_in x xs = false <-> ~ In x xs.
Proof.
  rewrite <- str_in_In. destruct (str_in x xs); split; congruence.
Qed.

Lemma dict_get_In (d : list (str * str)) (k v : str) :
  dict_get d k = Some v -> In (k, v) d.
Proof.
  induction d as [|[k' v'] d IH]; simpl; [discriminate|].
  destruct (str_eqb k k') eqn:E.
  - intros [= <-]. apply str_eqb_eq in E. subst. left; reflexivity.
  - intros H. right. apply IH, H.
Qed.

(** Every month code is a non-empty string, so it counts as true. *)
Lemma month_code_truthy (s m : str) :
  dict_get month_mapping s = Some m -> truthy (Some m) = true.
Proof.
  intros H. apply dict_get_In in H.
  assert (A : Forall (fun kv => truthy (Some (snd kv)) = true) month_mapping)
    by (repeat constructor).
  rewrite Forall_forall in A. apply (A _ H).
Qed.

(** Every region name is a non-empty string, so it counts as true. *)
Lemma region_truthy (s : str) :
  str_in s valid_regions = true -> truthy (Some s) = true.
Proof.
  intros H. apply str_in_In in H.
  assert (A : Forall (fun r => truthy (Some r) = true) valid_regions)
    by (repeat constructor).
  rewrite Forall_forall in A. apply (A _ H).
Qed.

(** ** The table extractor *)

Section TableExtractorFacts.

Variable isdecimal : codepoint -> bool.
Variable round2_float : float -> float.
Variable lower : str -> str.

Local Abbreviation re_match_year := (re_match_year isdecimal).
Local Abbreviation re_search_4digits := (re_search_4digits isdecimal).
Local Abbreviation date_loop := (date_loop isdecimal).
Local Abbreviation date_of := (date_of isdecimal).
Local Abbreviation year_after := (year_after isdecimal).
Local Abbreviation observed_year := (observed_year isdecimal).
Local Abbreviation last_seen_year := (last_seen_year isdecimal).
Local Abbreviation year_step := (year_step isdecimal).
Local Abbreviation year_token := (year_token isdecimal).
Local Abbreviation last_year_among := (last_year_among isdecimal).
Local Abbreviation cells_read := (cells_read isdecimal).
Local Abbreviation candidate := (candidate isdecimal).
Local Abbreviation column_loop := (column_loop isdecimal).
Local Abbreviation sheet_loop := (sheet_loop isdecimal).
Local Abbreviation scan := (scan isdecimal).
Local Abbreviation pending_of := (pending_of isdecimal).
Local Abbreviation items_entries := (items_entries isdecimal).
Local Abbreviation columns_entries := (columns_entries isdecimal).
Local Abbreviation round2 := (round2 round2_float).
Local Abbreviation round_all := (round_all round2_float).
Local Abbreviation rounded := (rounded round2_float).
Local Abbreviation observation_of := (observation_of round2_float).
Local Abbreviation row_at := (row_at round2_float).
Local Abbreviation fill_frame := (fill_frame round2_float).
Local Abbreviation find_sheet_loop := (find_sheet_loop lower).
Local Abbreviation find_sheet_case_insensitive := (find_sheet_case_insensitive lower).
Local Abbreviation read_sheet := (read_sheet lower).
Local Abbreviation populate_from := (populate_from isdecimal round2_float lower).
Local Abbreviation populate_price_column_with_numbers :=
  (populate_price_column_with_numbers isdecimal round2_float lower).

(** *** The year pattern *)

Lemma re_search_length (s y : str) :
  re_search_4digits s = Some y -> length y = 4.
Proof.
  induction s as [|c s IH]; simpl; [discriminate|].
  destruct s as [|d1 [|d2 [|d3 s']]]; try discriminate.
  destruct (isdecimal c && isdecimal d1 && isdecimal d2 && isdecimal d3).
  - intros [= <-]. reflexivity.
  - exact IH.
Qed.

Lemma re_search_truthy (s y : str) :
  re_search_4digits s = Some y -> truthy (Some y) = true.
Proof.
  intros H. apply re_search_length in H.
  destruct y; [discriminate | reflexivity].
Qed.

(** Line 169 never calls [.group()] on [None]: a cell that matches the
    pattern of line 168 holds four consecutive digits. *)
Lemma re_match_year_search (s : str) :
  re_match_year s = true -> exists y, re_search_4digits s = Some y.
Proof.
  destruct s as [|c0 [|c1 [|c2 [|c3 [|d0 [|d1 [|d2 [|d3 t]]]]]]]];
    try discriminate.
  unfold re_match_year. rewrite !andb_true_iff.
  intros [[[[_ H0] H1] H2] H3].
  assert (T : re_search_4digits (d0 :: d1 :: d2 :: d3 :: t)
              = Some [d0; d1; d2; d3]).
  { simpl. rewrite H0, H1, H2, H3. reflexivity. }
  assert (step : forall c r, (exists y, re_search_4digits r = Some y) ->
                 exists y, re_search_4digits (c :: r) = Some y).
  { intros c r [y Hy]. simpl.
    destruct r as [|e1 [|e2 [|e3 r']]];
      try (simpl in Hy; discriminate Hy).
    destruct (isdecimal c && isdecimal e1 && isdecimal e2 && isdecimal e3);
      eauto. }
  do 4 apply step. eauto.
Qed.

(** *** The loop over the candidate's column *)

(** The month and the year the loop finds do not depend on the last year
    known before. *)
Lemma date_loop_found (column_data : list value) :
  forall d y l1 l2,
    fst (date_loop column_data d y l1) = fst (date_loop column_data d y l2).
Proof.
  induction column_data as [|cell rest IH]; intros d y l1 l2; [reflexivity|].
  destruct cell as [n|x|b|s| |]; cbn [date_loop]; try apply IH.
  destruct (dict_get month_mapping s) as [m|].
  - destruct (truthy (Some m) && truthy y); [reflexivity | apply IH].
  - destruct (re_match_year s).
    + destruct (truthy d && truthy (re_search_4digits s));
        [reflexivity | apply IH].
    + destruct (truthy d && truthy y); [reflexivity | apply IH].
Qed.

(** The last year known after the loop is the year it found, and the year
    known before when it found none. *)
Lemma date_loop_carry (column_data : list value) :
  forall d y known,
    snd (date_loop column_data d y (carry y known)) =
    carry (snd (fst (date_loop column_data d y (carry y known)))) known.
Proof.
  induction column_data as [|cell rest IH]; intros d y known; [reflexivity|].
  destruct cell as [n|x|b|s| |]; cbn [date_loop]; try apply IH.
  destruct (dict_get month_mapping s) as [m|].
  - destruct (truthy (Some m) && truthy y); [reflexivity | apply IH].
  - destruct (re_match_year s) eqn:M.
    + destruct (re_match_year_search s M) as [yy ->].
      destruct (truthy d && truthy (Some yy)); [reflexivity|].
      apply (IH d (Some yy) known).
    + destruct (truthy d && truthy y); [reflexivity | apply IH].
Qed.

Lemma year_after_carry (column_data : list value) (known : option str) :
  year_after column_data known = carry (observed_year column_data) known.
Proof.
  unfold year_after, observed_year.
  rewrite (date_loop_found column_data None None None known).
  apply (date_loop_carry column_data None None known).
Qed.

Lemma carry_idem (o known : option str) : carry o (carry o known) = carry o known.
Proof. destruct o; reflexivity. Qed.

(** The year the loop finds is [None] or a non-empty string. *)
Lemma date_loop_year_truthy (column_data : list value) :
  forall d y l,
    y = None \/ truthy y = true ->
    snd (fst (date_loop column_data d y l)) = None \/
    truthy (snd (fst (date_loop column_data d y l))) = true.
Proof.
  induction column_data as [|cell rest IH]; intros d y l Hy; [exact Hy|].
  destruct cell as [n|x|b|s| |]; cbn [date_loop]; try (apply IH; exact Hy).
  destruct (dict_get month_mapping s) as [m|].
  - destruct (truthy (Some m) && truthy y); [exact Hy | apply IH, Hy].
  - destruct (re_match_year s) eqn:M.
    + destruct (re_match_year_search s M) as [yy E]. rewrite E.
      pose proof (re_search_truthy s yy E) as T.
      destruct (truthy d && truthy (Some yy)); [right; exact T|].
      apply IH. right; exact T.
    + destruct (truthy d && truthy y); [exact Hy | apply IH, Hy].
Qed.

Lemma observed_year_truthy (column_data : list value) (y : str) :
  observed_year column_data = Some y -> truthy (Some y) = true.
Proof.
  intros H.
  destruct (date_loop_year_truthy column_data None None None (or_introl eq_refl))
    as [E|E]; unfold observed_year in H; rewrite H in E;
    [discriminate | exact E].
Qed.

(** The date of a candidate, from what the loop finds in its column. *)
Lemma date_of_eq (column_data : list value) (known : option str) :
  date_of column_data known =
  full_date_of (fst (fst (date_loop column_data None None None)))
               (observed_year column_data)
               (carry (observed_year column_data) known).
Proof.
  unfold date_of.
  pose proof (year_after_carry column_data known) as C.
  pose proof (date_loop_found column_data None None known None) as F.
  unfold year_after in C. unfold observed_year.
  destruct (date_loop column_data None None known) as [[d y] l].
  simpl in C, F. rewrite <- F. simpl. rewrite C.
  unfold observed_year. rewrite <- F. reflexivity.
Qed.

(** Every candidate of a column gets the same date: the scan of the column
    by an earlier candidate does not change it. *)
Lemma date_of_stable (column_data : list value) (known : option str) :
  date_of column_data (carry (observed_year column_data) known) =
  date_of column_data known.
Proof. rewrite !date_of_eq, carry_idem. reflexivity. Qed.

(** Without a year token the loop runs to the end of the column and keeps
    the last month it met. *)
Lemma date_loop_no_year (column_data : list value) :
  forall d l,
    existsb year_token column_data = false ->
    date_loop column_data d None l =
    (fold_left (fun acc cell => match month_token cell with
                                | Some m => Some m
                                | None => acc
                                end) column_data d, None, l).
Proof.
  induction column_data as [|cell rest IH]; intros d l H; [reflexivity|].
  simpl in H. apply orb_false_iff in H. destruct H as [H1 H2].
  destruct cell as [n|x|b|s| |];
    cbn [date_loop month_token fold_left];
    try (apply IH; exact H2).
  cbn [year_token] in H1. destruct (dict_get month_mapping s) as [m|].
  - rewrite andb_false_r. apply IH, H2.
  - rewrite H1, andb_false_r. apply IH, H2.
Qed.

Lemma fold_month_some (column_data : list value) (m : str) :
  fold_left (fun acc cell => match month_token cell with
                             | Some m => Some m
                             | None => acc
                             end) column_data (Some m) <> None.
Proof.
  revert m; induction column_data as [|cell rest IH]; intros m; simpl;
    [discriminate|].
  destruct (month_token cell); apply IH.
Qed.

(** Without a month name in the column the loop finds no month. *)
Lemma date_loop_no_month (column_data : list value) :
  forall y l,
    last_month column_data = None ->
    fst (fst (date_loop column_data None y l)) = None.
Proof.
  unfold last_month.
  induction column_data as [|cell rest IH]; intros y l H; [reflexivity|].
  cbn [fold_left month_token] in H.
  destruct cell as [n|x|b|s| |]; cbn [date_loop];
    try (apply IH; exact H).
  change (month_token (PyStr s)) with (dict_get month_mapping s) in H.
  destruct (dict_get month_mapping s) as [m|].
  - exfalso. exact (fold_month_some rest m H).
  - destruct (re_match_year s); cbn [truthy andb]; apply IH, H.
Qed.

(** *** The loop over the candidate's row *)

(** A row has one cell per column: inside the loops, where the sheet has at
    least the candidate's column, [row.iloc[0]] of line 208 exists. *)
Lemma length_iloc (sheet_data : Sheet) (row_idx : nat) :
  length (iloc sheet_data row_idx) = length sheet_data.
Proof. apply length_map. Qed.

Lemma next_str_first (cells : list value) (found : option str) :
  next_str cells found = carry (first_str cells) found.
Proof.
  induction cells as [|cell rest IH]; [reflexivity|].
  destruct cell; simpl; auto.
Qed.

(** The loop of lines 188-204 appends once to each list when it meets a
    region name, and nothing otherwise. *)
Lemma region_loop_hit (row : list value) (items : list (nat * value)) :
  forall pd ud,
    region_loop row items pd ud =
    match region_hit row items with
    | Some (s, p, un) => (Some s, un, pd ++ [p], ud ++ [un])
    | None => (None, None, pd, ud)
    end.
Proof.
  induction items as [|[idx cell] rest IH]; intros pd ud; [reflexivity|].
  destruct cell as [n|x|b|s| |]; cbn [region_loop region_hit]; try apply IH.
  destruct (str_in s valid_regions); [reflexivity | apply IH].
Qed.

Lemma region_hit_region (row : list value) (items : list (nat * value))
    (s : str) (p un : option str) :
  region_hit row items = Some (s, p, un) -> str_in s valid_regions = true.
Proof.
  induction items as [|[idx cell] rest IH]; cbn [region_hit]; [discriminate|].
  destruct cell as [n|x|b|s'| |]; try exact IH.
  destruct (str_in s' valid_regions) eqn:E; [|exact IH].
  intros [= <- _ _]. exact E.
Qed.

(** Lines 185-214 append exactly one product and one unit, on both paths. *)
Lemma row_fields_eq (row : list value) (pd ud : list (option str)) :
  row_fields row pd ud =
  (region_of row, pd ++ [product_of row], ud ++ [unit_of row]).
Proof.
  unfold region_of, product_of, unit_of, row_fields.
  rewrite !region_loop_hit.
  destruct (region_hit row (enumerate row)) as [[[s p] un]|] eqn:E.
  - rewrite (region_truthy s (region_hit_region _ _ _ _ _ E)). reflexivity.
  - reflexivity.
Qed.

(** *** One candidate and the two loops *)

Lemma candidate_push (sheet_data : Sheet) (column_data : list value)
    (row_idx : nat) (v : value) (st : locals) :
  candidate sheet_data column_data row_idx v st =
  push st (pending_of sheet_data column_data (last_year_found st) row_idx v)
       (year_after column_data (last_year_found st)).
Proof.
  unfold candidate, push, pending_of, date_of,
    year_after.
  destruct (date_loop column_data None None (last_year_found st))
    as [[d y] l].
  rewrite row_fields_eq. reflexivity.
Qed.

Lemma last_year_push_all (st : locals) (es : list pending)
    (l : option str) :
  last_year_found (push_all st es l) = l.
Proof. reflexivity. Qed.

Lemma push_all_nil (st : locals) :
  push_all st [] (last_year_found st) = st.
Proof.
  destruct st. unfold push_all. simpl. rewrite !app_nil_r. reflexivity.
Qed.

Lemma push_push_all (st : locals) (e : pending) (es : list pending)
    (l l' : option str) :
  push_all (push st e l) es l' = push_all st (e :: es) l'.
Proof.
  unfold push_all, push. simpl. rewrite <- !app_assoc. reflexivity.
Qed.

Lemma push_all_app (st : locals) (es es' : list pending)
    (l l' : option str) :
  push_all (push_all st es l) es' l' = push_all st (es ++ es') l'.
Proof.
  unfold push_all. simpl. rewrite !map_app, <- !app_assoc. reflexivity.
Qed.

Lemma items_entries_stable (sheet_data : Sheet) (column_data : list value)
    (known : option str) (items : list (nat * value)) :
  items_entries sheet_data column_data
    (carry (observed_year column_data) known) items =
  items_entries sheet_data column_data known items.
Proof.
  unfold items_entries, pending_of.
  rewrite date_of_stable. reflexivity.
Qed.

(** The inner loop appends the entries of the candidates it meets; the last
    year known changes only if it meets one. *)
Lemma column_loop_entries (sheet_data : Sheet) (column_data : list value)
    (items : list (nat * value)) :
  forall st,
    column_loop sheet_data column_data items st =
    push_all st
      (items_entries sheet_data column_data (last_year_found st) items)
      (if existsb (fun item => is_price (snd item)) items
       then carry (observed_year column_data) (last_year_found st)
       else last_year_found st).
Proof.
  induction items as [|[row_idx v] rest IH]; intros st.
  - simpl. symmetry. apply push_all_nil.
  - cbn [column_loop existsb snd].
    unfold items_entries. cbn [filter snd fst].
    destruct (is_price v) eqn:P.
    + rewrite IH, candidate_push, year_after_carry.
      cbn [push last_year_found orb map fst snd].
      rewrite items_entries_stable, carry_idem.
      replace (if existsb (fun item => is_price (snd item)) rest
               then carry (observed_year column_data) (last_year_found st)
               else carry (observed_year column_data) (last_year_found st))
        with (carry (observed_year column_data) (last_year_found st))
        by (destruct (existsb _ rest); reflexivity).
      apply push_push_all.
    + rewrite IH. reflexivity.
Qed.

Lemma existsb_enumerate (column_data : list value) :
  existsb (fun item => is_price (snd item)) (enumerate column_data) =
  existsb is_price column_data.
Proof.
  unfold enumerate. generalize 0 as a.
  induction column_data as [|v rest IH]; intros a; [reflexivity|].
  simpl. rewrite IH. reflexivity.
Qed.

(** The outer loop appends the entries of the candidates of its columns. *)
Lemma sheet_loop_entries (sheet_data : Sheet) (columns : list (list value)) :
  forall st,
    sheet_loop sheet_data columns st =
    push_all st (columns_entries sheet_data columns (last_year_found st))
             (fold_left year_step columns (last_year_found st)).
Proof.
  induction columns as [|column_data rest IH]; intros st.
  - simpl. symmetry. apply push_all_nil.
  - cbn [sheet_loop columns_entries fold_left].
    rewrite IH, column_loop_entries, existsb_enumerate.
    rewrite !last_year_push_all. apply push_all_app.
Qed.

(** The variables when the scan ends: the entries of all candidates, in the
    order of the scan, whatever the variables held before the call. *)
Lemma scan_entries (sheet_data : Sheet) (before : locals) :
  scan sheet_data before =
  mkLocals (map p_price (columns_entries sheet_data sheet_data None))
           (map p_region (columns_entries sheet_data sheet_data None))
           (map p_product (columns_entries sheet_data sheet_data None))
           (map p_unit (columns_entries sheet_data sheet_data None))
           (map p_date (columns_entries sheet_data sheet_data None))
           (last_seen_year sheet_data).
Proof.
  unfold scan. rewrite sheet_loop_entries. reflexivity.
Qed.

(** *** The output frame *)

Lemma is_price_round2 (v : value) :
  is_price v = true -> round2 v = Some (rounded v).
Proof. destruct v; simpl; try discriminate; reflexivity. Qed.

(** Line 222 raises nothing on a list of candidates. *)
Lemma round_all_price_cells (cells : list value) :
  round_all (price_cells cells) = Some (map rounded (price_cells cells)).
Proof.
  induction cells as [|v rest IH]; [reflexivity|].
  unfold price_cells in *. cbn [filter].
  destruct (is_price v) eqn:P; [|exact IH].
  cbn [round_all map]. rewrite (is_price_round2 v P), IH.
  reflexivity.
Qed.

Lemma length_reindex (df : DataFrame) (n : nat) : length (reindex df n) = n.
Proof.
  unfold reindex. rewrite length_app, length_firstn, repeat_length. lia.
Qed.

(** A column assignment with one value per row succeeds. *)
Lemma set_column_zip (set : Observation -> value -> Observation)
    (df : DataFrame) :
  forall values,
    length df = length values ->
    set_column set df values =
    Some (map (fun ov => set (fst ov) (snd ov)) (combine df values)).
Proof.
  induction df as [|o df IH]; intros [|v values] H; try discriminate;
    [reflexivity|].
  simpl in H. injection H as H. simpl. rewrite (IH values H). reflexivity.
Qed.

Lemma length_zip (set : Observation -> value -> Observation)
    (df : DataFrame) (values : list value) :
  length df = length values ->
  length (map (fun ov => set (fst ov) (snd ov)) (combine df values)) =
  length values.
Proof. intros H. rewrite length_map, length_combine. lia. Qed.

Ltac column_lengths L0 :=
  first
    [ rewrite !length_map; exact L0
    | rewrite length_zip;
      [ rewrite !length_map; reflexivity | column_lengths L0 ] ].

Lemma zip_rows (es : list pending) :
  forall df : DataFrame,
    length df = length es ->
    map (fun ov => set_Date (fst ov) (snd ov))
      (combine
        (map (fun ov => set_Unit (fst ov) (snd ov))
          (combine
            (map (fun ov => set_Product (fst ov) (snd ov))
              (combine
                (map (fun ov => set_Region (fst ov) (snd ov))
                  (combine
                    (map (fun ov => set_Price (fst ov) (snd ov))
                      (combine df (map rounded (map p_price es))))
                    (map to_value (map p_region es))))
                (map to_value (map p_product es))))
            (map to_value (map p_unit es))))
        (map to_value (map p_date es))) =
    map observation_of es.
Proof.
  induction es as [|e es IH]; intros [|o df] H; try discriminate;
    [reflexivity|].
  simpl in H. injection H as H. simpl. rewrite (IH df H). reflexivity.
Qed.

(** Lines 219-228 on the variables the scan leaves: with at least one
    candidate the frame has one row per entry, whatever [df] held. *)
Lemma fill_frame_rows (df : DataFrame) (es : list pending)
    (l : option str) :
  round_all (map p_price es) = Some (map rounded (map p_price es)) ->
  fill_frame df (mkLocals (map p_price es) (map p_region es)
                          (map p_product es) (map p_unit es)
                          (map p_date es) l) =
  Some (match es with
        | [] => df
        | _ :: _ => map observation_of es
        end).
Proof.
  intros R. destruct es as [|e es']; [reflexivity|].
  remember (e :: es') as es eqn:Ees.
  unfold fill_frame. cbn [price_data region_data product_data
                                     unit_data date_data].
  assert (NE : map p_price es <> []) by (subst es; discriminate).
  destruct (map p_price es) as [|p ps] eqn:Ep; [congruence|]. clear NE.
  rewrite <- Ep in *. rewrite R. cbn [bind].
  assert (L0 : length (reindex df (length (map p_price es))) = length es)
    by (rewrite length_reindex, length_map; reflexivity).
  set (df0 := reindex df (length (map p_price es))) in *.
  repeat (rewrite set_column_zip by column_lengths L0; cbn [bind]).
  rewrite (zip_rows es df0 L0). subst es. reflexivity.
Qed.

(** *** The entries, by position *)

Lemma price_cells_app (a b : list value) :
  price_cells (a ++ b) = price_cells a ++ price_cells b.
Proof. apply filter_app. Qed.

Lemma items_entries_prices (sheet_data : Sheet) (column_data : list value)
    (known : option str) (cells : list value) :
  forall a,
    map p_price (items_entries sheet_data column_data known
                   (combine (seq a (length cells)) cells)) =
    price_cells cells.
Proof.
  unfold items_entries, price_cells.
  induction cells as [|v rest IH]; intros a; [reflexivity|].
  cbn [length seq combine filter snd]. destruct (is_price v).
  - cbn [map p_price pending_of snd]. rewrite IH. reflexivity.
  - apply IH.
Qed.

(** The prices appended are the candidates, in the order of the scan. *)
Lemma columns_entries_prices (sheet_data : Sheet)
    (columns : list (list value)) :
  forall known,
    map p_price (columns_entries sheet_data columns known) =
    price_cells (concat columns).
Proof.
  induction columns as [|column_data rest IH]; intros known; [reflexivity|].
  cbn [columns_entries concat].
  rewrite map_app, price_cells_app, IH. unfold enumerate.
  rewrite items_entries_prices. reflexivity.
Qed.

Lemma length_columns_entries (sheet_data : Sheet)
    (columns : list (list value)) (known : option str) :
  length (columns_entries sheet_data columns known) =
  length (price_cells (concat columns)).
Proof.
  rewrite <- (columns_entries_prices sheet_data columns known).
  symmetry. apply length_map.
Qed.

Lemma columns_entries_app (sheet_data : Sheet) (a b : list (list value)) :
  forall known,
    columns_entries sheet_data (a ++ b) known =
    columns_entries sheet_data a known ++
    columns_entries sheet_data b (fold_left year_step a known).
Proof.
  induction a as [|column_data rest IH]; intros known; [reflexivity|].
  cbn [app columns_entries fold_left].
  rewrite IH, app_assoc. reflexivity.
Qed.

Lemma items_entries_nth (sheet_data : Sheet) (column_data : list value)
    (known : option str) (cells : list value) :
  forall a row_idx v,
    nth_error cells row_idx = Some v ->
    is_price v = true ->
    nth_error (items_entries sheet_data column_data known
                 (combine (seq a (length cells)) cells))
              (length (price_cells (firstn row_idx cells))) =
    Some (pending_of sheet_data column_data known (a + row_idx) v).
Proof.
  unfold items_entries, price_cells.
  induction cells as [|c rest IH]; intros a row_idx v Hn Hp.
  - destruct row_idx; discriminate.
  - destruct row_idx as [|r].
    + injection Hn as ->. cbn [length seq combine filter snd firstn].
      rewrite Hp. cbn [map nth_error fst snd length].
      rewrite Nat.add_0_r. reflexivity.
    + cbn [nth_error] in Hn.
      cbn [length seq combine filter snd firstn].
      replace (a + S r) with (S a + r) by lia.
      destruct (is_price c); cbn [map nth_error length];
        apply (IH (S a) r v Hn Hp).
Qed.

(** The entry of a candidate sits at its position in the scan and carries
    the last year seen in the columns before its own. *)
Lemma columns_entries_nth (sheet_data : Sheet)
    (before after : list (list value)) (column_data : list value)
    (row_idx : nat) (v : value) (known : option str) :
  nth_error column_data row_idx = Some v ->
  is_price v = true ->
  nth_error (columns_entries sheet_data (before ++ column_data :: after) known)
            (position before column_data row_idx) =
  Some (pending_of sheet_data column_data (fold_left year_step before known)
                   row_idx v).
Proof.
  intros Hn Hp. unfold position.
  rewrite columns_entries_app.
  rewrite nth_error_app2 by (rewrite length_columns_entries; lia).
  rewrite length_columns_entries.
  replace (length (price_cells (concat before)) +
           length (price_cells (firstn row_idx column_data)) -
           length (price_cells (concat before)))
    with (length (price_cells (firstn row_idx column_data))) by lia.
  cbn [columns_entries].
  pose proof (items_entries_nth sheet_data column_data
                (fold_left year_step before known) column_data 0 row_idx v
                Hn Hp) as E.
  cbn [plus] in E. fold (enumerate column_data) in E.
  rewrite nth_error_app1; [exact E|].
  apply nth_error_Some. rewrite E. discriminate.
Qed.

(** *** The whole call *)

(** The frame a call returns: one row per candidate of the sheet, in the
    order of the scan; the frame it was given when there is no candidate. *)
Lemma populate_rows (file_content : Workbook) (sheet_name : str)
    (df : DataFrame) (sheet_data : Sheet) (before : locals) :
  read_sheet file_content sheet_name = Some sheet_data ->
  fst (populate_from before file_content sheet_name df) =
  Some (match columns_entries sheet_data sheet_data None with
        | [] => df
        | e :: es => map observation_of (e :: es)
        end).
Proof.
  intros R. unfold populate_from. rewrite R. cbn [fst].
  rewrite scan_entries. rewrite fill_frame_rows.
  - destruct (columns_entries sheet_data sheet_data None); reflexivity.
  - rewrite columns_entries_prices. apply round_all_price_cells.
Qed.

(** The row of the frame for the candidate at row [row_idx] of the column
    that follows the columns [columns_before]. *)
Lemma observation_at (file_content : Workbook) (sheet_name : str)
    (df : DataFrame) (columns_before columns_after : list (list value))
    (column_data : list value) (row_idx : nat) (v : value) :
  read_sheet file_content sheet_name =
    Some (columns_before ++ column_data :: columns_after) ->
  nth_error column_data row_idx = Some v ->
  is_price v = true ->
  exists out,
    populate_price_column_with_numbers file_content sheet_name df = Some out /\
    nth_error out (position columns_before column_data row_idx) =
    Some (observation_of
            (pending_of (columns_before ++ column_data :: columns_after)
                        column_data (last_seen_year columns_before)
                        row_idx v)).
Proof.
  intros R Hn Hp.
  unfold populate_price_column_with_numbers.
  rewrite (populate_rows _ _ df _ fresh_locals R).
  pose proof (columns_entries_nth
                (columns_before ++ column_data :: columns_after)
                columns_before columns_after column_data row_idx v None
                Hn Hp) as E.
  fold (last_seen_year columns_before) in E.
  destruct (columns_entries (columns_before ++ column_data :: columns_after)
              (columns_before ++ column_data :: columns_after) None)
    as [|e es] eqn:Ees.
  - destruct (position columns_before column_data row_idx); discriminate.
  - eexists. split; [reflexivity|].
    rewrite nth_error_map, E. reflexivity.
Qed.

Lemma is_price_numeric_positive (v : value) :
  is_price v = true <-> numeric_positive v.
Proof.
  split.
  - destruct v as [n|x|b|s| |]; simpl; try discriminate; intros H.
    + constructor. apply Z.ltb_lt, H.
    + constructor. exact H.
    + subst b. constructor.
  - intros [n H|x H|]; simpl; [apply Z.ltb_lt, H | exact H | reflexivity].
Qed.

Lemma populate_empty_frame (file_content : Workbook) (sheet_name : str)
    (sheet_data : Sheet) :
  read_sheet file_content sheet_name = Some sheet_data ->
  populate_price_column_with_numbers file_content sheet_name
    create_empty_dataframe =
  Some (map observation_of (columns_entries sheet_data sheet_data None)).
Proof.
  intros R. unfold populate_price_column_with_numbers.
  rewrite (populate_rows _ _ _ _ fresh_locals R).
  destruct (columns_entries sheet_data sheet_data None); reflexivity.
Qed.

Lemma map_Price_observation_of (es : list pending) :
  map Price (map observation_of es) = map rounded (map p_price es).
Proof. rewrite !map_map. reflexivity. Qed.

(** C1. For every grid, the frame the extractor returns (started, as the
    script does, from the empty frame) has exactly one row per cell whose
    value is numeric and strictly greater than zero, in the order of the
    column-major scan: its prices are the rounded values of those cells,
    column after column and top to bottom within a column.  A cell is such
    a candidate exactly when it is numeric and positive; text, empty (NaN),
    [None] and other cells are not. *)
Theorem C1_one_row_per_positive_numeric_cell
    (file_content : Workbook) (sheet_name : str) (sheet_data : Sheet) :
  read_sheet file_content sheet_name = Some sheet_data ->
  (forall v, In v (price_cells (scan_order sheet_data)) <->
             In v (scan_order sheet_data) /\ numeric_positive v) /\
  exists out,
    populate_price_column_with_numbers file_content sheet_name
      create_empty_dataframe = Some out /\
    length out = length (price_cells (scan_order sheet_data)) /\
    map Price out = map rounded (price_cells (scan_order sheet_data)).
Proof.
  intros R. split.
  - intros v. unfold price_cells. rewrite filter_In, is_price_numeric_positive.
    reflexivity.
  - eexists. split; [apply (populate_empty_frame _ _ _ R)|].
    unfold scan_order. split.
    + rewrite length_map. apply length_columns_entries.
    + rewrite map_Price_observation_of, columns_entries_prices. reflexivity.
Qed.

(** C10. Processing one candidate extends each of the five lists by
    exactly one element at its end, whatever the row and the column hold
    (region found or not): the candidate's value for the prices, one label
    ([str] or [None]) for each of the other four.  No candidate is skipped:
    after any scan the prices are the candidates of the sheet in the order
    of the scan, and the four other lists have that same length.  The five
    column assignments of lines 222-226 then all succeed, and row [k] of the
    frame carries the five entries at position [k] of the five lists, the
    price rounded and each label a [str] or absent (with no candidate at all
    the frame is returned as it was given). *)
Theorem C10_one_entry_per_candidate_in_each_column :
  (forall (sheet_data : Sheet) (column_data : list value) (row_idx : nat)
          (v : value) (st : locals),
      exists region product unit date : option str,
        let st' := candidate sheet_data column_data row_idx v st in
        price_data st' = price_data st ++ [v] /\
        region_data st' = region_data st ++ [region] /\
        product_data st' = product_data st ++ [product] /\
        unit_data st' = unit_data st ++ [unit] /\
        date_data st' = date_data st ++ [date]) /\
  (forall (sheet_data : Sheet) (before : locals) (df : DataFrame),
      let st := scan sheet_data before in
      price_data st = price_cells (scan_order sheet_data) /\
      length (region_data st) = length (price_data st) /\
      length (product_data st) = length (price_data st) /\
      length (unit_data st) = length (price_data st) /\
      length (date_data st) = length (price_data st) /\
      exists out,
        fill_frame df st = Some out /\
        (price_data st = [] /\ out = df \/
         length out = length (price_data st) /\
         forall k, nth_error out k = row_at st k)).
Proof.
  split.
  - intros sheet_data column_data row_idx v st.
    rewrite candidate_push.
    set (e := pending_of sheet_data column_data (last_year_found st)
                row_idx v).
    exists (p_region e), (p_product e), (p_unit e), (p_date e).
    cbn [push price_data region_data product_data unit_data date_data].
    repeat split; reflexivity.
  - intros sheet_data before df st. subst st. rewrite scan_entries.
    cbn [price_data region_data product_data unit_data date_data].
    rewrite !length_map.
    split; [apply columns_entries_prices|].
    repeat (split; [reflexivity|]).
    rewrite fill_frame_rows
      by (rewrite columns_entries_prices; apply round_all_price_cells).
    eexists. split; [reflexivity|].
    destruct (columns_entries sheet_data sheet_data None) as [|e es];
      [left; split; reflexivity|].
    right. split; [rewrite !length_map; reflexivity|].
    intros k. unfold row_at.
    cbn [price_data region_data product_data unit_data date_data].
    rewrite !nth_error_map.
    destruct (nth_error (e :: es) k) as [e'|]; reflexivity.
Qed.

(** *** The call on the heap *)

Local Abbreviation candidate_heap := (candidate_heap isdecimal).
Local Abbreviation column_loop_heap := (column_loop_heap isdecimal).
Local Abbreviation sheet_loop_heap := (sheet_loop_heap isdecimal).
Local Abbreviation fill_frame_heap := (fill_frame_heap round2_float).
Local Abbreviation populate_on_heap :=
  (populate_on_heap isdecimal round2_float lower).

Lemma nth_error_after (h0 l : heap) (i : nat) :
  nth_error (h0 ++ l) (length h0 + i) = nth_error l i.
Proof. rewrite nth_error_app2 by lia. f_equal. lia. Qed.

Lemma store_after (h0 l : heap) (i : nat) (o : object) :
  store (h0 ++ l) (length h0 + i) o = h0 ++ store l i o.
Proof.
  induction h0 as [|x h0 IH]; [reflexivity|].
  simpl. rewrite IH. reflexivity.
Qed.

(** An [append] through one of the five variables extends that list, and
    writes nowhere else. *)
Lemma append_after (h0 l : heap) (i : nat) (items : list value)
    (x : value) :
  nth_error l i = Some (PyList items) ->
  append (h0 ++ l) (length h0 + i) x =
  h0 ++ store l i (PyList (items ++ [x])).
Proof.
  intros H. unfold append. rewrite nth_error_after, H. apply store_after.
Qed.

Lemma items_after (h0 l : heap) (i : nat) :
  items_at (h0 ++ l) (length h0 + i) = items_at l i.
Proof. unfold items_at. rewrite nth_error_after. reflexivity. Qed.

Ltac append_var :=
  cbn [bindings_at price_var region_var product_var unit_var date_var];
  unfold lists_of;
  erewrite append_after by reflexivity;
  cbn [store price_data region_data product_data unit_data date_data];
  rewrite ?map_app; reflexivity.

Lemma append_price (h0 : heap) (st : locals) (more : list object)
    (x : value) :
  append (h0 ++ lists_of st ++ more) (price_var (bindings_at (length h0))) x =
  h0 ++ lists_of (mkLocals (price_data st ++ [x]) (region_data st)
                    (product_data st) (unit_data st) (date_data st)
                    (last_year_found st)) ++ more.
Proof. append_var. Qed.

Lemma append_region (h0 : heap) (st : locals) (more : list object)
    (x : option str) :
  append (h0 ++ lists_of st ++ more) (region_var (bindings_at (length h0)))
    (to_value x) =
  h0 ++ lists_of (mkLocals (price_data st) (region_data st ++ [x])
                    (product_data st) (unit_data st) (date_data st)
                    (last_year_found st)) ++ more.
Proof. append_var. Qed.

Lemma append_product (h0 : heap) (st : locals) (more : list object)
    (x : option str) :
  append (h0 ++ lists_of st ++ more) (product_var (bindings_at (length h0)))
    (to_value x) =
  h0 ++ lists_of (mkLocals (price_data st) (region_data st)
                    (product_data st ++ [x]) (unit_data st) (date_data st)
                    (last_year_found st)) ++ more.
Proof. append_var. Qed.

Lemma append_unit (h0 : heap) (st : locals) (more : list object)
    (x : option str) :
  append (h0 ++ lists_of st ++ more) (unit_var (bindings_at (length h0)))
    (to_value x) =
  h0 ++ lists_of (mkLocals (price_data st) (region_data st)
                    (product_data st) (unit_data st ++ [x]) (date_data st)
                    (last_year_found st)) ++ more.
Proof. append_var. Qed.

Lemma append_date (h0 : heap) (st : locals) (more : list object)
    (x : option str) :
  append (h0 ++ lists_of st ++ more) (date_var (bindings_at (length h0)))
    (to_value x) =
  h0 ++ lists_of (mkLocals (price_data st) (region_data st)
                    (product_data st) (unit_data st) (date_data st ++ [x])
                    (last_year_found st)) ++ more.
Proof. append_var. Qed.

(** The loop of lines 188-204 on the heap appends what [region_loop]
    appends, to the product and unit lists of the call. *)
Lemma region_loop_heap_hit (row : list value) (items : list (nat * value))
    (h0 : heap) (st : locals) (more : list object) :
  region_loop_heap row items (bindings_at (length h0))
    (h0 ++ lists_of st ++ more) =
  match region_hit row items with
  | Some (s, p, un) =>
      (Some s, un,
       h0 ++ lists_of (mkLocals (price_data st) (region_data st)
                         (product_data st ++ [p]) (unit_data st ++ [un])
                         (date_data st) (last_year_found st)) ++ more)
  | None => (None, None, h0 ++ lists_of st ++ more)
  end.
Proof.
  induction items as [|[idx cell] rest IH]; [reflexivity|].
  destruct cell as [n|x|b|s| |]; cbn [region_loop_heap region_hit];
    try apply IH.
  destruct (str_in s valid_regions); [|apply IH].
  rewrite append_product, append_unit. reflexivity.
Qed.

Lemma row_fields_heap_eq (row : list value) (h0 : heap) (st : locals)
    (more : list object) :
  row_fields_heap row (bindings_at (length h0)) (h0 ++ lists_of st ++ more) =
  (region_of row,
   h0 ++ lists_of (mkLocals (price_data st) (region_data st)
                     (product_data st ++ [product_of row])
                     (unit_data st ++ [unit_of row])
                     (date_data st) (last_year_found st)) ++ more).
Proof.
  unfold region_of, product_of, unit_of, row_fields, row_fields_heap.
  rewrite region_loop_heap_hit, region_loop_hit.
  destruct (region_hit row (enumerate row)) as [[[s p] un]|] eqn:E.
  - rewrite (region_truthy s (region_hit_region _ _ _ _ _ E)). reflexivity.
  - cbn [truthy negb]. rewrite append_product, append_unit. reflexivity.
Qed.

(** One candidate on the heap: the five lists of the call get what
    [candidate] appends, and no other object is written. *)
Lemma candidate_heap_lists (sheet_data : Sheet) (column_data : list value)
    (row_idx : nat) (v : value) (h0 : heap) (st : locals)
    (more : list object) :
  candidate_heap sheet_data column_data row_idx v (bindings_at (length h0))
    (last_year_found st) (h0 ++ lists_of st ++ more) =
  (last_year_found (candidate sheet_data column_data row_idx v st),
   h0 ++ lists_of (candidate sheet_data column_data row_idx v st) ++ more).
Proof.
  rewrite candidate_push.
  unfold candidate_heap, push, pending_of, date_of, year_after.
  rewrite append_price.
  destruct (date_loop column_data None None (last_year_found st))
    as [[d y] l].
  rewrite row_fields_heap_eq, append_date, append_region. reflexivity.
Qed.

Lemma column_loop_heap_lists (sheet_data : Sheet) (column_data : list value)
    (items : list (nat * value)) (h0 : heap) (more : list object) :
  forall st,
    column_loop_heap sheet_data column_data items (bindings_at (length h0))
      (last_year_found st) (h0 ++ lists_of st ++ more) =
    (last_year_found (column_loop sheet_data column_data items st),
     h0 ++ lists_of (column_loop sheet_data column_data items st) ++ more).
Proof.
  induction items as [|[row_idx v] rest IH]; intros st; [reflexivity|].
  cbn [column_loop_heap column_loop].
  destruct (is_price v); [rewrite candidate_heap_lists|]; apply IH.
Qed.

Lemma sheet_loop_heap_lists (sheet_data : Sheet)
    (columns : list (list value)) (h0 : heap) (more : list object) :
  forall st,
    sheet_loop_heap sheet_data columns (bindings_at (length h0))
      (last_year_found st) (h0 ++ lists_of st ++ more) =
    (last_year_found (sheet_loop sheet_data columns st),
     h0 ++ lists_of (sheet_loop sheet_data columns st) ++ more).
Proof.
  induction columns as [|column_data rest IH]; intros st; [reflexivity|].
  cbn [sheet_loop_heap sheet_loop].
  rewrite column_loop_heap_lists. apply IH.
Qed.

(** *** The frame on the heap *)

Lemma nth_error_before (h0 l : heap) (r : reference) (o : object) :
  nth_error h0 r = Some o -> nth_error (h0 ++ l) r = Some o.
Proof.
  intros H. rewrite nth_error_app1; [exact H|].
  apply nth_error_Some. rewrite H. discriminate.
Qed.

(** What the five variables refer to, whatever was created after them. *)
Lemma items_of_lists (h0 : heap) (st : locals) (more : list object) :
  items_at (h0 ++ lists_of st ++ more)
    (price_var (bindings_at (length h0))) = price_data st /\
  items_at (h0 ++ lists_of st ++ more)
    (region_var (bindings_at (length h0))) =
    map to_value (region_data st) /\
  items_at (h0 ++ lists_of st ++ more)
    (product_var (bindings_at (length h0))) =
    map to_value (product_data st) /\
  items_at (h0 ++ lists_of st ++ more)
    (unit_var (bindings_at (length h0))) = map to_value (unit_data st) /\
  items_at (h0 ++ lists_of st ++ more)
    (date_var (bindings_at (length h0))) = map to_value (date_data st).
Proof.
  cbn [bindings_at price_var region_var product_var unit_var date_var].
  rewrite !items_after. repeat split; reflexivity.
Qed.

(** A column assignment through the reference of the reindexed frame
    writes that frame and nothing else. *)
Lemma assign_after (set : Observation -> value -> Observation)
    (h0 : heap) (st : locals) (rows rows' : DataFrame)
    (values : list value) :
  set_column set rows values = Some rows' ->
  assign set (length h0 + 5) values (h0 ++ lists_of st ++ [PyFrame rows]) =
  Some (h0 ++ lists_of st ++ [PyFrame rows']).
Proof.
  intros H. unfold assign. rewrite nth_error_after.
  cbn [lists_of app nth_error]. rewrite H. cbn [bind].
  rewrite store_after. reflexivity.
Qed.

(** Lines 219-228 on the heap: with no price the reference passed in is
    returned and nothing is written; otherwise a new frame is created after
    the five lists and gets the rows [fill_frame] computes. *)
Ltac lists_items h0 st :=
  match goal with
  | |- context [items_at (h0 ++ lists_of st ++ ?more) _] =>
      let E1 := fresh in let E2 := fresh in let E3 := fresh in
      let E4 := fresh in let E5 := fresh in
      destruct (items_of_lists h0 st more) as (E1 & E2 & E3 & E4 & E5);
      rewrite ?E1, ?E2, ?E3, ?E4, ?E5; clear E1 E2 E3 E4 E5
  end.

Lemma fill_frame_heap_frame (h0 : heap) (st : locals) (df : reference)
    (rows out : DataFrame) :
  nth_error h0 df = Some (PyFrame rows) ->
  fill_frame rows st = Some out ->
  fill_frame_heap df (bindings_at (length h0)) (h0 ++ lists_of st) =
  match price_data st with
  | [] => (Some df, h0 ++ lists_of st)
  | _ :: _ => (Some (length h0 + 5), h0 ++ lists_of st ++ [PyFrame out])
  end.
Proof.
  intros D F.
  rewrite <- (app_nil_r (lists_of st)) at 1.
  unfold fill_frame_heap, fill_frame in *.
  lists_items h0 st. rewrite !app_nil_r.
  case_eq (price_data st); [reflexivity|]. intros p ps Ep.
  rewrite Ep in F. rewrite <- Ep in *.
  rewrite (nth_error_before _ _ _ _ D).
  unfold alloc. rewrite length_app. cbn [lists_of length].
  rewrite <- app_assoc. fold (lists_of st).
  destruct (round_all (price_data st)) as [prices|] eqn:R;
    [|discriminate F].
  cbn [bind] in F.
  destruct (set_column set_Price _ prices) as [rows1|] eqn:S1;
    [|discriminate F].
  cbn [bind] in F.
  destruct (set_column set_Region rows1 _) as [rows2|] eqn:S2;
    [|discriminate F].
  cbn [bind] in F.
  destruct (set_column set_Product rows2 _) as [rows3|] eqn:S3;
    [|discriminate F].
  cbn [bind] in F.
  destruct (set_column set_Unit rows3 _) as [rows4|] eqn:S4;
    [|discriminate F].
  cbn [bind] in F.
  cbn [run].
  lists_items h0 st. rewrite R. cbn [bind].
  rewrite (assign_after _ _ _ _ _ _ S1).
  lists_items h0 st. rewrite (assign_after _ _ _ _ _ _ S2).
  lists_items h0 st. rewrite (assign_after _ _ _ _ _ _ S3).
  lists_items h0 st. rewrite (assign_after _ _ _ _ _ _ S4).
  lists_items h0 st. rewrite (assign_after _ _ _ _ _ _ F).
  reflexivity.
Qed.


(** *** One call, then another *)

(** Once the sheet is read, the call leaves its five lists after the
    objects it found, holding what the scan collects, and fills the frame
    from them. *)
Lemma populate_on_heap_run (file_content : Workbook) (sheet_name : str)
    (df : reference) (h : heap) (sheet_data : Sheet) :
  read_sheet file_content sheet_name = Some sheet_data ->
  populate_on_heap file_content sheet_name df h =
  fill_frame_heap df (bindings_at (length h))
    (h ++ lists_of (scan sheet_data fresh_locals)).
Proof.
  intros R. unfold populate_on_heap. rewrite R.
  unfold alloc. rewrite !length_app. cbn [length].
  match goal with
  | |- context [sheet_loop_heap _ _ ?b _ ?created] =>
      replace b with (bindings_at (length h))
        by (unfold bindings_at; f_equal; lia);
      replace created with (h ++ lists_of fresh_locals ++ [])
        by (rewrite <- !app_assoc; reflexivity)
  end.
  change (@None str) with (last_year_found fresh_locals).
  rewrite sheet_loop_heap_lists, app_nil_r. reflexivity.
Qed.

(** A call writes no object that existed before it: the heap it leaves is
    the heap it found followed by the objects it created.  The frame behind
    the reference it returns is the frame of
    [populate_price_column_with_numbers] on the rows of its argument. *)
Lemma populate_on_heap_result (file_content : Workbook) (sheet_name : str)
    (df : reference) (rows : DataFrame) (h : heap) :
  nth_error h df = Some (PyFrame rows) ->
  exists created,
    snd (populate_on_heap file_content sheet_name df h) = h ++ created /\
    returned_frame (populate_on_heap file_content sheet_name df h) =
    populate_price_column_with_numbers file_content sheet_name rows.
Proof.
  intros D.
  destruct (read_sheet file_content sheet_name) as [sheet_data|] eqn:R.
  - rewrite (populate_on_heap_run _ _ _ _ _ R).
    unfold populate_price_column_with_numbers.
    rewrite (populate_rows _ _ rows _ fresh_locals R).
    set (st := scan sheet_data fresh_locals).
    assert (F : fill_frame rows st =
                Some (match columns_entries sheet_data sheet_data None with
                      | [] => rows
                      | e :: es => map observation_of (e :: es)
                      end)).
    { rewrite <- (populate_rows _ _ rows _ fresh_locals R).
      unfold populate_from. rewrite R. reflexivity. }
    rewrite (fill_frame_heap_frame _ _ _ _ _ D F).
    destruct (price_data st) as [|p ps] eqn:Ep.
    + exists (lists_of st). split; [reflexivity|].
      unfold returned_frame. cbn [fst snd].
      rewrite (nth_error_before _ _ _ _ D), <- F.
      unfold fill_frame. rewrite Ep. reflexivity.
    + eexists. split; [reflexivity|].
      unfold returned_frame. cbn [fst snd].
      rewrite nth_error_after. reflexivity.
  - unfold populate_on_heap, populate_price_column_with_numbers,
      populate_from.
    rewrite R. exists []. split; [symmetry; apply app_nil_r | reflexivity].
Qed.

(** C8. The mutable state of a call, the five lists and the variable
    [last_year_found], is made by the call itself (lines 137-154), and the
    five columns are written into the frame line 221 creates: a call writes
    no object that existed before it, neither the frame it is passed nor
    anything an earlier call left.  So the frame it returns is determined by
    the workbook, the sheet name and the rows of the frame passed in, and a
    second call with the same arguments, run on the heap the first one
    left, returns a frame with the same rows as the first (and fails with
    it when the workbook has no sheet). *)
Theorem C8_calls_keep_no_state
    (file_content : Workbook) (sheet_name : str)
    (h : heap) (df : reference) (rows : DataFrame) :
  nth_error h df = Some (PyFrame rows) ->
  let first_call := populate_on_heap file_content sheet_name df h in
  let second_call :=
    populate_on_heap file_content sheet_name df (snd first_call) in
  (forall r o, nth_error h r = Some o ->
               nth_error (snd first_call) r = Some o) /\
  (forall r o, nth_error (snd first_call) r = Some o ->
               nth_error (snd second_call) r = Some o) /\
  returned_frame first_call =
    populate_price_column_with_numbers file_content sheet_name rows /\
  returned_frame second_call = returned_frame first_call.
Proof.
  intros D first_call second_call. subst first_call second_call.
  destruct (populate_on_heap_result file_content sheet_name df rows h D)
    as [created [H1 F1]].
  assert (D1 : nth_error (snd (populate_on_heap file_content sheet_name df h))
                 df = Some (PyFrame rows))
    by (rewrite H1; apply nth_error_before, D).
  destruct (populate_on_heap_result file_content sheet_name df rows _ D1)
    as [created' [H2 F2]].
  split; [|split; [|split]].
  - intros r o Hr. rewrite H1. apply nth_error_before, Hr.
  - intros r o Hr. rewrite H2. apply nth_error_before, Hr.
  - exact F1.
  - rewrite F1. exact F2.
Qed.

(** *** Rows without and with a region name *)

Lemma region_hit_none (row : list value) (items : list (nat * value)) :
  (forall item, In item items -> is_region (snd item) = false) ->
  region_hit row items = None.
Proof.
  induction items as [|[idx cell] rest IH]; intros H; [reflexivity|].
  assert (Hc : is_region cell = false) by (apply (H (idx, cell)); left; reflexivity).
  assert (Hr : region_hit row rest = None)
    by (apply IH; intros item Hi; apply H; right; exact Hi).
  destruct cell as [n|x|b|s| |]; cbn [region_hit]; try exact Hr.
  cbn [is_region] in Hc. rewrite Hc. exact Hr.
Qed.

Lemma in_enumerate {A : Type} (xs : list A) (item : nat * A) :
  In item (enumerate xs) -> In (snd item) xs.
Proof.
  destruct item as [i x]. unfold enumerate. intros H.
  apply in_combine_r in H. exact H.
Qed.

(** A row none of whose cells is a region name takes the path of lines
    207-214. *)
Lemma row_without_region (row : list value) :
  (forall cell, In cell row -> is_region cell = false) ->
  region_of row = str_cell row 0 /\
  product_of row = str_cell row 1 /\
  unit_of row = str_cell row 1.
Proof.
  intros H.
  assert (E : region_hit row (enumerate row) = None).
  { apply region_hit_none. intros item Hi. apply H, in_enumerate, Hi. }
  unfold region_of, product_of, unit_of, row_fields.
  rewrite !region_loop_hit, E. repeat split; reflexivity.
Qed.

Lemma region_hit_at (row : list value) (s : str) (post : list value) :
  forall (pre : list value) (a : nat),
    (forall cell, In cell pre -> is_region cell = false) ->
    str_in s valid_regions = true ->
    region_hit row
      (combine (seq a (length (pre ++ PyStr s :: post)))
               (pre ++ PyStr s :: post)) =
    Some (s, next_str (skipn (a + length pre + 1) row) None,
          next_str (skipn (a + length pre + 2) row)
                   (next_str (skipn (a + length pre + 1) row) None)).
Proof.
  induction pre as [|c pre IH]; intros a Hpre Hs.
  - cbn [app length seq combine region_hit]. rewrite Hs.
    rewrite Nat.add_0_r. reflexivity.
  - assert (Hc : is_region c = false) by (apply Hpre; left; reflexivity).
    assert (E := IH (S a) (fun cell Hi => Hpre cell (or_intror Hi)) Hs).
    replace (S a + length pre) with (a + length (c :: pre)) in E
      by (simpl; lia).
    destruct c as [n|x|b|s'| |];
      cbn [app length seq combine region_hit]; try exact E.
    cbn [is_region] in Hc. rewrite Hc. exact E.
Qed.

Lemma skipn_length_app {A : Type} (a b : list A) :
  skipn (length a) (a ++ b) = b.
Proof. induction a as [|x a IH]; [reflexivity | exact IH]. Qed.

Lemma skipn_past {A : Type} (pre : list A) (x : A) (post : list A) :
  skipn (length pre + 1) (pre ++ x :: post) = post /\
  skipn (length pre + 2) (pre ++ x :: post) = tl post.
Proof.
  split.
  - replace (length pre + 1) with (length (pre ++ [x]))
      by (rewrite length_app; reflexivity).
    replace (pre ++ x :: post) with ((pre ++ [x]) ++ post)
      by (rewrite <- app_assoc; reflexivity).
    apply skipn_length_app.
  - replace (length pre + 2) with (1 + length (pre ++ [x]))
      by (rewrite length_app; simpl; lia).
    replace (pre ++ x :: post) with ((pre ++ [x]) ++ post)
      by (rewrite <- app_assoc; reflexivity).
    rewrite <- skipn_skipn, skipn_length_app. destruct post; reflexivity.
Qed.

(** What the code appends for a row whose first region name [s] follows the
    cells [pre] and is followed by the cells [post]: the product is the
    first text among [post]; the unit is the first text among the cells of
    [post] after its first one and, without one, the product again. *)
Lemma row_with_region (pre post : list value) (s : str) :
  (forall cell, In cell pre -> is_region cell = false) ->
  str_in s valid_regions = true ->
  let row := pre ++ PyStr s :: post in
  region_of row = Some s /\
  product_of row = first_str post /\
  unit_of row = carry (first_str (tl post)) (first_str post).
Proof.
  intros Hpre Hs row.
  pose proof (region_hit_at row s post pre 0 Hpre Hs) as E.
  fold (enumerate (pre ++ PyStr s :: post)) in E. fold row in E.
  cbn [plus] in E.
  destruct (skipn_past pre (PyStr s) post) as [S1 S2].
  fold row in S1, S2. rewrite S1, S2, !next_str_first in E.
  unfold region_of, product_of, unit_of, row_fields.
  rewrite !region_loop_hit, E, (region_truthy s Hs).
  cbn [negb fst snd hd app].
  repeat split; destruct (first_str post); reflexivity.
Qed.

Lemma to_value_str_cell (row : list value) (k : nat) :
  to_value (str_cell row k) = text_or_absent (nth_error row k).
Proof.
  unfold str_cell, text_or_absent.
  destruct (nth_error row k) as [[n|x|b|s| |]|]; reflexivity.
Qed.

Lemma candidate_cell_split (column_data : list value) (row_idx : nat)
    (v : value) :
  nth_error column_data row_idx = Some v ->
  price_cells column_data =
  price_cells (firstn row_idx column_data) ++
  price_cells [v] ++ price_cells (skipn (S row_idx) column_data).
Proof.
  intros H. rewrite <- !price_cells_app. f_equal.
  symmetry. apply (firstn_skipn_middle _ _ H).
Qed.

(** C9. A cell that holds [True] is a price candidate: its row of the
    frame has Price 1 (the int).  A cell that holds [False] is none: the
    frame has as many rows as there are candidates among the other cells,
    and one more when the cell holds [True]. *)
Theorem C9_true_is_a_price_false_is_not
    (file_content : Workbook) (sheet_name : str)
    (columns_before columns_after : list (list value))
    (column_data : list value) (row_idx : nat) (b : bool) :
  read_sheet file_content sheet_name =
    Some (columns_before ++ column_data :: columns_after) ->
  nth_error column_data row_idx = Some (PyBool b) ->
  is_price (PyBool b) = b /\
  exists out,
    populate_price_column_with_numbers file_content sheet_name
      create_empty_dataframe = Some out /\
    length out =
      (if b then 1 else 0) +
      (length (price_cells (concat columns_before)) +
       length (price_cells (firstn row_idx column_data)) +
       length (price_cells (skipn (S row_idx) column_data)) +
       length (price_cells (concat columns_after))) /\
    (b = true ->
     exists obs,
       nth_error out (position columns_before column_data row_idx) = Some obs /\
       Price obs = PyInt 1).
Proof.
  intros R Hn. split; [reflexivity|].
  eexists. split; [apply (populate_empty_frame _ _ _ R)|]. split.
  - rewrite length_map, length_columns_entries, concat_app.
    cbn [concat]. rewrite !price_cells_app, (candidate_cell_split _ _ _ Hn).
    rewrite !length_app.
    replace (length (price_cells [PyBool b])) with (if b then 1 else 0)
      by (destruct b; reflexivity).
    lia.
  - intros ->.
    destruct (observation_at file_content sheet_name create_empty_dataframe
                columns_before columns_after column_data row_idx
                (PyBool true) R Hn eq_refl) as [out [E1 E2]].
    rewrite (populate_empty_frame _ _ _ R) in E1. injection E1 as <-.
    eexists. split; [exact E2 | reflexivity].
Qed.

(** C5. For a price candidate whose row holds no cell equal to a region
    name, the row of the frame has: Region, the row's first cell if it is
    text and absent otherwise; Product, the row's second cell if it is text
    and absent otherwise; Unit, the same value as Product. *)
Theorem C5_row_without_region_uses_first_cells
    (file_content : Workbook) (sheet_name : str) (df : DataFrame)
    (columns_before columns_after : list (list value))
    (column_data : list value) (row_idx : nat) (v : value) :
  let sheet_data := columns_before ++ column_data :: columns_after in
  let row := iloc sheet_data row_idx in
  read_sheet file_content sheet_name = Some sheet_data ->
  nth_error column_data row_idx = Some v ->
  is_price v = true ->
  (forall cell, In cell row -> is_region cell = false) ->
  exists out obs,
    populate_price_column_with_numbers file_content sheet_name df = Some out /\
    nth_error out (position columns_before column_data row_idx) = Some obs /\
    Region obs = text_or_absent (nth_error row 0) /\
    Product obs = text_or_absent (nth_error row 1) /\
    Unit obs = Product obs.
Proof.
  intros sheet_data row R Hn Hp Hrow.
  destruct (observation_at file_content sheet_name df columns_before
              columns_after column_data row_idx v R Hn Hp) as [out [E1 E2]].
  destruct (row_without_region row Hrow) as [Hr [Hpr Hu]].
  exists out. eexists. split; [exact E1|]. split; [exact E2|].
  unfold observation_of, pending_of.
  cbn [Region Product Unit p_region p_product p_unit].
  fold sheet_data. fold row. rewrite Hr, Hpr, Hu, !to_value_str_cell.
  repeat split.
Qed.

Lemma is_region_iff (cell : value) :
  is_region cell = true <-> exists s, cell = PyStr s /\ In s valid_regions.
Proof.
  split.
  - destruct cell as [n|x|b|s| |]; try discriminate.
    cbn [is_region]. intros H. exists s. split; [reflexivity|].
    apply str_in_In, H.
  - intros [s [-> H]]. apply str_in_In, H.
Qed.

(** No two of the six region names differ only in case. *)
Lemma regions_distinct_ignoring_case (r r' : str) :
  In r valid_regions -> In r' valid_regions ->
  same_ignoring_case r r' -> r = r'.
Proof.
  unfold same_ignoring_case. intros H H'.
  repeat (destruct H as [<-|H]; [|]);
    try (destruct H);
    repeat (destruct H' as [<-|H']; [|]);
    try (destruct H'); intros E; try reflexivity;
    vm_compute in E; discriminate E.
Qed.

(** C6. A cell matches a region exactly when it is a text equal to one of
    the six names GBA, Pampeana, Noreste, Noroeste, Cuyo, Patagonia; a text
    that differs from a name only in case matches none; and a row none of
    whose texts equals a name is handled by lines 207-214: region from the
    first cell, product and unit from the second. *)
Theorem C6_region_match_is_exact :
  valid_regions = [u "GBA"; u "Pampeana"; u "Noreste"; u "Noroeste";
                   u "Cuyo"; u "Patagonia"] /\
  (forall cell,
      is_region cell = true <->
      exists s, cell = PyStr s /\ In s valid_regions) /\
  (forall s r,
      In r valid_regions -> same_ignoring_case s r -> s <> r ->
      is_region (PyStr s) = false) /\
  (forall row pd ud,
      (forall s, In (PyStr s) row -> ~ In s valid_regions) ->
      row_fields row pd ud =
      (str_cell row 0, pd ++ [str_cell row 1], ud ++ [str_cell row 1])).
Proof.
  split; [reflexivity|]. split; [exact is_region_iff|]. split.
  - intros s r Hr Hs Hne. cbn [is_region]. apply str_in_not_In.
    intros Hin. apply Hne.
    apply (regions_distinct_ignoring_case s r Hin Hr Hs).
  - intros row pd ud H.
    assert (Hrow : forall cell, In cell row -> is_region cell = false).
    { intros cell Hc. destruct (is_region cell) eqn:E; [|reflexivity].
      apply is_region_iff in E. destruct E as [s [-> Hs]].
      exfalso. exact (H s Hc Hs). }
    destruct (row_without_region row Hrow) as [Hr [Hp Hu]].
    rewrite row_fields_eq, Hr, Hp, Hu. reflexivity.
Qed.

(** *** The year carried from column to column *)

Lemma year_step_truthy (known : option str) (column_data : list value) :
  known = None \/ truthy known = true ->
  year_step known column_data = None \/
  truthy (year_step known column_data) = true.
Proof.
  intros H. unfold year_step.
  destruct (existsb is_price column_data); [|exact H].
  destruct (observed_year column_data) as [y|] eqn:E; [|exact H].
  right. apply (observed_year_truthy _ _ E).
Qed.

(** The last year seen is [None] or a non-empty string. *)
Lemma last_seen_year_truthy (columns : list (list value)) :
  last_seen_year columns = None \/ truthy (last_seen_year columns) = true.
Proof.
  unfold last_seen_year.
  assert (G : forall known, known = None \/ truthy known = true ->
                fold_left year_step columns known = None \/
                truthy (fold_left year_step columns known) = true).
  { induction columns as [|c rest IH]; intros known H; [exact H|].
    apply IH, year_step_truthy, H. }
  apply G. left; reflexivity.
Qed.

Lemma last_month_code (column_data : list value) (m : str) :
  last_month column_data = Some m -> truthy (Some m) = true.
Proof.
  unfold last_month.
  assert (G : forall acc,
             (forall a, acc = Some a -> truthy (Some a) = true) ->
             fold_left (fun acc cell => match month_token cell with
                                        | Some m => Some m
                                        | None => acc
                                        end) column_data acc = Some m ->
             truthy (Some m) = true).
  { induction column_data as [|cell rest IH]; intros acc Hacc H.
    - apply Hacc, H.
    - cbn [fold_left] in H. refine (IH _ _ H). intros a Ha.
      destruct (month_token cell) as [m'|] eqn:E.
      + injection Ha as <-. destruct cell as [n|x|b|s| |]; try discriminate.
        apply (month_code_truthy s m' E).
      + apply Hacc, Ha. }
  apply G. discriminate.
Qed.

(** The date of a candidate whose column names a month and holds no year:
    the last year seen in the columns before, if any. *)
Lemma date_of_month_only (column_data : list value) (known : option str)
    (m : str) :
  existsb year_token column_data = false ->
  last_month column_data = Some m ->
  known = None \/ truthy known = true ->
  date_of column_data known =
  match known with
  | Some y => Some (y ++ u "-" ++ m ++ u "-01")
  | None => None
  end.
Proof.
  intros Hy Hm Hk. unfold date_of.
  rewrite (date_loop_no_year column_data None known Hy).
  fold (last_month column_data). rewrite Hm.
  unfold full_date_of. rewrite (last_month_code _ _ Hm).
  cbn [truthy negb andb].
  destruct Hk as [-> | Hk]; [reflexivity|].
  rewrite Hk. destruct known; [reflexivity | discriminate].
Qed.

Lemma date_of_no_month (column_data : list value) (known : option str) :
  last_month column_data = None -> date_of column_data known = None.
Proof.
  intros Hm. unfold date_of.
  pose proof (date_loop_no_month column_data None known Hm) as E.
  destruct (date_loop column_data None None known) as [[d y] l].
  cbn [fst] in E. subst d. reflexivity.
Qed.

(** The year a date inference observes in a column is the last year token
    among the cells its loop reads before it stops. *)
Lemma date_loop_cells_read (column_data : list value) :
  forall d y l,
    y = None \/ truthy y = true ->
    snd (fst (date_loop column_data d y l)) =
    last_year_among (cells_read column_data (truthy d) (truthy y)) y.
Proof.
  unfold last_year_among.
  induction column_data as [|cell rest IH]; intros d y l Hy; [reflexivity|].
  destruct cell as [n|x|b|s| |];
    cbn [date_loop cells_read month_token
         year_token isinstance_str andb negb fold_left];
    rewrite ?orb_false_r; try (apply IH; exact Hy).
  destruct (dict_get month_mapping s) as [m|] eqn:M.
  - pose proof (month_code_truthy s m M) as Tm. rewrite Tm.
    case_eq (truthy y); intros Ty;
      cbn [orb andb negb fold_left fst snd];
      rewrite ?orb_true_r; cbn [orb andb negb fold_left fst snd];
      change (month_token (PyStr s)) with (dict_get month_mapping s);
      rewrite M.
    + reflexivity.
    + rewrite (IH (Some m) y l Hy), Tm, Ty. reflexivity.
  - destruct (re_match_year s) eqn:Y.
    + destruct (re_match_year_search s Y) as [yy E]. rewrite E.
      pose proof (re_search_truthy s yy E) as Tyy. rewrite Tyy.
      destruct (truthy d) eqn:Td;
        cbn [orb andb negb fold_left fst snd];
        rewrite ?orb_true_r; cbn [orb andb negb fold_left fst snd];
        change (month_token (PyStr s)) with (dict_get month_mapping s);
        change (year_token (PyStr s)) with (re_match_year s);
        rewrite M, Y, E.
      * reflexivity.
      * rewrite (IH d (Some yy) (Some yy) (or_intror Tyy)), Td, Tyy.
        reflexivity.
    + cbn [negb andb]. rewrite !orb_false_r.
      destruct (truthy d && truthy y) eqn:B;
        cbn [fold_left fst snd];
        change (month_token (PyStr s)) with (dict_get month_mapping s);
        change (year_token (PyStr s)) with (re_match_year s);
        rewrite M, Y.
      * reflexivity.
      * apply IH, Hy.
Qed.

Lemma observed_year_cells_read (column_data : list value) :
  observed_year column_data =
  last_year_among (cells_read column_data false false) None.
Proof.
  apply (date_loop_cells_read column_data None None None).
  left; reflexivity.
Qed.

(** C3. The last year seen is carried through the whole scan, from column
    to column.  For a price candidate whose column names a month (the last
    one named is [m]) and holds no year token, the Date is built from the
    most recent year the date inference observed in the earlier columns,
    [last_seen_year columns_before]; it is absent when no year has been
    observed there.  When the column names no month the Date is absent. *)
Theorem C3_year_carried_across_columns
    (file_content : Workbook) (sheet_name : str) (df : DataFrame)
    (columns_before columns_after : list (list value))
    (column_data : list value) (row_idx : nat) (v : value) :
  read_sheet file_content sheet_name =
    Some (columns_before ++ column_data :: columns_after) ->
  nth_error column_data row_idx = Some v ->
  is_price v = true ->
  exists out obs,
    populate_price_column_with_numbers file_content sheet_name df = Some out /\
    nth_error out (position columns_before column_data row_idx) = Some obs /\
    (forall m,
        last_month column_data = Some m ->
        existsb year_token column_data = false ->
        Date obs =
        match last_seen_year columns_before with
        | Some y => PyStr (y ++ u "-" ++ m ++ u "-01")
        | None => PyNone
        end) /\
    (last_month column_data = None -> Date obs = PyNone).
Proof.
  intros R Hn Hp.
  destruct (observation_at file_content sheet_name df columns_before
              columns_after column_data row_idx v R Hn Hp) as [out [E1 E2]].
  exists out. eexists. split; [exact E1|]. split; [exact E2|].
  unfold observation_of, pending_of. cbn [Date p_date].
  split.
  - intros m Hm Hy.
    rewrite (date_of_month_only _ _ m Hy Hm
               (last_seen_year_truthy columns_before)).
    destruct (last_seen_year columns_before); reflexivity.
  - intros Hm. rewrite (date_of_no_month _ _ Hm). reflexivity.
Qed.

(** *** The sheet the call works on *)

Lemma find_sheet_loop_first (sheets pre post : list str) (s target : str) :
  (forall p, In p pre -> lower p <> lower target) ->
  lower s = lower target ->
  find_sheet_loop sheets (pre ++ s :: post) target = Some s.
Proof.
  intros Hpre Hs. induction pre as [|p pre IH]; cbn [app find_sheet_loop].
  - rewrite Hs, str_eqb_refl. reflexivity.
  - assert (E : str_eqb (lower p) (lower target) = false)
      by (apply str_eqb_neq, Hpre; left; reflexivity).
    rewrite E. apply IH. intros q Hq. apply Hpre. right; exact Hq.
Qed.

Lemma find_sheet_loop_none (sheets remaining : list str) (target : str) :
  (forall s, In s remaining -> lower s <> lower target) ->
  find_sheet_loop sheets remaining target = nth_error sheets 0.
Proof.
  induction remaining as [|s rest IH]; intros H; [reflexivity|].
  cbn [find_sheet_loop].
  assert (E : str_eqb (lower s) (lower target) = false)
    by (apply str_eqb_neq, H; left; reflexivity).
  rewrite E. apply IH. intros q Hq. apply H. right; exact Hq.
Qed.

(** C7. The sheet is chosen by comparing lowercased names: the result is
    the first sheet, in file order, whose lowercased name equals the
    lowercased target; when no sheet matches, the result is the first sheet
    of the file. *)
Theorem C7_sheet_chosen_ignoring_case
    (file_content : Workbook) (sheet_name : str) :
  (forall pre s post,
      sheet_names file_content = pre ++ s :: post ->
      lower s = lower sheet_name ->
      (forall p, In p pre -> lower p <> lower sheet_name) ->
      find_sheet_case_insensitive file_content sheet_name = Some s) /\
  (forall first rest,
      sheet_names file_content = first :: rest ->
      (forall s, In s (first :: rest) -> lower s <> lower sheet_name) ->
      find_sheet_case_insensitive file_content sheet_name = Some first).
Proof.
  unfold find_sheet_case_insensitive. split.
  - intros pre s post E Hs Hpre.
    rewrite E at 2. apply find_sheet_loop_first; assumption.
  - intros first rest E H.
    rewrite find_sheet_loop_none by (rewrite E; exact H).
    rewrite E. reflexivity.
Qed.

(** *** The sheet read, and when the call raises *)

Lemma read_excel_at (pre post : Workbook) (s : str) (grid : Sheet) :
  (forall p, In p pre -> fst p <> s) ->
  read_excel (pre ++ (s, grid) :: post) s = Some grid.
Proof.
  induction pre as [|[n g] pre IH]; intros H; cbn [app read_excel].
  - rewrite str_eqb_refl. reflexivity.
  - assert (E : str_eqb n s = false)
      by (apply str_eqb_neq; apply (H (n, g)); left; reflexivity).
    rewrite E. apply IH. intros p Hp. apply H. right; exact Hp.
Qed.

Lemma read_sheet_first_match (file_content pre post : Workbook)
    (sheet_name s : str) (grid : Sheet) :
  file_content = pre ++ (s, grid) :: post ->
  lower s = lower sheet_name ->
  (forall p, In p pre -> lower (fst p) <> lower sheet_name) ->
  read_sheet file_content sheet_name = Some grid.
Proof.
  unfold read_sheet, find_sheet_case_insensitive, sheet_names.
  intros -> Hs Hpre.
  rewrite map_app at 2. cbn [map fst].
  rewrite find_sheet_loop_first; [| |exact Hs].
  - cbn [bind]. apply read_excel_at. intros p Hp E.
    apply (Hpre p Hp). rewrite E. exact Hs.
  - intros n Hn. apply in_map_iff in Hn. destruct Hn as [p [<- Hp]].
    apply Hpre, Hp.
Qed.

Lemma read_sheet_no_match (file_content rest : Workbook)
    (sheet_name s : str) (grid : Sheet) :
  file_content = (s, grid) :: rest ->
  (forall p, In p file_content -> lower (fst p) <> lower sheet_name) ->
  read_sheet file_content sheet_name = Some grid.
Proof.
  unfold read_sheet, find_sheet_case_insensitive, sheet_names.
  intros -> H.
  rewrite find_sheet_loop_none.
  - cbn [map fst nth_error bind read_excel]. rewrite str_eqb_refl.
    reflexivity.
  - intros n Hn. apply in_map_iff in Hn. destruct Hn as [p [<- Hp]].
    apply H, Hp.
Qed.

(** X1. Lines 131-134 as a whole: the grid read is the grid of the first
    sheet, in file order, whose lowercased name equals the lowercased
    target, and the grid of the first sheet of the file when no name
    matches.  The name [find_sheet_case_insensitive] returns is looked up
    again by exact name, and that lookup lands on the same sheet. *)
Theorem read_sheet_grid (file_content : Workbook) (sheet_name : str) :
  (forall pre s grid post,
      file_content = pre ++ (s, grid) :: post ->
      lower s = lower sheet_name ->
      (forall p, In p pre -> lower (fst p) <> lower sheet_name) ->
      read_sheet file_content sheet_name = Some grid) /\
  (forall s grid rest,
      file_content = (s, grid) :: rest ->
      (forall p, In p file_content -> lower (fst p) <> lower sheet_name) ->
      read_sheet file_content sheet_name = Some grid).
Proof.
  split.
  - intros pre s grid post E Hs Hpre.
    apply (read_sheet_first_match file_content pre post sheet_name s grid);
      assumption.
  - intros s grid rest E H.
    apply (read_sheet_no_match file_content rest sheet_name s grid);
      assumption.
Qed.

Lemma first_match_split {A : Type} (f : A -> bool) (l : list A) :
  (exists pre x post,
      l = pre ++ x :: post /\ f x = true /\
      forall p, In p pre -> f p = false) \/
  (forall x, In x l -> f x = false).
Proof.
  induction l as [|a l IH]; [right; intros x []|].
  destruct (f a) eqn:E.
  - left. exists [], a, l. repeat split; [exact E | intros p []].
  - destruct IH as [[pre [x [post [-> [Hx Hpre]]]]] | Hall].
    + left. exists (a :: pre), x, post. repeat split; [exact Hx|].
      intros p [<- | Hp]; [exact E | apply Hpre, Hp].
    + right. intros x [<- | Hx]; [exact E | apply Hall, Hx].
Qed.

(** A workbook with at least one sheet always yields a grid. *)
Lemma read_sheet_some (file_content : Workbook) (sheet_name : str) :
  file_content <> [] ->
  exists sheet_data, read_sheet file_content sheet_name = Some sheet_data.
Proof.
  intros NE.
  destruct (first_match_split
              (fun p => str_eqb (lower (fst p)) (lower sheet_name))
              file_content)
    as [[pre [[s grid] [post [E [Hx Hpre]]]]] | Hall].
  - exists grid.
    apply (read_sheet_first_match file_content pre post sheet_name s grid E).
    + apply str_eqb_eq, Hx.
    + intros p Hp. apply str_eqb_neq, Hpre, Hp.
  - destruct file_content as [|[s grid] rest]; [congruence|].
    exists grid.
    apply (read_sheet_no_match _ rest sheet_name s grid eq_refl).
    intros p Hp. apply str_eqb_neq, Hall, Hp.
Qed.

Lemma populate_on_sheets (file_content : Workbook) (sheet_name : str)
    (df : DataFrame) :
  file_content <> [] ->
  exists out,
    populate_price_column_with_numbers file_content sheet_name df = Some out.
Proof.
  intros NE. unfold populate_price_column_with_numbers.
  destruct (read_sheet_some file_content sheet_name NE) as [sheet_data R].
  rewrite (populate_rows _ _ df _ fresh_locals R). eexists. reflexivity.
Qed.

(** X2. On a frame with the five columns of [create_empty_dataframe] and
    the default index 0, 1, ... (the frames [DataFrame] stands for, among
    them the one [main] passes), the call raises exactly when the workbook
    has no sheet ([sheets[0]] of line 126): with at least one sheet the
    lookup of the sheet, the rounding of the prices and the five column
    assignments all succeed, whatever the cells hold.  A frame whose index
    repeats a label, on which line 221 raises, is outside [DataFrame]. *)
Theorem populate_raises_iff_no_sheet (file_content : Workbook)
    (sheet_name : str) (df : DataFrame) :
  populate_price_column_with_numbers file_content sheet_name df = None <->
  file_content = [].
Proof.
  split.
  - intros H. destruct file_content as [|p rest]; [reflexivity|].
    destruct (populate_on_sheets (p :: rest) sheet_name df) as [out E];
      [discriminate|].
    rewrite E in H. discriminate H.
  - intros ->. reflexivity.
Qed.

(** X3. The frame passed in matters only when the sheet holds no candidate:
    then it is returned as it is; with at least one candidate the frame
    returned is the same whatever frame was passed in. *)
Theorem populate_ignores_frame_when_prices
    (file_content : Workbook) (sheet_name : str) (sheet_data : Sheet)
    (df : DataFrame) :
  read_sheet file_content sheet_name = Some sheet_data ->
  (price_cells (scan_order sheet_data) = [] ->
   populate_price_column_with_numbers file_content sheet_name df = Some df) /\
  (price_cells (scan_order sheet_data) <> [] ->
   forall df',
     populate_price_column_with_numbers file_content sheet_name df' =
     populate_price_column_with_numbers file_content sheet_name df).
Proof.
  intros R. unfold populate_price_column_with_numbers, scan_order.
  rewrite <- (columns_entries_prices sheet_data sheet_data None).
  split.
  - intros H. rewrite (populate_rows _ _ df _ fresh_locals R).
    destruct (columns_entries sheet_data sheet_data None); [reflexivity|].
    discriminate H.
  - intros H df'. rewrite !(populate_rows _ _ _ _ fresh_locals R).
    destruct (columns_entries sheet_data sheet_data None);
      [exfalso; apply H; reflexivity | reflexivity].
Qed.

(** *** The shape of the dates *)

(** Four decimal digits. *)
Definition year4 (y : str) : Prop :=
  length y = 4 /\ forallb isdecimal y = true.

(** A variable that holds [None] or four decimal digits. *)
Definition year_or_none (o : option str) : Prop :=
  forall y, o = Some y -> year4 y.

(** A variable that holds [None] or one of the twelve month codes. *)
Definition month_or_none (o : option str) : Prop :=
  forall m, o = Some m -> In m (map snd month_mapping).

(** A Date cell: absent, or a year of four decimal digits, a dash, one of
    the twelve month codes and "-01". *)
Definition date_shaped (v : value) : Prop :=
  v = PyNone \/
  exists y m,
    v = PyStr (y ++ u "-" ++ m ++ u "-01") /\ year4 y /\
    In m (map snd month_mapping).

Lemma re_search_year4 (s y : str) : re_search_4digits s = Some y -> year4 y.
Proof.
  induction s as [|c s IH]; simpl; [discriminate|].
  destruct s as [|d1 [|d2 [|d3 s']]]; try discriminate.
  destruct (isdecimal c && isdecimal d1 && isdecimal d2 && isdecimal d3)
    eqn:E.
  - intros [= <-]. split; [reflexivity|]. cbn [forallb].
    rewrite !andb_true_iff in E. destruct E as [[[-> ->] ->] ->].
    reflexivity.
  - exact IH.
Qed.

Lemma month_code_In (s m : str) :
  dict_get month_mapping s = Some m -> In m (map snd month_mapping).
Proof.
  intros H. apply dict_get_In in H.
  apply (in_map snd) in H. exact H.
Qed.

(** The loop keeps the three variables in shape. *)
Lemma date_loop_shapes (column_data : list value) :
  forall d y l,
    month_or_none d -> year_or_none y -> year_or_none l ->
    month_or_none (fst (fst (date_loop column_data d y l))) /\
    year_or_none (snd (fst (date_loop column_data d y l))) /\
    year_or_none (snd (date_loop column_data d y l)).
Proof.
  induction column_data as [|cell rest IH]; intros d y l Hd Hy Hl;
    [split; [|split]; assumption|].
  destruct cell as [n|x|b|s| |]; cbn [date_loop]; try (apply IH; assumption).
  destruct (dict_get month_mapping s) as [m|] eqn:M.
  - assert (Hm : month_or_none (Some m))
      by (intros m' [= <-]; apply (month_code_In s m M)).
    destruct (truthy (Some m) && truthy y);
      [split; [|split]; assumption | apply IH; assumption].
  - destruct (re_match_year s).
    + assert (Hs : year_or_none (re_search_4digits s))
        by (intros yy E; apply (re_search_year4 s yy E)).
      destruct (truthy d && truthy (re_search_4digits s));
        [split; [|split]; assumption | apply IH; assumption].
    + destruct (truthy d && truthy y);
        [split; [|split]; assumption | apply IH; assumption].
Qed.

Lemma date_of_shaped (column_data : list value) (known : option str) :
  year_or_none known -> date_shaped (to_value (date_of column_data known)).
Proof.
  intros Hk. unfold date_of.
  assert (N : forall o : option str, o = None -> forall a, o = Some a -> False)
    by (intros o -> a; discriminate).
  destruct (date_loop_shapes column_data None None known
              (fun m E => False_ind _ (N _ eq_refl m E))
              (fun y E => False_ind _ (N _ eq_refl y E)) Hk)
    as [Hd [Hy Hl]].
  destruct (date_loop column_data None None known) as [[d y] l].
  cbn [fst snd] in Hd, Hy, Hl. unfold full_date_of.
  destruct (truthy d && negb (truthy y)).
  - destruct (truthy d && truthy l); [|left; reflexivity].
    destruct l as [yy|]; [|left; reflexivity].
    destruct d as [m|]; [|left; reflexivity].
    right. exists yy, m. repeat split;
      [apply (Hl yy eq_refl) | apply (Hl yy eq_refl) | apply (Hd m eq_refl)].
  - destruct (truthy d && truthy y); [|left; reflexivity].
    destruct y as [yy|]; [|left; reflexivity].
    destruct d as [m|]; [|left; reflexivity].
    right. exists yy, m. repeat split;
      [apply (Hy yy eq_refl) | apply (Hy yy eq_refl) | apply (Hd m eq_refl)].
Qed.

Lemma year_step_shape (known : option str) (column_data : list value) :
  year_or_none known -> year_or_none (year_step known column_data).
Proof.
  intros Hk. unfold year_step.
  destruct (existsb is_price column_data); [|exact Hk].
  assert (N : forall o : option str, o = None -> forall a, o = Some a -> False)
    by (intros o -> a; discriminate).
  destruct (date_loop_shapes column_data None None None
              (fun m E => False_ind _ (N _ eq_refl m E))
              (fun y E => False_ind _ (N _ eq_refl y E))
              (fun y E => False_ind _ (N _ eq_refl y E)))
    as [_ [Hy _]].
  unfold observed_year. destruct (snd (fst (date_loop column_data None None None)));
    [exact Hy | exact Hk].
Qed.

Lemma columns_entries_dates (sheet_data : Sheet)
    (columns : list (list value)) :
  forall known,
    year_or_none known ->
    Forall (fun e => date_shaped (to_value (p_date e)))
           (columns_entries sheet_data columns known).
Proof.
  induction columns as [|column_data rest IH]; intros known Hk;
    [constructor|].
  cbn [columns_entries]. apply Forall_app. split.
  - unfold items_entries. apply Forall_map, Forall_forall. intros item _.
    apply date_of_shaped, Hk.
  - apply IH, year_step_shape, Hk.
Qed.

(** X4. Every Date of the frame the extractor returns (started from the empty
    frame) is absent or has the form YYYY-MM-01: four decimal digits, a
    dash, one of the codes "01" to "12", and "-01". *)
Theorem every_date_is_absent_or_year_month_01
    (file_content : Workbook) (sheet_name : str) (out : DataFrame) :
  populate_price_column_with_numbers file_content sheet_name
    create_empty_dataframe = Some out ->
  Forall (fun obs => date_shaped (Date obs)) out.
Proof.
  intros H.
  destruct file_content as [|p rest] eqn:E;
    [discriminate H|]. rewrite <- E in *.
  destruct (read_sheet_some file_content sheet_name) as [sheet_data R];
    [rewrite E; discriminate|].
  rewrite (populate_empty_frame _ _ _ R) in H. injection H as <-.
  apply Forall_map.
  apply (columns_entries_dates sheet_data sheet_data None).
  intros y [=].
Qed.

(** *** Where the region, product and unit come from *)

(** A cell of the output that is absent or a text of [row]. *)
Definition from_row (row : list value) (v : value) : Prop :=
  v = PyNone \/ exists s, v = PyStr s /\ In (PyStr s) row.

Lemma In_skipn {A : Type} (x : A) (n : nat) (l : list A) :
  In x (skipn n l) -> In x l.
Proof.
  intros H. rewrite <- (firstn_skipn n l). apply in_or_app. right; exact H.
Qed.

Lemma next_str_In (cells : list value) (found : option str) (s : str) :
  next_str cells found = Some s -> found = Some s \/ In (PyStr s) cells.
Proof.
  induction cells as [|cell rest IH]; [left; assumption|].
  destruct cell as [n|x|b|t| |]; cbn [next_str]; intros H;
    try (destruct (IH H) as [K|K]; [left; exact K | right; right; exact K]).
  injection H as ->. right; left; reflexivity.
Qed.

Lemma region_hit_In (row : list value) (items : list (nat * value))
    (s : str) (p un : option str) :
  (forall item, In item items -> In (snd item) row) ->
  region_hit row items = Some (s, p, un) ->
  In (PyStr s) row /\
  (forall x, p = Some x -> In (PyStr x) row) /\
  (forall x, un = Some x -> In (PyStr x) row).
Proof.
  induction items as [|[idx cell] rest IH]; intros Hin; cbn [region_hit];
    [discriminate|].
  assert (Hrest : forall item, In item rest -> In (snd item) row)
    by (intros item Hi; apply Hin; right; exact Hi).
  destruct cell as [n|x|b|t| |]; try (apply IH; exact Hrest).
  destruct (str_in t valid_regions); [|apply IH; exact Hrest].
  intros [= <- <- <-].
  assert (P : forall x, next_str (skipn (idx + 1) row) None = Some x ->
                        In (PyStr x) row).
  { intros x Hx. apply next_str_In in Hx. destruct Hx as [Hx | Hx];
      [discriminate | apply (In_skipn _ _ _ Hx)]. }
  split; [apply (Hin (idx, PyStr t)); left; reflexivity|].
  split; [exact P|].
  intros x Hx. apply next_str_In in Hx. destruct Hx as [Hx | Hx];
    [apply P, Hx | apply (In_skipn _ _ _ Hx)].
Qed.

Lemma str_cell_In (row : list value) (k : nat) (s : str) :
  str_cell row k = Some s -> In (PyStr s) row.
Proof.
  unfold str_cell. destruct (nth_error row k) as [[n|x|b|t| |]|] eqn:E;
    try discriminate.
  intros [= <-]. apply (nth_error_In _ _ E).
Qed.

Lemma row_fields_from_row (row : list value) :
  from_row row (to_value (region_of row)) /\
  from_row row (to_value (product_of row)) /\
  from_row row (to_value (unit_of row)).
Proof.
  assert (G : forall o, (forall s, o = Some s -> In (PyStr s) row) ->
                        from_row row (to_value o)).
  { intros [s|] H; [right; exists s; split; [reflexivity | apply H; reflexivity]
                   | left; reflexivity]. }
  unfold region_of, product_of, unit_of, row_fields.
  rewrite !region_loop_hit.
  destruct (region_hit row (enumerate row)) as [[[s p] un]|] eqn:E.
  - rewrite (region_truthy s (region_hit_region _ _ _ _ _ E)).
    destruct (region_hit_In row (enumerate row) s p un
                (fun item Hi => in_enumerate row item Hi) E) as [Hs [Hp Hu]].
    cbn [negb fst snd hd app]. repeat split; apply G.
    + intros t [= <-]. exact Hs.
    + exact Hp.
    + exact Hu.
  - cbn [truthy negb fst snd hd app].
    repeat split; apply G; intros t Ht; apply (str_cell_In _ _ _ Ht).
Qed.

(** X5. The Region, Product and Unit of a candidate's row of the frame are
    each absent or a text that stands in the candidate's own row of the
    sheet: the extractor never takes a label from another row. *)
Theorem labels_come_from_the_candidate_row
    (file_content : Workbook) (sheet_name : str) (df : DataFrame)
    (columns_before columns_after : list (list value))
    (column_data : list value) (row_idx : nat) (v : value) :
  let sheet_data := columns_before ++ column_data :: columns_after in
  let row := iloc sheet_data row_idx in
  read_sheet file_content sheet_name = Some sheet_data ->
  nth_error column_data row_idx = Some v ->
  is_price v = true ->
  exists out obs,
    populate_price_column_with_numbers file_content sheet_name df = Some out /\
    nth_error out (position columns_before column_data row_idx) = Some obs /\
    from_row row (Region obs) /\
    from_row row (Product obs) /\
    from_row row (Unit obs).
Proof.
  intros sheet_data row R Hn Hp.
  destruct (observation_at file_content sheet_name df columns_before
              columns_after column_data row_idx v R Hn Hp) as [out [E1 E2]].
  exists out. eexists. split; [exact E1|]. split; [exact E2|].
  apply (row_fields_from_row row).
Qed.

(** *** A column with its own year *)

(** [cell] names a month. *)
Definition names_month (cell : value) : bool :=
  match month_token cell with
  | Some _ => true
  | None => false
  end.

(** No month name matches the year pattern. *)
Lemma month_is_no_year (s m : str) :
  dict_get month_mapping s = Some m -> re_match_year s = false.
Proof.
  intros H. apply dict_get_In in H.
  repeat (destruct H as [H | H]; [injection H as <- _; reflexivity|]).
  destruct H.
Qed.

(** When a month and a year are each already found or still ahead in the
    column, the loop ends with both. *)
Lemma date_loop_finds_both (column_data : list value) :
  forall d y l,
    truthy d || existsb names_month column_data = true ->
    truthy y || existsb year_token column_data = true ->
    truthy (fst (fst (date_loop column_data d y l))) = true /\
    truthy (snd (fst (date_loop column_data d y l))) = true.
Proof.
  induction column_data as [|cell rest IH]; intros d y l Hd Hy.
  - cbn [existsb] in Hd, Hy. rewrite orb_false_r in Hd, Hy.
    split; assumption.
  - cbn [existsb] in Hd, Hy.
    destruct cell as [n|x|b|s| |];
      cbn [date_loop names_month month_token year_token orb] in *;
      try (apply IH; assumption).
    unfold names_month in Hd. cbn [month_token] in Hd.
    destruct (dict_get month_mapping s) as [m|] eqn:M.
    + rewrite (month_is_no_year s m M) in Hy. cbn [orb] in Hy.
      pose proof (month_code_truthy s m M) as Tm. rewrite Tm.
      case_eq (truthy y); intros Ty; cbn [andb fst snd].
      * split; assumption.
      * apply IH; [rewrite Tm; reflexivity | exact Hy].
    + cbn [orb] in Hd. destruct (re_match_year s) eqn:Y.
      * destruct (re_match_year_search s Y) as [yy E]. rewrite E.
        pose proof (re_search_truthy s yy E) as Tyy. rewrite Tyy.
        case_eq (truthy d); intros Td; cbn [andb fst snd].
        -- split; [exact Td | exact Tyy].
        -- apply IH; [exact Hd | rewrite Tyy; reflexivity].
      * cbn [orb] in Hy.
        case_eq (truthy d && truthy y); intros B; cbn [fst snd].
        -- apply andb_true_iff in B. exact B.
        -- apply IH; assumption.
Qed.

Lemma last_month_names_month (column_data : list value) (m : str) :
  last_month column_data = Some m ->
  existsb names_month column_data = true.
Proof.
  unfold last_month.
  assert (G : forall acc,
             fold_left (fun acc cell => match month_token cell with
                                        | Some m => Some m
                                        | None => acc
                                        end) column_data acc = Some m ->
             acc = Some m \/ existsb names_month column_data = true).
  { induction column_data as [|cell rest IH]; intros acc H;
      [left; exact H|].
    cbn [fold_left] in H. cbn [existsb]. unfold names_month at 1.
    destruct (IH _ H) as [K | K].
    - destruct (month_token cell); [right; reflexivity | left; exact K].
    - right. rewrite K. apply orb_true_r. }
  intros H. destruct (G None H) as [K | K]; [discriminate | exact K].
Qed.

(** X6. A candidate whose column names a month and holds a year token always
    gets a Date, built from the year its own column's scan observes: the
    year carried from earlier columns plays no part. *)
Theorem column_with_year_and_month_uses_its_own_year
    (file_content : Workbook) (sheet_name : str) (df : DataFrame)
    (columns_before columns_after : list (list value))
    (column_data : list value) (row_idx : nat) (v : value) (m0 : str) :
  read_sheet file_content sheet_name =
    Some (columns_before ++ column_data :: columns_after) ->
  nth_error column_data row_idx = Some v ->
  is_price v = true ->
  last_month column_data = Some m0 ->
  existsb year_token column_data = true ->
  exists out obs y m,
    populate_price_column_with_numbers file_content sheet_name df = Some out /\
    nth_error out (position columns_before column_data row_idx) = Some obs /\
    observed_year column_data = Some y /\
    In m (map snd month_mapping) /\
    Date obs = PyStr (y ++ u "-" ++ m ++ u "-01").
Proof.
  intros R Hn Hp Hm Hy.
  destruct (observation_at file_content sheet_name df columns_before
              columns_after column_data row_idx v R Hn Hp) as [out [E1 E2]].
  destruct (date_loop_finds_both column_data None None None
              (last_month_names_month _ _ Hm) Hy) as [Td Ty].
  assert (N : forall o : option str, o = None -> forall a, o = Some a -> False)
    by (intros o -> a; discriminate).
  destruct (date_loop_shapes column_data None None None
              (fun m E => False_ind _ (N _ eq_refl m E))
              (fun y E => False_ind _ (N _ eq_refl y E))
              (fun y E => False_ind _ (N _ eq_refl y E)))
    as [Sd _].
  pose proof (date_of_eq column_data (last_seen_year columns_before)) as D.
  unfold observed_year in *.
  destruct (fst (fst (date_loop column_data None None None))) as [m|];
    [|discriminate Td].
  destruct (snd (fst (date_loop column_data None None None))) as [y|];
    [|discriminate Ty].
  exists out. eexists. exists y, m.
  split; [exact E1|]. split; [exact E2|]. split; [reflexivity|].
  split; [apply (Sd m eq_refl)|].
  unfold observation_of, pending_of. cbn [Date p_date].
  rewrite D. unfold full_date_of. rewrite Td, Ty. cbn [negb andb].
  rewrite Ty. reflexivity.
Qed.

(** *** Candidates that share a row or a column *)

(** X7. The row of the frame of a candidate whose row of the sheet holds a
    region name: with [s] the first region name of the row, [pre] the cells
    before it and [post] the cells after it, Region is [s], Product is the
    first text of [post], and Unit is the first text of [post] past its
    first cell or, when there is none, the Product once more. *)
Theorem row_with_region_labels
    (file_content : Workbook) (sheet_name : str) (df : DataFrame)
    (columns_before columns_after : list (list value))
    (column_data : list value) (row_idx : nat) (v : value)
    (pre post : list value) (s : str) :
  let sheet_data := columns_before ++ column_data :: columns_after in
  read_sheet file_content sheet_name = Some sheet_data ->
  nth_error column_data row_idx = Some v ->
  is_price v = true ->
  iloc sheet_data row_idx = pre ++ PyStr s :: post ->
  (forall cell, In cell pre -> is_region cell = false) ->
  In s valid_regions ->
  exists out obs,
    populate_price_column_with_numbers file_content sheet_name df = Some out /\
    nth_error out (position columns_before column_data row_idx) = Some obs /\
    Region obs = PyStr s /\
    Product obs = to_value (first_str post) /\
    Unit obs = match first_str (tl post) with
               | Some unit => PyStr unit
               | None => Product obs
               end.
Proof.
  intros sheet_data R Hn Hp Hrow Hpre Hs.
  destruct (observation_at file_content sheet_name df columns_before
              columns_after column_data row_idx v R Hn Hp) as [out [E1 E2]].
  apply str_in_In in Hs.
  destruct (row_with_region pre post s Hpre Hs) as [Hr [Hpr Hu]].
  exists out. eexists. split; [exact E1|]. split; [exact E2|].
  unfold observation_of, pending_of. cbn [Region Product Unit p_region
                                          p_product p_unit].
  fold sheet_data. rewrite Hrow, Hr, Hpr, Hu.
  repeat split. destruct (first_str (tl post)); reflexivity.
Qed.

(** X8. All the candidates of one column get the same Date, although the scan
    of the column by the first of them may change the last year seen. *)
Theorem same_column_same_date
    (file_content : Workbook) (sheet_name : str) (df : DataFrame)
    (columns_before columns_after : list (list value))
    (column_data : list value) (row1 row2 : nat) (v1 v2 : value) :
  read_sheet file_content sheet_name =
    Some (columns_before ++ column_data :: columns_after) ->
  nth_error column_data row1 = Some v1 -> is_price v1 = true ->
  nth_error column_data row2 = Some v2 -> is_price v2 = true ->
  exists out obs1 obs2,
    populate_price_column_with_numbers file_content sheet_name df = Some out /\
    nth_error out (position columns_before column_data row1) = Some obs1 /\
    nth_error out (position columns_before column_data row2) = Some obs2 /\
    Date obs1 = Date obs2.
Proof.
  intros R Hn1 Hp1 Hn2 Hp2.
  destruct (observation_at file_content sheet_name df columns_before
              columns_after column_data row1 v1 R Hn1 Hp1) as [out [E1 E2]].
  destruct (observation_at file_content sheet_name df columns_before
              columns_after column_data row2 v2 R Hn2 Hp2) as [out' [E1' E2']].
  rewrite E1 in E1'. injection E1' as <-.
  exists out. do 2 eexists.
  split; [exact E1|]. split; [exact E2|]. split; [exact E2'|]. reflexivity.
Qed.

(** X9. All the candidates of one row of the sheet get the same Region, Product
    and Unit, whichever columns they stand in. *)
Theorem same_row_same_labels
    (file_content : Workbook) (sheet_name : str) (df : DataFrame)
    (sheet_data : Sheet)
    (before1 after1 before2 after2 : list (list value))
    (column1 column2 : list value) (row_idx : nat) (v1 v2 : value) :
  read_sheet file_content sheet_name = Some sheet_data ->
  sheet_data = before1 ++ column1 :: after1 ->
  sheet_data = before2 ++ column2 :: after2 ->
  nth_error column1 row_idx = Some v1 -> is_price v1 = true ->
  nth_error column2 row_idx = Some v2 -> is_price v2 = true ->
  exists out obs1 obs2,
    populate_price_column_with_numbers file_content sheet_name df = Some out /\
    nth_error out (position before1 column1 row_idx) = Some obs1 /\
    nth_error out (position before2 column2 row_idx) = Some obs2 /\
    Region obs1 = Region obs2 /\
    Product obs1 = Product obs2 /\
    Unit obs1 = Unit obs2.
Proof.
  intros R S1 S2 Hn1 Hp1 Hn2 Hp2.
  pose proof R as R1. rewrite S1 in R1.
  pose proof R as R2. rewrite S2 in R2.
  destruct (observation_at file_content sheet_name df before1 after1 column1
              row_idx v1 R1 Hn1 Hp1) as [out [E1 E2]].
  destruct (observation_at file_content sheet_name df before2 after2 column2
              row_idx v2 R2 Hn2 Hp2) as [out' [E1' E2']].
  rewrite E1 in E1'. injection E1' as <-.
  exists out. do 2 eexists.
  split; [exact E1|]. split; [exact E2|]. split; [exact E2'|].
  unfold observation_of, pending_of.
  cbn [Region Product Unit p_region p_product p_unit].
  rewrite <- S1, <- S2. repeat split.
Qed.

(** X10. [find_sheet_case_insensitive] returns the name of a sheet of the
    workbook whenever it returns, and raises ([sheets[0]] on an empty list)
    exactly when the workbook has no sheet. *)
Theorem found_sheet_is_a_sheet (file_content : Workbook) (sheet_name : str) :
  (find_sheet_case_insensitive file_content sheet_name = None <->
   file_content = []) /\
  (forall s, find_sheet_case_insensitive file_content sheet_name = Some s ->
             In s (sheet_names file_content)).
Proof.
  unfold find_sheet_case_insensitive.
  assert (G : forall sheets remaining,
             (forall s, In s remaining -> In s sheets) ->
             match find_sheet_loop sheets remaining sheet_name with
             | Some s => In s sheets
             | None => sheets = []
             end).
  { intros sheets remaining. induction remaining as [|n rest IH]; intros H.
    - cbn [find_sheet_loop]. destruct sheets; [reflexivity | left; reflexivity].
    - cbn [find_sheet_loop].
      destruct (str_eqb (lower n) (lower sheet_name)).
      + apply H. left; reflexivity.
      + apply IH. intros s Hs. apply H. right; exact Hs. }
  pose proof (G (sheet_names file_content) (sheet_names file_content)
                (fun s Hs => Hs)) as K.
  split.
  - split.
    + intros E. rewrite E in K. destruct file_content; [reflexivity|].
      discriminate K.
    + intros ->. reflexivity.
  - intros s E. rewrite E in K. exact K.
Qed.

End TableExtractorFacts.

(** ** The link resolver *)

Section LinkResolverFacts.

Variable lower : str -> str.

Local Abbreviation prioritize := (prioritize lower).
Local Abbreviation find_and_return_xls_link := (find_and_return_xls_link lower).

Lemma prioritize_first (r : str) (pre post : list anchor) (a : anchor)
    (default : str) :
  (forall b, In b pre -> contains (lower (text b)) (lower r) = false) ->
  contains (lower (text a)) (lower r) = true ->
  prioritize r (pre ++ a :: post) default = href a.
Proof.
  intros Hpre Ha. induction pre as [|b pre IH]; cbn [app prioritize].
  - rewrite Ha. reflexivity.
  - rewrite (Hpre b (or_introl eq_refl)). apply IH.
    intros c Hc. apply Hpre. right; exact Hc.
Qed.

Lemma prioritize_default (r : str) (links : list anchor) (default : str) :
  (forall b, In b links -> contains (lower (text b)) (lower r) = false) ->
  prioritize r links default = default.
Proof.
  induction links as [|b links IH]; intros H; [reflexivity|].
  cbn [prioritize]. rewrite (H b (or_introl eq_refl)).
  apply IH. intros c Hc. apply H. right; exact Hc.
Qed.

(** C4, as amended.  Among the anchors whose href ends with ".xls", in
    document order: with a given, non-empty reference text the resolver
    selects the first anchor whose lowercased text contains the lowercased
    reference text, and the last anchor when none does; with no reference
    text, or an empty one, it selects the last anchor; it returns the
    selected href as it stands when it starts with "http", and otherwise
    appended to the first three "/"-separated parts of the page's URL
    (scheme and host); without such an anchor it returns nothing. *)
Theorem C4_selected_link_made_absolute
    (links : list anchor) (page_url : str) (reference_text : option str) :
  let candidates :=
    filter (fun link => endswith (href link) (u ".xls")) links in
  let result := find_and_return_xls_link (Some links) page_url reference_text in
  (candidates = [] -> result = None) /\
  (forall r pre a post,
      reference_text = Some r -> r <> [] ->
      candidates = pre ++ a :: post ->
      contains (lower (text a)) (lower r) = true ->
      (forall b, In b pre -> contains (lower (text b)) (lower r) = false) ->
      result = Some (absolute_url page_url (href a))) /\
  (forall r pre z,
      reference_text = Some r -> r <> [] ->
      candidates = pre ++ [z] ->
      (forall b, In b candidates ->
                 contains (lower (text b)) (lower r) = false) ->
      result = Some (absolute_url page_url (href z))) /\
  (forall pre z,
      reference_text = None \/ reference_text = Some [] ->
      candidates = pre ++ [z] ->
      result = Some (absolute_url page_url (href z))) /\
  (forall h,
      absolute_url page_url h =
      if startswith h (u "http") then h
      else join (u "/") (firstn 3 (split_on 47%N page_url)) ++ h).
Proof.
  intros candidates result. subst result.
  unfold find_and_return_xls_link. fold candidates.
  split; [intros ->; reflexivity|]. split; [|split; [|split]].
  - intros r pre a post -> Hr E Ha Hpre.
    destruct candidates as [|first rest] eqn:C;
      [destruct pre; discriminate E|].
    destruct r as [|c t]; [congruence|].
    rewrite E. rewrite (prioritize_first _ _ _ _ _ Hpre Ha). reflexivity.
  - intros r pre z -> Hr E Hall.
    destruct candidates as [|first rest] eqn:C;
      [destruct pre; discriminate E|].
    destruct r as [|c t]; [congruence|].
    rewrite (prioritize_default _ _ _ Hall), E, last_last. reflexivity.
  - intros pre z Href E.
    destruct candidates as [|first rest] eqn:C;
      [destruct pre; discriminate E|].
    rewrite E, last_last. destruct Href as [-> | ->]; reflexivity.
  - intros h. unfold absolute_url.
    destruct (startswith h (u "http")); reflexivity.
Qed.

(** *** What the resolver returns *)

Lemma startswith_app (a b p : str) :
  startswith a p = true -> startswith (a ++ b) p = true.
Proof.
  revert a; induction p as [|y p IH]; intros a H;
    [destruct (a ++ b); reflexivity|].
  destruct a as [|x a]; [discriminate H|].
  cbn [app startswith] in *. apply andb_true_iff in H. destruct H as [-> H].
  apply IH, H.
Qed.

Lemma endswith_app (a b p : str) :
  endswith b p = true -> endswith (a ++ b) p = true.
Proof.
  unfold endswith. rewrite rev_app_distr. apply startswith_app.
Qed.

Lemma endswith_xls_nonempty (s : str) :
  endswith s (u ".xls") = true -> s <> [].
Proof. intros H ->. discriminate H. Qed.

Lemma absolute_url_endswith (page_url h p : str) :
  endswith h p = true -> endswith (absolute_url page_url h) p = true.
Proof.
  intros H. unfold absolute_url.
  destruct (negb (startswith h (u "http"))); [apply endswith_app|]; exact H.
Qed.

Lemma prioritize_In (r : str) (links : list anchor) (default : str) :
  prioritize r links default = default \/
  exists link, In link links /\ prioritize r links default = href link.
Proof.
  induction links as [|link rest IH]; [left; reflexivity|].
  cbn [prioritize].
  destruct (contains (lower (text link)) (lower r)).
  - right. exists link. split; [left; reflexivity | reflexivity].
  - destruct IH as [E | [l [Hl E]]]; [left; exact E|].
    right. exists l. split; [right; exact Hl | exact E].
Qed.

Lemma last_In {A : Type} (l : list A) (d : A) :
  l <> [] -> In (last l d) l.
Proof.
  induction l as [|a l IH]; [congruence|]. intros _.
  destruct l as [|b l]; [left; reflexivity|].
  right. change (last (a :: b :: l) d) with (last (b :: l) d).
  apply IH. discriminate.
Qed.

Lemma resolver_none_without_candidate (links : list anchor)
    (page_url : str) (reference_text : option str) :
  (forall link, In link links -> endswith (href link) (u ".xls") = false) ->
  find_and_return_xls_link (Some links) page_url reference_text = None.
Proof.
  intros H. unfold find_and_return_xls_link.
  destruct (filter (fun link => endswith (href link) (u ".xls")) links)
    as [|first rest] eqn:F; [reflexivity|].
  assert (K : In first (filter (fun link => endswith (href link) (u ".xls"))
                               links))
    by (rewrite F; left; reflexivity).
  apply filter_In in K. destruct K as [K1 K2].
  rewrite (H first K1) in K2. discriminate K2.
Qed.

Lemma resolver_none_no_candidate (links : list anchor)
    (page_url : str) (reference_text : option str) :
  find_and_return_xls_link (Some links) page_url reference_text = None ->
  forall link, In link links -> endswith (href link) (u ".xls") = false.
Proof.
  unfold find_and_return_xls_link.
  destruct (filter (fun link => endswith (href link) (u ".xls")) links)
    as [|first rest] eqn:F; [|discriminate].
  intros _ link Hl. destruct (endswith (href link) (u ".xls")) eqn:E;
    [|reflexivity].
  assert (K : In link (filter (fun link => endswith (href link) (u ".xls"))
                              links))
    by (apply filter_In; split; assumption).
  rewrite F in K. destruct K.
Qed.

(** X11. The resolver returns nothing exactly when the request raised or no
    anchor of the page has an href that ends with ".xls". *)
Theorem resolver_returns_nothing_iff
    (response : option (list anchor)) (page_url : str)
    (reference_text : option str) :
  find_and_return_xls_link response page_url reference_text = None <->
  response = None \/
  exists links,
    response = Some links /\
    forall link, In link links -> endswith (href link) (u ".xls") = false.
Proof.
  split.
  - destruct response as [links|]; [|left; reflexivity].
    intros H. right. exists links. split; [reflexivity|].
    apply (resolver_none_no_candidate links page_url reference_text H).
  - intros [-> | [links [-> H]]]; [reflexivity|].
    apply resolver_none_without_candidate, H.
Qed.

Lemma resolver_some_link (links : list anchor) (page_url : str)
    (reference_text : option str) (url : str) :
  find_and_return_xls_link (Some links) page_url reference_text = Some url ->
  exists link,
    In link links /\ endswith (href link) (u ".xls") = true /\
    url = absolute_url page_url (href link).
Proof.
  unfold find_and_return_xls_link.
  destruct (filter (fun link => endswith (href link) (u ".xls")) links)
    as [|first rest] eqn:F; [discriminate|].
  assert (Hc : forall link, In link (first :: rest) ->
                 In link links /\ endswith (href link) (u ".xls") = true)
    by (intros link Hl; rewrite <- F in Hl; apply filter_In in Hl; exact Hl).
  assert (Hlast : In (last (first :: rest) first) (first :: rest))
    by (apply last_In; discriminate).
  assert (G : exists link, In link (first :: rest) /\
                match reference_text with
                | Some (c :: t) =>
                    prioritize (c :: t) (first :: rest)
                               (href (last (first :: rest) first))
                | _ => href (last (first :: rest) first)
                end = href link).
  { destruct reference_text as [[|c t]|]; eauto.
    destruct (prioritize_In (c :: t) (first :: rest)
                (href (last (first :: rest) first))) as [E | [l [Hl E]]];
      eauto. }
  destruct G as [link [Hl E]]. rewrite E. intros [= <-].
  destruct (Hc link Hl) as [H1 H2].
  exists link. repeat split; assumption.
Qed.

(** X12. Whatever the resolver returns is the href of one of the page's
    anchors that ends with ".xls", made absolute by lines 48-50; it ends
    with ".xls" itself and is never the empty string (so the test of line
    241 in [main] fails only on [None]). *)
Theorem resolver_returns_an_xls_link
    (links : list anchor) (page_url : str) (reference_text : option str)
    (url : str) :
  find_and_return_xls_link (Some links) page_url reference_text = Some url ->
  (exists link,
      In link links /\ endswith (href link) (u ".xls") = true /\
      url = absolute_url page_url (href link)) /\
  endswith url (u ".xls") = true /\
  url <> [].
Proof.
  intros H.
  destruct (resolver_some_link links page_url reference_text url H)
    as [link [H1 [H2 ->]]].
  assert (H3 : endswith (absolute_url page_url (href link)) (u ".xls") = true)
    by (apply absolute_url_endswith, H2).
  split; [exists link; repeat split; assumption|].
  split; [exact H3 | apply endswith_xls_nonempty, H3].
Qed.

(** *** The prefix of lines 48-50 *)

Lemma split_on_no_sep (sep : codepoint) (a b : str) :
  (forall c, In c a -> c <> sep) ->
  split_on sep (a ++ sep :: b) = a :: split_on sep b.
Proof.
  induction a as [|c a IH]; intros H; cbn [app split_on].
  - rewrite N.eqb_refl. reflexivity.
  - assert (E : N.eqb c sep = false)
      by (apply N.eqb_neq, H; left; reflexivity).
    rewrite E, IH by (intros d Hd; apply H; right; exact Hd). reflexivity.
Qed.

Lemma split_on_none (sep : codepoint) (a : str) :
  (forall c, In c a -> c <> sep) -> split_on sep a = [a].
Proof.
  induction a as [|c a IH]; intros H; [reflexivity|]. cbn [split_on].
  assert (E : N.eqb c sep = false)
    by (apply N.eqb_neq, H; left; reflexivity).
  rewrite E, IH by (intros d Hd; apply H; right; exact Hd). reflexivity.
Qed.

Lemma split_on_nonempty (sep : codepoint) (s : str) : split_on sep s <> [].
Proof.
  induction s as [|c s IH]; [discriminate|]. cbn [split_on].
  destruct (N.eqb c sep); [discriminate|].
  destruct (split_on sep s); discriminate.
Qed.

(** ["/".join(s.split("/"))] gives [s] back. *)
Lemma join_split_on (sep : codepoint) (s : str) :
  join [sep] (split_on sep s) = s.
Proof.
  induction s as [|c s IH]; [reflexivity|]. cbn [split_on].
  destruct (N.eqb c sep) eqn:E.
  - apply N.eqb_eq in E. subst c.
    pose proof (split_on_nonempty sep s) as NE.
    destruct (split_on sep s) as [|w ws]; [congruence|].
    change (join [sep] ([] :: w :: ws))
      with ([] ++ [sep] ++ join [sep] (w :: ws)).
    rewrite IH. reflexivity.
  - pose proof (split_on_nonempty sep s) as NE.
    destruct (split_on sep s) as [|w ws]; [congruence|].
    destruct ws as [|w' ws].
    + cbn [join] in *. rewrite IH. reflexivity.
    + change (join [sep] ((c :: w) :: w' :: ws))
        with (c :: (w ++ [sep] ++ join [sep] (w' :: ws))).
      change (join [sep] (w :: w' :: ws))
        with (w ++ [sep] ++ join [sep] (w' :: ws)) in IH.
      rewrite IH. reflexivity.
Qed.

Lemma join_firstn_prefix (sep : str) (parts : list str) :
  forall n, exists rest, join sep parts = join sep (firstn n parts) ++ rest.
Proof.
  induction parts as [|p ps IH]; intros n.
  - exists []. destruct n; reflexivity.
  - destruct n as [|n]; [exists (join sep (p :: ps)); reflexivity|].
    cbn [firstn]. destruct ps as [|q qs].
    + exists []. destruct n; cbn [firstn join]; rewrite app_nil_r; reflexivity.
    + destruct (IH n) as [rest E].
      change (join sep (p :: q :: qs)) with (p ++ sep ++ join sep (q :: qs)).
      destruct n as [|n].
      * exists (sep ++ join sep (q :: qs)). reflexivity.
      * cbn [firstn] in *.
        change (join sep (p :: q :: firstn n qs))
          with (p ++ sep ++ join sep (q :: firstn n qs)).
        rewrite E. exists rest. rewrite <- !app_assoc. reflexivity.
Qed.

(** X13. The prefix that lines 48-50 put before a relative href is always an
    initial part of the page's URL. *)
Theorem relative_link_prefix_is_start_of_page_url (page_url h : str) :
  startswith h (u "http") = false ->
  exists base rest,
    absolute_url page_url h = base ++ h /\ page_url = base ++ rest.
Proof.
  intros H. unfold absolute_url. rewrite H. cbn [negb].
  destruct (join_firstn_prefix (u "/") (split_on 47%N page_url) 3)
    as [rest E].
  exists (join (u "/") (firstn 3 (split_on 47%N page_url))), rest.
  split; [reflexivity|].
  rewrite <- E. symmetry. apply (join_split_on 47%N page_url).
Qed.

(** X14. For a page URL of the form scheme://host or scheme://host/path (no "/"
    inside the scheme part or the host), a relative href is returned
    appended to scheme://host, with nothing put in between. *)
Theorem relative_link_gets_scheme_and_host
    (scheme host rest h : str) :
  (forall c, In c scheme -> c <> 47%N) ->
  (forall c, In c host -> c <> 47%N) ->
  rest = [] \/ (exists path, rest = 47%N :: path) ->
  startswith h (u "http") = false ->
  absolute_url (scheme ++ u "//" ++ host ++ rest) h =
  scheme ++ u "//" ++ host ++ h.
Proof.
  intros Hs Hh Hrest H. unfold absolute_url. rewrite H. cbn [negb].
  change (u "//") with [47%N; 47%N]. cbn [app].
  rewrite (split_on_no_sep 47%N scheme _ Hs).
  pose proof (split_on_no_sep 47%N [] (host ++ rest)
                (fun c (Hc : In c []) => match Hc with end)) as E0.
  cbn [app] in E0. rewrite E0. clear E0.
  destruct Hrest as [-> | [path ->]].
  - rewrite app_nil_r, (split_on_none 47%N host Hh).
    cbn [firstn]. change (u "/") with [47%N]. cbn [join app].
    rewrite <- !app_assoc. reflexivity.
  - pose proof (split_on_no_sep 47%N host path Hh) as E1.
    unfold str, codepoint in *. rewrite E1.
    cbn [firstn]. change (u "/") with [47%N]. cbn [join app].
    rewrite <- !app_assoc. reflexivity.
Qed.

End LinkResolverFacts.

(** * The orchestrator, [main], with [download_excel] and [is_valid_excel] *)

(** The content of a response or of a file. *)
Definition bytes := list Byte.byte.

(** What a run of [main] does that can be seen from outside, in order. *)
Inductive event : Type :=
| Download (url : str)     (* [requests.get(url)] in [download_excel] *)
| FetchPage (url : str)    (* [session.get(page_url, ...)] in the resolver *)
| Print (message : str).   (* [print(message)] *)

(** How a run of [main] ends: it returns (always [None]; [frame] is what
    its variable [df] holds then, if line 252 ran), or an exception leaves
    it. *)
Inductive ending : Type :=
| Returned (frame : option DataFrame)
| Raised.

Definition file_url : str :=
  u "https://www.indec.gob.ar/ftp/cuadros/economia/sh_ipc_precios_promedio.xls".

Definition fallback_url : str :=
  u "https://www.indec.gob.ar/Nivel4/Tema/3/5/31".

(** "Índice de precios al consumidor". *)
Definition reference_text : str :=
  205%N :: u "ndice de precios al consumidor".

Definition invalid_message : str :=
  u "The downloaded content is not a valid Excel file.".

Section Orchestrator.

Variable isdecimal : codepoint -> bool.
Variable round2_float : float -> float.
Variable lower : str -> str.

(** [pd.ExcelFile] on the content: the workbook, [None] when it raises. *)
Variable excel_file : bytes -> option Workbook.

(** What the network answers to the three requests a run can make, each
    made at most once and in this order: the content of the primary URL,
    the anchors of the fallback page, the content of the link found there;
    [None] when the request raises a [RequestException]. *)
Variable primary_response : option bytes.
Variable page_response : option (list anchor).
Variable dynamic_response : str -> option bytes.

(** [is_valid_excel], lines 68-73. *)
Definition is_valid_excel (content : bytes) : bool :=
  match excel_file content with
  | Some _ => true
  | None => false
  end.

(** [populate_price_column_with_numbers] on the content of a file: line
    132 opens it, which raises when it is no workbook. *)
Definition populate_content (content : bytes) (sheet_name : str)
    (df : DataFrame) : option DataFrame :=
  match excel_file content with
  | Some file_content =>
      populate_price_column_with_numbers isdecimal round2_float lower
        file_content sheet_name df
  | None => None
  end.

(** Lines 250-255, after the events [log]: [content] is tested for its
    truth value ([None] and the empty content are false) and for validity. *)
Definition extract_or_report (content : option bytes) (log : list event)
    : list event * ending :=
  match content with
  | Some (b :: rest) =>
      if is_valid_excel (b :: rest) then
        match populate_content (b :: rest) (u "Nacional")
                create_empty_dataframe with
        | Some df => (log, Returned (Some df))
        | None => (log, Raised)
        end
      else (log ++ [Print invalid_message], Returned None)
  | _ => (log ++ [Print invalid_message], Returned None)
  end.

(** The primary download failed the test of line 238. *)
Definition primary_failed : bool :=
  match primary_response with
  | None => true
  | Some content => negb (is_valid_excel content)
  end.

(** The link the resolver gives for the fallback page, line 240. *)
Definition dynamic_url : option str :=
  find_and_return_xls_link lower page_response fallback_url
    (Some reference_text).

(** [main], lines 231-255. *)
Definition main : list event * ending :=
  let log := [Download file_url] in
  if primary_failed then
    let log := log ++ [FetchPage fallback_url] in
    if truthy dynamic_url then
      match dynamic_url with
      | Some url =>
          extract_or_report (dynamic_response url) (log ++ [Download url])
      | None => (log, Returned None)
      end
    else (log, Returned None)
  else extract_or_report primary_response log.

(** ** Properties of a run *)

(** The content that reaches line 250 is absent, empty or no workbook. *)
Definition unusable (content : option bytes) : bool :=
  match content with
  | Some (b :: rest) => negb (is_valid_excel (b :: rest))
  | _ => true
  end.

Lemma extract_or_report_events (content : option bytes) (log : list event) :
  fst (extract_or_report content log) =
  if unusable content then log ++ [Print invalid_message] else log.
Proof.
  unfold extract_or_report, unusable.
  destruct content as [[|b rest]|]; try reflexivity.
  destruct (is_valid_excel (b :: rest)); [|reflexivity].
  cbn [negb]. destruct (populate_content _ _ _); reflexivity.
Qed.

Lemma dynamic_url_truthy (url : str) :
  dynamic_url = Some url -> truthy dynamic_url = true.
Proof.
  intros E. rewrite E. unfold dynamic_url in E.
  destruct page_response as [links|]; [|discriminate E].
  destruct (resolver_some_link lower links fallback_url
              (Some reference_text) url E) as [link [_ [Hx ->]]].
  pose proof (endswith_xls_nonempty _
                (absolute_url_endswith fallback_url _ _ Hx)) as NE.
  destruct (absolute_url fallback_url (href link));
    [congruence | reflexivity].
Qed.

(** The events of a run, case by case. *)
Lemma main_events :
  fst main =
  if primary_failed then
    match dynamic_url with
    | Some url =>
        [Download file_url; FetchPage fallback_url; Download url] ++
        (if unusable (dynamic_response url) then [Print invalid_message]
         else [])
    | None => [Download file_url; FetchPage fallback_url]
    end
  else
    [Download file_url] ++
    (if unusable primary_response then [Print invalid_message] else []).
Proof.
  unfold main. destruct primary_failed.
  - destruct dynamic_url as [url|] eqn:E; [|reflexivity].
    pose proof (dynamic_url_truthy url E) as T. rewrite E in T. rewrite T.
    rewrite extract_or_report_events.
    destruct (unusable (dynamic_response url)); reflexivity.
  - rewrite extract_or_report_events.
    destruct (unusable primary_response); reflexivity.
Qed.

(** X15. The fallback page is requested exactly when the primary download
    failed or its content is no workbook; a valid primary file is never
    followed by another request. *)
Theorem fallback_page_fetched_iff_primary_failed :
  (In (FetchPage fallback_url) (fst main) <-> primary_failed = true) /\
  (primary_failed = false ->
   forall e, In e (fst main) -> e = Download file_url \/ e = Print invalid_message).
Proof.
  rewrite main_events. split.
  - destruct primary_failed.
    + split; [reflexivity|]. intros _.
      destruct dynamic_url; right; left; reflexivity.
    + split; [|discriminate]. intros H. apply in_app_or in H.
      destruct H as [[H | []] | H]; [discriminate H|].
      destruct (unusable primary_response); [|destruct H].
      destruct H as [H | []]. discriminate H.
  - intros ->. intros e H. apply in_app_or in H.
    destruct H as [[<- | []] | H]; [left; reflexivity|].
    destruct (unusable primary_response); [|destruct H].
    destruct H as [<- | []]. right; reflexivity.
Qed.

(** X16. A run ends silently after two requests, with no message and no frame,
    exactly when the primary download failed and the fallback page could
    not be fetched or has no anchor whose href ends with ".xls". *)
Theorem silent_end_iff_no_link :
  main = ([Download file_url; FetchPage fallback_url], Returned None) <->
  primary_failed = true /\
  (page_response = None \/
   exists links,
     page_response = Some links /\
     forall link, In link links -> endswith (href link) (u ".xls") = false).
Proof.
  assert (N : dynamic_url = None <->
              page_response = None \/
              exists links,
                page_response = Some links /\
                forall link, In link links ->
                             endswith (href link) (u ".xls") = false).
  { unfold dynamic_url. split.
    - destruct page_response as [links|]; [|left; reflexivity].
      intros H. right. exists links. split; [reflexivity|].
      apply (resolver_none_no_candidate lower links _ _ H).
    - intros [-> | [links [-> H]]]; [reflexivity|].
      apply resolver_none_without_candidate, H. }
  rewrite <- N. split.
  - intros H. pose proof (f_equal fst H) as E. rewrite main_events in E.
    cbn [fst] in E. destruct primary_failed.
    + split; [reflexivity|].
      destruct dynamic_url as [url|]; [|reflexivity].
      destruct (unusable (dynamic_response url)); discriminate E.
    + destruct (unusable primary_response); discriminate E.
  - intros [P D]. unfold main. rewrite P, D. reflexivity.
Qed.

(** X17. The message is printed exactly when the content that reaches line 250
    is absent, empty or no workbook: the content of the link found on the
    fallback page when the primary download failed, the primary content
    otherwise.  It is never printed when no link was found. *)
Theorem message_printed_iff_unusable_content :
  In (Print invalid_message) (fst main) <->
  (primary_failed = true /\
   exists url, dynamic_url = Some url /\
               unusable (dynamic_response url) = true) \/
  (primary_failed = false /\ unusable primary_response = true).
Proof.
  rewrite main_events. split.
  - destruct primary_failed.
    + destruct dynamic_url as [url|].
      * intros H. left. split; [reflexivity|]. exists url.
        split; [reflexivity|].
        destruct (unusable (dynamic_response url)); [reflexivity|].
        cbn in H. destruct H as [H | [H | [H | []]]]; discriminate H.
      * intros [H | [H | []]]; discriminate H.
    + intros H. right. split; [reflexivity|].
      destruct (unusable primary_response); [reflexivity|].
      destruct H as [H | []]. discriminate H.
  - intros [[-> [url [-> ->]]] | [-> ->]].
    + right; right; right; left; reflexivity.
    + right; left; reflexivity.
Qed.

(** X18. Every content a run downloads comes from the primary URL or from a URL
    that ends with ".xls" and is the (absolute form of the) href of an
    anchor of the fallback page. *)
Theorem downloads_only_primary_or_page_xls (url : str) :
  In (Download url) (fst main) ->
  url = file_url \/
  (endswith url (u ".xls") = true /\
   exists links link,
     page_response = Some links /\ In link links /\
     url = absolute_url fallback_url (href link)).
Proof.
  rewrite main_events. intros H.
  assert (G : In (Download url) [Download file_url] ->
              url = file_url)
    by (intros [[= <-] | []]; reflexivity).
  destruct primary_failed.
  - destruct dynamic_url as [found|] eqn:E.
    + apply in_app_or in H. destruct H as [H | H].
      * destruct H as [H | [H | [H | []]]];
          [left; injection H as <-; reflexivity | discriminate H |].
        injection H as <-. right. unfold dynamic_url in E.
        destruct page_response as [links|]; [|discriminate E].
        destruct (resolver_some_link lower links fallback_url
                    (Some reference_text) found E) as [link [Hl [Hx Hu]]].
        split; [rewrite Hu; apply absolute_url_endswith, Hx|].
        exists links, link. repeat split; assumption.
      * destruct (unusable (dynamic_response found)); [|destruct H].
        destruct H as [H | []]. discriminate H.
    + destruct H as [H | [H | []]];
        [left; injection H as <-; reflexivity | discriminate H].
  - apply in_app_or in H. destruct H as [H | H]; [left; apply G, H|].
    destruct (unusable primary_response); [|destruct H].
    destruct H as [H | []]. discriminate H.
Qed.


End Orchestrator.

(** * The model run on examples *)

(** The example sheet gives four rows, in the order of the scan. *)
Example example_extraction :
  populate_price_column_with_numbers ascii_isdecimal round2_exact ascii_lower
    example_workbook (u "nacional") create_empty_dataframe =
  Some [ mkObservation (PyStr (u "2020-01-01")) (PyStr (u "GBA"))
                       (PyStr (u "Leche")) (PyStr (u "Litro"))
                       (PyFloat 150.5%float);
         mkObservation (PyStr (u "2020-01-01")) (PyStr (u "gba"))
                       (PyStr (u "Pan")) (PyStr (u "Pan")) (PyInt 80);
         mkObservation (PyStr (u "2020-02-01")) (PyStr (u "GBA"))
                       (PyStr (u "Leche")) (PyStr (u "Litro"))
                       (PyFloat 160.25%float);
         mkObservation (PyStr (u "2020-02-01")) (PyStr (u "gba"))
                       (PyStr (u "Pan")) (PyStr (u "Pan")) (PyInt 1) ].
Proof. vm_compute. reflexivity. Qed.

(** A year token is observed only while a candidate's column is read: the
    year of a column without any candidate is not carried to the next. *)
Example year_of_column_without_candidate :
  populate_price_column_with_numbers ascii_isdecimal round2_exact ascii_lower
    [(u "Nacional", [ [PyStr year_2020; nan_cell];
                      [PyStr (u "Enero"); PyInt 5] ])]
    (u "Nacional") create_empty_dataframe =
  Some [ mkObservation PyNone PyNone PyNone PyNone (PyInt 5) ].
Proof. vm_compute. reflexivity. Qed.

(** The loop stops at the cell where a month and a year are both known: a
    year token further down the column is not observed. *)
Example year_below_the_stop :
  observed_year ascii_isdecimal
    [PyStr year_2020; PyStr (u "Enero"); PyInt 5;
     PyStr [65; 241; 111; 32; 50; 48; 50; 49]%N] =
  Some (u "2020").
Proof. vm_compute. reflexivity. Qed.

(** The call on a heap that holds the empty frame only: the five lists are
    created behind references 1 to 5 and the frame returned behind 6; the
    frame passed in is still empty behind 0. *)
Example example_call_on_heap :
  let result :=
    populate_on_heap ascii_isdecimal round2_exact ascii_lower
      example_workbook (u "nacional") 0 [PyFrame create_empty_dataframe] in
  fst result = Some 6 /\
  length (snd result) = 7 /\
  nth_error (snd result) 0 = Some (PyFrame create_empty_dataframe) /\
  nth_error (snd result) 1 =
    Some (PyList [PyFloat 150.5%float; PyInt 80; PyFloat 160.25%float;
                  PyBool true]) /\
  returned_frame result =
    populate_price_column_with_numbers ascii_isdecimal round2_exact
      ascii_lower example_workbook (u "nacional") create_empty_dataframe.
Proof. vm_compute. repeat split; reflexivity. Qed.

(** Without any candidate the call returns the reference it was passed. *)
Example example_call_without_candidate :
  fst (populate_on_heap ascii_isdecimal round2_exact ascii_lower
         [(u "Nacional", [ [PyStr (u "Enero"); nan_cell] ])]
         (u "Nacional") 0 [PyFrame [nan_row]]) = Some 0.
Proof. vm_compute. reflexivity. Qed.

(** * The statements at concrete inputs *)

(** C1 on the example sheet: four candidates, four rows, in scan order. *)
Lemma C1_witness :
  read_sheet ascii_lower example_workbook (u "nacional") = Some example_sheet /\
  exists out,
    populate_price_column_with_numbers ascii_isdecimal round2_exact
      ascii_lower example_workbook (u "nacional") create_empty_dataframe =
      Some out /\
    length out = 4 /\
    map Price out =
      [PyFloat 150.5%float; PyInt 80; PyFloat 160.25%float; PyInt 1].
Proof.
  split; [reflexivity|].
  destruct (C1_one_row_per_positive_numeric_cell ascii_isdecimal round2_exact
              ascii_lower example_workbook (u "nacional") example_sheet
              eq_refl) as [_ [out [E [L P]]]].
  exists out. split; [exact E|]. split.
  - rewrite L. reflexivity.
  - rewrite P. reflexivity.
Defined.

(** C3 on the example sheet: the February column names a month and no year;
    its candidate at row 2 gets the year 2020 observed in the January column. *)
Lemma C3_witness :
  (read_sheet ascii_lower example_workbook (u "nacional") =
     Some ((example_labels ++ [example_january]) ++ example_february :: []) /\
   nth_error example_february 2 = Some (PyFloat 160.25%float) /\
   is_price (PyFloat 160.25%float) = true /\
   last_month example_february = Some (u "02") /\
   existsb (year_token ascii_isdecimal) example_february = false) /\
  exists out obs,
    populate_price_column_with_numbers ascii_isdecimal round2_exact
      ascii_lower example_workbook (u "nacional") create_empty_dataframe =
      Some out /\
    nth_error out 2 = Some obs /\
    Date obs = PyStr (u "2020-02-01").
Proof.
  split; [repeat split; reflexivity|].
  destruct (C3_year_carried_across_columns ascii_isdecimal round2_exact
              ascii_lower example_workbook (u "nacional")
              create_empty_dataframe (example_labels ++ [example_january]) []
              example_february 2 (PyFloat 160.25%float)
              eq_refl eq_refl eq_refl) as [out [obs [E1 [E2 [Hm _]]]]].
  exists out, obs. split; [exact E1|]. split; [exact E2|].
  rewrite (Hm (u "02") eq_refl eq_refl). reflexivity.
Defined.

(** C5 on the example sheet: the row of the candidate 80 holds "gba" and no
    region name. *)
Lemma C5_witness :
  (read_sheet ascii_lower example_workbook (u "nacional") =
     Some (example_labels ++ example_january :: [example_february]) /\
   nth_error example_january 3 = Some (PyInt 80) /\
   is_price (PyInt 80) = true /\
   forall cell,
     In cell (iloc (example_labels ++ example_january :: [example_february]) 3) ->
     is_region cell = false) /\
  exists out obs,
    populate_price_column_with_numbers ascii_isdecimal round2_exact
      ascii_lower example_workbook (u "nacional") create_empty_dataframe =
      Some out /\
    nth_error out 1 = Some obs /\
    Region obs = PyStr (u "gba") /\
    Product obs = PyStr (u "Pan") /\
    Unit obs = PyStr (u "Pan").
Proof.
  assert (H : forall cell,
             In cell (iloc (example_labels ++
                            example_january :: [example_february]) 3) ->
             is_region cell = false).
  { intros cell H. cbv [iloc example_labels example_january example_february
                        app map nth In] in H.
    repeat (destruct H as [<- | H]; [reflexivity|]). destruct H. }
  split; [repeat split; try reflexivity; exact H|].
  destruct (C5_row_without_region_uses_first_cells ascii_isdecimal
              round2_exact ascii_lower example_workbook (u "nacional")
              create_empty_dataframe example_labels [example_february]
              example_january 3 (PyInt 80) eq_refl eq_refl eq_refl H)
    as [out [obs [E1 [E2 [Hr [Hp Hu]]]]]].
  exists out, obs. split; [exact E1|]. split; [exact E2|].
  rewrite Hu, Hp, Hr. repeat split.
Defined.

(** C6 on the text "gba" and on the last row of the example sheet. *)
Lemma C6_witness :
  (In (u "GBA") valid_regions /\ same_ignoring_case (u "gba") (u "GBA") /\
   u "gba" <> u "GBA" /\
   forall s,
     In (PyStr s) [PyStr (u "gba"); PyStr (u "Pan"); PyStr (u "Kg");
                   PyInt 80; PyBool true] ->
     ~ In s valid_regions) /\
  is_region (PyStr (u "gba")) = false /\
  row_fields [PyStr (u "gba"); PyStr (u "Pan"); PyStr (u "Kg");
              PyInt 80; PyBool true] [] [] =
  (Some (u "gba"), [Some (u "Pan")], [Some (u "Pan")]).
Proof.
  assert (Hin : In (u "GBA") valid_regions) by (left; reflexivity).
  assert (Hne : u "gba" <> u "GBA") by discriminate.
  assert (Hrow : forall s,
             In (PyStr s) [PyStr (u "gba"); PyStr (u "Pan"); PyStr (u "Kg");
                           PyInt 80; PyBool true] ->
             ~ In s valid_regions).
  { intros s H.
    repeat (destruct H as [H | H];
            [try discriminate H; injection H as <-;
             intros K; repeat (destruct K as [K | K]; [discriminate K|]);
             destruct K|]).
    destruct H. }
  destruct C6_region_match_is_exact as [_ [_ [Hcase Hfall]]].
  split; [repeat split; [exact Hin | exact Hne | exact Hrow]|].
  split.
  - exact (Hcase (u "gba") (u "GBA") Hin eq_refl Hne).
  - exact (Hfall _ [] [] Hrow).
Defined.

(** C7 on the example workbook, whose sheets are "Hoja1" and "Nacional":
    the target "nacional" selects "Nacional", the target "Regiones" the
    first sheet. *)
Lemma C7_witness :
  (sheet_names example_workbook = [u "Hoja1"] ++ u "Nacional" :: [] /\
   ascii_lower (u "Nacional") = ascii_lower (u "nacional") /\
   (forall p, In p [u "Hoja1"] -> ascii_lower p <> ascii_lower (u "nacional")) /\
   (forall s, In s [u "Hoja1"; u "Nacional"] ->
              ascii_lower s <> ascii_lower (u "Regiones"))) /\
  find_sheet_case_insensitive ascii_lower example_workbook (u "nacional") =
    Some (u "Nacional") /\
  find_sheet_case_insensitive ascii_lower example_workbook (u "Regiones") =
    Some (u "Hoja1").
Proof.
  assert (H1 : forall p, In p [u "Hoja1"] ->
                         ascii_lower p <> ascii_lower (u "nacional")).
  { intros p [<- | []]. discriminate. }
  assert (H2 : forall s, In s [u "Hoja1"; u "Nacional"] ->
                         ascii_lower s <> ascii_lower (u "Regiones")).
  { intros s [<- | [<- | []]]; discriminate. }
  split; [repeat split; [exact H1 | exact H2]|]. split.
  - exact (proj1 (C7_sheet_chosen_ignoring_case ascii_lower example_workbook
                    (u "nacional"))
                 [u "Hoja1"] (u "Nacional") [] eq_refl eq_refl H1).
  - exact (proj2 (C7_sheet_chosen_ignoring_case ascii_lower example_workbook
                    (u "Regiones"))
                 (u "Hoja1") [u "Nacional"] eq_refl H2).
Defined.

(** C9 on the example sheet: the cell [True] of the February column gives
    the fourth row, with Price 1. *)
Lemma C9_witness :
  (read_sheet ascii_lower example_workbook (u "nacional") =
     Some ((example_labels ++ [example_january]) ++ example_february :: []) /\
   nth_error example_february 3 = Some (PyBool true)) /\
  exists out,
    populate_price_column_with_numbers ascii_isdecimal round2_exact
      ascii_lower example_workbook (u "nacional") create_empty_dataframe =
      Some out /\
    length out = 4 /\
    exists obs, nth_error out 3 = Some obs /\ Price obs = PyInt 1.
Proof.
  split; [split; reflexivity|].
  destruct (C9_true_is_a_price_false_is_not ascii_isdecimal round2_exact
              ascii_lower example_workbook (u "nacional")
              (example_labels ++ [example_january]) [] example_february 3 true
              eq_refl eq_refl) as [_ [out [E [L Hobs]]]].
  exists out. split; [exact E|]. split; [rewrite L; reflexivity|].
  exact (Hobs eq_refl).
Defined.

(** C8 on the example workbook, with the empty frame as the only object
    of the heap: the second call returns the rows of the first, which are
    those of the call on the empty frame, and the empty frame is still the
    object behind reference 0. *)
Lemma C8_witness :
  nth_error [PyFrame create_empty_dataframe] 0 =
    Some (PyFrame create_empty_dataframe) /\
  nth_error
    (snd (populate_on_heap ascii_isdecimal round2_exact ascii_lower
            example_workbook (u "nacional") 0
            (snd (populate_on_heap ascii_isdecimal round2_exact ascii_lower
                    example_workbook (u "nacional") 0
                    [PyFrame create_empty_dataframe])))) 0 =
    Some (PyFrame create_empty_dataframe) /\
  returned_frame
    (populate_on_heap ascii_isdecimal round2_exact ascii_lower
       example_workbook (u "nacional") 0
       (snd (populate_on_heap ascii_isdecimal round2_exact ascii_lower
               example_workbook (u "nacional") 0
               [PyFrame create_empty_dataframe]))) =
  returned_frame
    (populate_on_heap ascii_isdecimal round2_exact ascii_lower
       example_workbook (u "nacional") 0 [PyFrame create_empty_dataframe]) /\
  returned_frame
    (populate_on_heap ascii_isdecimal round2_exact ascii_lower
       example_workbook (u "nacional") 0 [PyFrame create_empty_dataframe]) =
  populate_price_column_with_numbers ascii_isdecimal round2_exact ascii_lower
    example_workbook (u "nacional") create_empty_dataframe.
Proof.
  split; [reflexivity|].
  pose proof (C8_calls_keep_no_state ascii_isdecimal round2_exact ascii_lower
                example_workbook (u "nacional")
                [PyFrame create_empty_dataframe] 0 create_empty_dataframe
                eq_refl) as H.
  cbv zeta in H. destruct H as (K1 & K2 & F1 & F2).
  split; [|split; [exact F2 | exact F1]].
  apply K2, K1. reflexivity.
Defined.

(** C4, as amended, on the two example pages. *)
Lemma C4_witness :
  (filter (fun link => endswith (href link) (u ".xls")) page_with_two_links =
     [] ++ mkAnchor (u "https://www.indec.gob.ar/ftp/ipc.xls")
                    (u "Indice de precios al consumidor")
        :: [mkAnchor (u "https://www.indec.gob.ar/ftp/otros.xls")
                     (u "Otros cuadros")] /\
   u "PRECIOS" <> [] /\
   contains (ascii_lower (u "Indice de precios al consumidor"))
            (ascii_lower (u "PRECIOS")) = true /\
   filter (fun link => endswith (href link) (u ".xls"))
          page_with_relative_link =
     [] ++ [mkAnchor (u "/ftp/cuadros/economia/sh_ipc_precios_promedio.xls")
                     (u "Precios promedio")]) /\
  find_and_return_xls_link ascii_lower (Some page_with_two_links)
    indec_page_url (Some (u "PRECIOS")) =
    Some (u "https://www.indec.gob.ar/ftp/ipc.xls") /\
  find_and_return_xls_link ascii_lower (Some page_with_relative_link)
    indec_page_url None =
    Some (u "https://www.indec.gob.ar/ftp/cuadros/economia/sh_ipc_precios_promedio.xls").
Proof.
  assert (Hr : u "PRECIOS" <> []) by discriminate.
  split; [repeat split; [exact Hr]|]. split.
  - exact (proj1 (proj2 (C4_selected_link_made_absolute ascii_lower
                           page_with_two_links indec_page_url
                           (Some (u "PRECIOS"))))
                 (u "PRECIOS") [] _ _ eq_refl Hr eq_refl eq_refl
                 (fun b (H : In b []) => match H with end)).
  - exact (proj1 (proj2 (proj2 (proj2 (C4_selected_link_made_absolute
                                         ascii_lower page_with_relative_link
                                         indec_page_url None))))
                 [] _ (or_introl eq_refl) eq_refl).
Defined.

(** C4, as stated, fails on the code: the href of the selected anchor is
    not returned as it stands when it is relative to the site, and an empty
    reference text, though given, selects the last candidate and not the
    first one whose text contains it. *)
Lemma C4_counterexample :
  (find_and_return_xls_link ascii_lower (Some page_with_relative_link)
     indec_page_url None =
     Some (u "https://www.indec.gob.ar/ftp/cuadros/economia/sh_ipc_precios_promedio.xls") /\
   selected_href ascii_lower page_with_relative_link None =
     Some (u "/ftp/cuadros/economia/sh_ipc_precios_promedio.xls") /\
   find_and_return_xls_link ascii_lower (Some page_with_relative_link)
     indec_page_url None <>
   selected_href ascii_lower page_with_relative_link None) /\
  (find_and_return_xls_link ascii_lower (Some page_with_two_links)
     indec_page_url (Some []) =
     Some (u "https://www.indec.gob.ar/ftp/otros.xls") /\
   selected_href ascii_lower page_with_two_links (Some []) =
     Some (u "https://www.indec.gob.ar/ftp/ipc.xls") /\
   find_and_return_xls_link ascii_lower (Some page_with_two_links)
     indec_page_url (Some []) <>
   selected_href ascii_lower page_with_two_links (Some [])).
Proof.
  repeat split; try reflexivity; vm_compute; discriminate.
Qed.

(** C2, on the code.  In the row  "GBA"  "Leche"  5.0  the region sits at
    position 0, the only text ahead sits at position 1 and no text sits at
    position 2 or later; the row of the frame has Product "Leche" and Unit
    "Leche" too: the loop of lines 199-202 finds nothing and line 203
    appends the value [product_found] still holds. *)
Theorem C2_unit_keeps_product_when_no_text_follows :
  first_str (skipn 1 [PyStr (u "GBA"); PyStr (u "Leche"); PyFloat 5%float]) =
    Some (u "Leche") /\
  first_str (skipn 2 [PyStr (u "GBA"); PyStr (u "Leche"); PyFloat 5%float]) =
    None /\
  populate_price_column_with_numbers ascii_isdecimal round2_exact ascii_lower
    region_product_price_workbook (u "Nacional") create_empty_dataframe =
  Some [ mkObservation PyNone (PyStr (u "GBA")) (PyStr (u "Leche"))
                       (PyStr (u "Leche")) (PyFloat 5%float) ].
Proof. repeat split; vm_compute; reflexivity. Qed.

(** * Further statements at concrete inputs *)

(** [str.lower] on the code points below U+0100: A-Z and the capital
    letters U+00C0 to U+00DE (the sign U+00D7 apart) move up by 32. *)
Definition latin1_lower (s : str) : str :=
  map (fun c =>
         if ((N.leb 65 c && N.leb c 90) ||
             (N.leb 192 c && N.leb c 222 && negb (N.eqb c 215)))%N
         then (c + 32)%N else c) s.

(** A reader that takes a content starting with the byte D0 (the first
    byte of the signature of an .xls file) for the example workbook and
    raises on any other content. *)
Definition example_reader (content : bytes) : option Workbook :=
  match content with
  | b :: _ => if Byte.eqb b Byte.xd0 then Some example_workbook else None
  | [] => None
  end.

(** A fallback page with a report and two spreadsheets; the first
    spreadsheet is the one the reference text names. *)
Definition example_fallback_page : list anchor :=
  [ mkAnchor (u "/informes/ipc.pdf") (u "Informe");
    mkAnchor (u "/ftp/cuadros/economia/sh_ipc_precios_promedio.xls")
             (205%N :: u "ndice de precios al consumidor. Precios promedio");
    mkAnchor (u "/ftp/cuadros/economia/sh_ipc_aperturas.xls")
             (u "Aperturas") ].

(** The sheet read from the example workbook: by name whatever the case,
    the first sheet for a name no sheet has. *)
Lemma read_sheet_grid_witness :
  (example_workbook = [(u "Hoja1", [])] ++ (u "Nacional", example_sheet) :: [] /\
   ascii_lower (u "Nacional") = ascii_lower (u "NACIONAL") /\
   (forall p, In p [(u "Hoja1", @nil (list value))] ->
              ascii_lower (fst p) <> ascii_lower (u "NACIONAL")) /\
   (forall p, In p example_workbook ->
              ascii_lower (fst p) <> ascii_lower (u "Regiones"))) /\
  read_sheet ascii_lower example_workbook (u "NACIONAL") = Some example_sheet /\
  read_sheet ascii_lower example_workbook (u "Regiones") = Some [].
Proof.
  assert (H1 : forall p, In p [(u "Hoja1", @nil (list value))] ->
                         ascii_lower (fst p) <> ascii_lower (u "NACIONAL")).
  { intros p [<- | []]. discriminate. }
  assert (H2 : forall p, In p example_workbook ->
                         ascii_lower (fst p) <> ascii_lower (u "Regiones")).
  { intros p [<- | [<- | []]]; discriminate. }
  split; [repeat split; [exact H1 | exact H2]|]. split.
  - exact (proj1 (read_sheet_grid ascii_lower example_workbook (u "NACIONAL"))
                 [(u "Hoja1", [])] (u "Nacional") example_sheet []
                 eq_refl eq_refl H1).
  - exact (proj2 (read_sheet_grid ascii_lower example_workbook (u "Regiones"))
                 (u "Hoja1") [] [(u "Nacional", example_sheet)] eq_refl H2).
Defined.

(** On the example sheet, which holds prices, a frame with one row passed
    in gives the frame the empty frame gives. *)
Lemma populate_ignores_frame_when_prices_witness :
  (read_sheet ascii_lower example_workbook (u "nacional") = Some example_sheet /\
   price_cells (scan_order example_sheet) <> []) /\
  populate_price_column_with_numbers ascii_isdecimal round2_exact ascii_lower
    example_workbook (u "nacional") [nan_row] =
  populate_price_column_with_numbers ascii_isdecimal round2_exact ascii_lower
    example_workbook (u "nacional") create_empty_dataframe.
Proof.
  assert (NE : price_cells (scan_order example_sheet) <> []) by discriminate.
  split; [split; [reflexivity | exact NE]|].
  exact (proj2 (populate_ignores_frame_when_prices ascii_isdecimal
                  round2_exact ascii_lower example_workbook (u "nacional")
                  example_sheet create_empty_dataframe eq_refl)
               NE [nan_row]).
Defined.

(** The four dates of the example extraction have the form YYYY-MM-01. *)
Lemma every_date_witness :
  exists out,
    populate_price_column_with_numbers ascii_isdecimal round2_exact
      ascii_lower example_workbook (u "nacional") create_empty_dataframe =
      Some out /\
    length out = 4 /\
    Forall (fun obs => date_shaped ascii_isdecimal (Date obs)) out.
Proof.
  destruct (populate_price_column_with_numbers ascii_isdecimal round2_exact
              ascii_lower example_workbook (u "nacional")
              create_empty_dataframe) as [out|] eqn:E;
    [|vm_compute in E; discriminate E].
  exists out. split; [reflexivity|]. split.
  - vm_compute in E. injection E as <-. reflexivity.
  - exact (every_date_is_absent_or_year_month_01 ascii_isdecimal round2_exact
             ascii_lower example_workbook (u "nacional") out E).
Defined.

(** The labels of the candidate 150.5 of the example sheet stand in its row. *)
Lemma labels_witness :
  (read_sheet ascii_lower example_workbook (u "nacional") =
     Some (example_labels ++ example_january :: [example_february]) /\
   nth_error example_january 2 = Some (PyFloat 150.5%float) /\
   is_price (PyFloat 150.5%float) = true) /\
  exists out obs,
    populate_price_column_with_numbers ascii_isdecimal round2_exact
      ascii_lower example_workbook (u "nacional") create_empty_dataframe =
      Some out /\
    nth_error out 0 = Some obs /\
    from_row (iloc example_sheet 2) (Region obs) /\
    from_row (iloc example_sheet 2) (Product obs) /\
    from_row (iloc example_sheet 2) (Unit obs).
Proof.
  split; [repeat split; reflexivity|].
  exact (labels_come_from_the_candidate_row ascii_isdecimal round2_exact
           ascii_lower example_workbook (u "nacional") create_empty_dataframe
           example_labels [example_february] example_january 2
           (PyFloat 150.5%float) eq_refl eq_refl eq_refl).
Defined.

(** The January column of the example sheet holds "Año 2020" and "Enero":
    its candidates are dated with its own year. *)
Lemma own_year_witness :
  (read_sheet ascii_lower example_workbook (u "nacional") =
     Some (example_labels ++ example_january :: [example_february]) /\
   nth_error example_january 2 = Some (PyFloat 150.5%float) /\
   is_price (PyFloat 150.5%float) = true /\
   last_month example_january = Some (u "01") /\
   existsb (year_token ascii_isdecimal) example_january = true) /\
  exists out obs y m,
    populate_price_column_with_numbers ascii_isdecimal round2_exact
      ascii_lower example_workbook (u "nacional") create_empty_dataframe =
      Some out /\
    nth_error out 0 = Some obs /\
    observed_year ascii_isdecimal example_january = Some y /\
    In m (map snd month_mapping) /\
    Date obs = PyStr (y ++ u "-" ++ m ++ u "-01").
Proof.
  split; [repeat split; reflexivity|].
  exact (column_with_year_and_month_uses_its_own_year ascii_isdecimal
           round2_exact ascii_lower example_workbook (u "nacional")
           create_empty_dataframe example_labels [example_february]
           example_january 2 (PyFloat 150.5%float) (u "01")
           eq_refl eq_refl eq_refl eq_refl eq_refl).
Defined.

(** The link found on the page with one relative spreadsheet link. *)
Lemma resolver_returns_an_xls_link_witness :
  find_and_return_xls_link ascii_lower (Some page_with_relative_link)
    indec_page_url None =
    Some (u "https://www.indec.gob.ar/ftp/cuadros/economia/sh_ipc_precios_promedio.xls") /\
  endswith
    (u "https://www.indec.gob.ar/ftp/cuadros/economia/sh_ipc_precios_promedio.xls")
    (u ".xls") = true.
Proof.
  split; [reflexivity|].
  exact (proj1 (proj2 (resolver_returns_an_xls_link ascii_lower
                         page_with_relative_link indec_page_url None _
                         eq_refl))).
Defined.

Lemma relative_link_prefix_witness :
  startswith (u "/ftp/ipc.xls") (u "http") = false /\
  exists base rest,
    absolute_url indec_page_url (u "/ftp/ipc.xls") = base ++ u "/ftp/ipc.xls" /\
    indec_page_url = base ++ rest.
Proof.
  split; [reflexivity|].
  exact (relative_link_prefix_is_start_of_page_url indec_page_url
           (u "/ftp/ipc.xls") eq_refl).
Defined.

Lemma relative_link_gets_scheme_and_host_witness :
  ((forall c, In c (u "https:") -> c <> 47%N) /\
   (forall c, In c (u "www.indec.gob.ar") -> c <> 47%N) /\
   startswith (u "/ftp/ipc.xls") (u "http") = false) /\
  absolute_url (u "https:" ++ u "//" ++ u "www.indec.gob.ar" ++
                u "/Nivel4/Tema/3/5/31") (u "/ftp/ipc.xls") =
  u "https:" ++ u "//" ++ u "www.indec.gob.ar" ++ u "/ftp/ipc.xls".
Proof.
  assert (Hs : forall c, In c (u "https:") -> c <> 47%N).
  { intros c H. repeat (destruct H as [<- | H]; [discriminate|]). destruct H. }
  assert (Hh : forall c, In c (u "www.indec.gob.ar") -> c <> 47%N).
  { intros c H. repeat (destruct H as [<- | H]; [discriminate|]). destruct H. }
  split; [repeat split; [exact Hs | exact Hh]|].
  exact (relative_link_gets_scheme_and_host (u "https:")
           (u "www.indec.gob.ar") (u "/Nivel4/Tema/3/5/31") (u "/ftp/ipc.xls")
           Hs Hh (or_intror (ex_intro _ (u "Nivel4/Tema/3/5/31") eq_refl))
           eq_refl).
Defined.

(** A run whose primary download is a workbook: one request and nothing
    else. *)
Lemma fallback_page_witness :
  primary_failed example_reader (Some [Byte.xd0]) = false /\
  forall e,
    In e (fst (main ascii_isdecimal round2_exact latin1_lower example_reader
                 (Some [Byte.xd0]) (Some example_fallback_page)
                 (fun _ => None))) ->
    e = Download file_url \/ e = Print invalid_message.
Proof.
  split; [reflexivity|].
  exact (proj2 (fallback_page_fetched_iff_primary_failed ascii_isdecimal
                  round2_exact latin1_lower example_reader (Some [Byte.xd0])
                  (Some example_fallback_page) (fun _ => None))
               eq_refl).
Defined.

(** A run whose primary download fails: the second download is the link
    the reference text names on the fallback page. *)
Lemma downloads_witness :
  In (Download (u "https://www.indec.gob.ar/ftp/cuadros/economia/sh_ipc_precios_promedio.xls"))
     (fst (main ascii_isdecimal round2_exact latin1_lower example_reader
             None (Some example_fallback_page) (fun _ => Some [Byte.xd0]))) /\
  (u "https://www.indec.gob.ar/ftp/cuadros/economia/sh_ipc_precios_promedio.xls" =
     file_url \/
   endswith
     (u "https://www.indec.gob.ar/ftp/cuadros/economia/sh_ipc_precios_promedio.xls")
     (u ".xls") = true /\
   exists links link,
     Some example_fallback_page = Some links /\ In link links /\
     u "https://www.indec.gob.ar/ftp/cuadros/economia/sh_ipc_precios_promedio.xls" =
       absolute_url fallback_url (href link)).
Proof.
  assert (H : In (Download (u "https://www.indec.gob.ar/ftp/cuadros/economia/sh_ipc_precios_promedio.xls"))
                 (fst (main ascii_isdecimal round2_exact latin1_lower
                         example_reader None (Some example_fallback_page)
                         (fun _ => Some [Byte.xd0])))).
  { right; right; left. reflexivity. }
  split; [exact H|].
  exact (downloads_only_primary_or_page_xls ascii_isdecimal round2_exact
           latin1_lower example_reader None (Some example_fallback_page)
           (fun _ => Some [Byte.xd0]) _ H).
Defined.


(** The row "GBA" "Leche" "Litro" 150.5 160.25 of the example sheet. *)
Lemma row_with_region_labels_witness :
  (read_sheet ascii_lower example_workbook (u "nacional") =
     Some (example_labels ++ example_january :: [example_february]) /\
   nth_error example_january 2 = Some (PyFloat 150.5%float) /\
   is_price (PyFloat 150.5%float) = true /\
   iloc (example_labels ++ example_january :: [example_february]) 2 =
     [] ++ PyStr (u "GBA")
        :: [PyStr (u "Leche"); PyStr (u "Litro"); PyFloat 150.5%float;
            PyFloat 160.25%float] /\
   In (u "GBA") valid_regions) /\
  exists out obs,
    populate_price_column_with_numbers ascii_isdecimal round2_exact
      ascii_lower example_workbook (u "nacional") create_empty_dataframe =
      Some out /\
    nth_error out 0 = Some obs /\
    Region obs = PyStr (u "GBA") /\
    Product obs = PyStr (u "Leche") /\
    Unit obs = PyStr (u "Litro").
Proof.
  assert (Hin : In (u "GBA") valid_regions) by (left; reflexivity).
  split; [repeat split; try reflexivity; exact Hin|].
  destruct (row_with_region_labels ascii_isdecimal round2_exact ascii_lower
              example_workbook (u "nacional") create_empty_dataframe
              example_labels [example_february] example_january 2
              (PyFloat 150.5%float) []
              [PyStr (u "Leche"); PyStr (u "Litro"); PyFloat 150.5%float;
               PyFloat 160.25%float] (u "GBA")
              eq_refl eq_refl eq_refl eq_refl
              (fun cell (H : In cell []) => match H with end) Hin)
    as [out [obs [E1 [E2 [Hr [Hp Hu]]]]]].
  exists out, obs. split; [exact E1|]. split; [exact E2|].
  split; [exact Hr|]. split; [exact Hp | exact Hu].
Defined.

(** The two candidates of the January column of the example sheet. *)
Lemma same_column_same_date_witness :
  (read_sheet ascii_lower example_workbook (u "nacional") =
     Some (example_labels ++ example_january :: [example_february]) /\
   nth_error example_january 2 = Some (PyFloat 150.5%float) /\
   is_price (PyFloat 150.5%float) = true /\
   nth_error example_january 3 = Some (PyInt 80) /\
   is_price (PyInt 80) = true) /\
  exists out obs1 obs2,
    populate_price_column_with_numbers ascii_isdecimal round2_exact
      ascii_lower example_workbook (u "nacional") create_empty_dataframe =
      Some out /\
    nth_error out 0 = Some obs1 /\
    nth_error out 1 = Some obs2 /\
    Date obs1 = Date obs2.
Proof.
  split; [repeat split; reflexivity|].
  exact (same_column_same_date ascii_isdecimal round2_exact ascii_lower
           example_workbook (u "nacional") create_empty_dataframe
           example_labels [example_february] example_january 2 3
           (PyFloat 150.5%float) (PyInt 80)
           eq_refl eq_refl eq_refl eq_refl eq_refl).
Defined.

(** The two candidates of the row "GBA" of the example sheet. *)
Lemma same_row_same_labels_witness :
  (read_sheet ascii_lower example_workbook (u "nacional") = Some example_sheet /\
   example_sheet = example_labels ++ example_january :: [example_february] /\
   example_sheet = (example_labels ++ [example_january]) ++ example_february :: [] /\
   nth_error example_january 2 = Some (PyFloat 150.5%float) /\
   is_price (PyFloat 150.5%float) = true /\
   nth_error example_february 2 = Some (PyFloat 160.25%float) /\
   is_price (PyFloat 160.25%float) = true) /\
  exists out obs1 obs2,
    populate_price_column_with_numbers ascii_isdecimal round2_exact
      ascii_lower example_workbook (u "nacional") create_empty_dataframe =
      Some out /\
    nth_error out 0 = Some obs1 /\
    nth_error out 2 = Some obs2 /\
    Region obs1 = Region obs2 /\
    Product obs1 = Product obs2 /\
    Unit obs1 = Unit obs2.
Proof.
  split; [repeat split; reflexivity|].
  exact (same_row_same_labels ascii_isdecimal round2_exact ascii_lower
           example_workbook (u "nacional") create_empty_dataframe
           example_sheet example_labels [example_february]
           (example_labels ++ [example_january]) []
           example_january example_february 2
           (PyFloat 150.5%float) (PyFloat 160.25%float)
           eq_refl eq_refl eq_refl eq_refl eq_refl eq_refl eq_refl).
Defined.

(** The sheet name found in the example workbook is one of its two names. *)
Lemma found_sheet_witness :
  find_sheet_case_insensitive ascii_lower example_workbook (u "nacional") =
    Some (u "Nacional") /\
  In (u "Nacional") (sheet_names example_workbook).
Proof.
  split; [reflexivity|].
  exact (proj2 (found_sheet_is_a_sheet ascii_lower example_workbook
                  (u "nacional"))
               (u "Nacional") eq_refl).
Defined.
